(** * Expense tracker: the record store, the receipt images and the PDF report

    A shallow embedding of [expense_tracker.py].  The SQLite table
    [expenses] is a finite map from row ids to the remaining columns, the SQL
    statements the program issues are functions on that map, the Tk callbacks
    are functions on the application state that return what the user is
    shown, and the ReportLab canvas is the list of drawing calls made on it.

    Numbers: ids are Python integers ([Z]); the row ids SQLite hands out are
    signed 64-bit.  Amounts are Python floats, that is binary64 values
    ([float]), with [inf], [nan] and the two zeros.  The coordinates of the
    page are Python floats too; they are modelled by exact rationals ([Q]),
    so the rounding of binary64 arithmetic on the page is outside the model.
    Text: Python strings are modelled by their UTF-8 bytes ([string]). *)

From Stdlib Require Import ZArith QArith Qround Qabs Qpower Ascii String List.
From Stdlib Require Import DecimalString DecimalN DecimalPos Lqa Floats.
From stdpp Require Import base option list gmap strings sorting.

Local Open Scope Z_scope.

(** ** Python built-ins *)

Module Py.

(** [str.isspace] on a character of the ASCII range: TAB, LF, VT, FF, CR,
    the separators FS, GS, RS, US, and the space. *)
Definition isspace (c : ascii) : bool :=
  let n := N_of_ascii c in
  ((9 <=? n) && (n <=? 13) || (28 <=? n) && (n <=? 32))%N.

(** [str.isspace] on a character of two bytes: U+0085 and U+00A0. *)
Definition isspace2 (c c1 : ascii) : bool :=
  let n := N_of_ascii c in
  let n1 := N_of_ascii c1 in
  ((n =? 194) && ((n1 =? 133) || (n1 =? 160)))%N.

(** [str.isspace] on a character of three bytes: U+1680, U+2000 to U+200A,
    U+2028, U+2029, U+202F, U+205F and U+3000. *)
Definition isspace3 (c c1 c2 : ascii) : bool :=
  let n := N_of_ascii c in
  let n1 := N_of_ascii c1 in
  let n2 := N_of_ascii c2 in
  ((n =? 225) && (n1 =? 154) && (n2 =? 128)
   || (n =? 226) && (n1 =? 128)
      && ((128 <=? n2) && (n2 <=? 138) || (n2 =? 168) || (n2 =? 169) || (n2 =? 175))
   || (n =? 226) && (n1 =? 129) && (n2 =? 159)
   || (n =? 227) && (n1 =? 128) && (n2 =? 128))%N.

(** [s.lstrip()]: the whitespace characters at the start go, whatever the
    number of their bytes. *)
Fixpoint lstrip (s : string) : string :=
  match s with
  | EmptyString => EmptyString
  | String c s1 =>
      if isspace c then lstrip s1
      else
        match s1 with
        | EmptyString => s
        | String c1 s2 =>
            if isspace2 c c1 then lstrip s2
            else
              match s2 with
              | EmptyString => s
              | String c2 s3 => if isspace3 c c1 c2 then lstrip s3 else s
              end
        end
  end.

(** Nothing but whitespace. *)
Definition all_blank (s : string) : bool :=
  match lstrip s with EmptyString => true | String _ _ => false end.

(** [s.rstrip()]: the text up to its last run of whitespace. *)
Fixpoint rstrip (s : string) : string :=
  match s with
  | EmptyString => EmptyString
  | String c s' => if all_blank s then EmptyString else String c (rstrip s')
  end.

(** [s.strip()] *)
Definition strip (s : string) : string := rstrip (lstrip s).

(** [s.replace(c, "")] for a one-character [c]. *)
Fixpoint remove_char (c : ascii) (s : string) : string :=
  match s with
  | String d s' => if Ascii.eqb d c then remove_char c s' else String d (remove_char c s')
  | EmptyString => EmptyString
  end.

(** Truth value of a string: non-empty. *)
Definition truthy (s : string) : bool :=
  match s with EmptyString => false | String _ _ => true end.

(** Truth value of an [Optional[str]]: neither [None] nor empty. *)
Definition truthy_opt (o : option string) : bool :=
  match o with Some s => truthy s | None => false end.

(** [a or b] on strings. *)
Definition or_str (a b : string) : string := if truthy a then a else b.

(** [o or ""] on an [Optional[str]]. *)
Definition or_empty (o : option string) : string :=
  match o with Some s => s | None => "" end.

(** [str(n)] for a non-negative integer. *)
Definition str (n : N) : string := NilZero.string_of_uint (N.to_uint n).

(** [s.zfill(width)] for a string of digits: zeros on the left up to
    [width] characters. *)
Definition zfill (width : nat) (s : string) : string :=
  String.concat "" (repeat "0" (width - String.length s)) +:+ s.

(** [min(a, b)]: the first argument unless the second is smaller. *)
Definition min (a b : Q) : Q := if Qle_bool a b then a else b.

(** [os.path.join(a, b)] with POSIX separators. *)
Definition path_join (a b : string) : string :=
  match b with
  | String "/" _ => b
  | _ =>
      match a with
      | EmptyString => b
      | _ => if String.eqb (substring (String.length a - 1) 1 a) "/"
             then a +:+ b else a +:+ "/" +:+ b
      end
  end.

End Py.

(** A [datetime.date] and a [datetime.datetime]. *)
Record pydate := mkdate { year : N; month : N; day : N }.

Record pydatetime := mkdatetime {
  on : pydate;
  hour : N;
  minute : N;
  second : N;
  microsecond : N;
}.

(** [d.strftime("%Y-%m-%d")].  The numeric directives are zero-padded, [%Y]
    to four digits (the years [datetime.now()] and a calendar widget give have
    four). *)
Definition strftime_Ymd (d : pydate) : string :=
  Py.zfill 4 (Py.str (year d)) +:+ "-" +:+ Py.zfill 2 (Py.str (month d))
  +:+ "-" +:+ Py.zfill 2 (Py.str (day d)).

(** [t.strftime("%Y%m%d_%H%M%S")] *)
Definition strftime_stamp (t : pydatetime) : string :=
  Py.zfill 4 (Py.str (year (on t))) +:+ Py.zfill 2 (Py.str (month (on t)))
  +:+ Py.zfill 2 (Py.str (day (on t))) +:+ "_"
  +:+ Py.zfill 2 (Py.str (hour t)) +:+ Py.zfill 2 (Py.str (minute t))
  +:+ Py.zfill 2 (Py.str (second t)).

(** The library parsers whose results the program only tests or stores.
    [None] stands for the [ValueError] the Python function raises. *)
Class Externals := {
  (** [float(s)] *)
  py_float : string -> option float;
  (** [datetime.strptime(value, "%Y-%m-%d").date()] *)
  strptime_Ymd : string -> option pydate;
}.

Definition parse_date_str `{Externals} (value : string) : option pydate :=
  strptime_Ymd value.

Definition format_date (d : pydate) : string := strftime_Ymd d.

(** ** The persisted table

    [CREATE TABLE expenses (id INTEGER PRIMARY KEY AUTOINCREMENT,
    date TEXT NOT NULL, category TEXT NOT NULL, amount REAL NOT NULL,
    description TEXT, mission TEXT, image_path TEXT)].  The three nullable
    columns are options. *)

Record Fields := mkFields {
  date : string;
  category : string;
  amount : float;
  description : option string;
  mission : option string;
  image_path : option string;
}.

(** A fetched [sqlite3.Row]: the id and the other columns. *)
Abbreviation Row := (Z * Fields)%type.

Definition id (r : Row) : Z := fst r.
Definition cols (r : Row) : Fields := snd r.

(** The database file: the table, keyed by its primary key, and the counter
    SQLite keeps in [sqlite_sequence] for an AUTOINCREMENT column (the largest
    row id ever handed out). *)
Record database := mkdb {
  expenses : gmap Z Fields;
  sqlite_sequence : Z;
}.

Module Sql.

(** [SELECT * FROM expenses]: every row. *)
Definition select_all (t : gmap Z Fields) : list Row := map_to_list t.

(** Largest row id in the table (0 when there is none above 0). *)
Definition max_rowid (t : gmap Z Fields) : Z :=
  foldr Z.max 0 ((map_to_list t).*1).

(** The largest row id there is: 2^63 - 1. *)
Definition max_id : Z := 9223372036854775807.

(** The largest row id ever used in the table. *)
Definition largest_used (d : database) : Z :=
  Z.max (sqlite_sequence d) (max_rowid (expenses d)).

(** A float bound to a parameter of a statement: SQLite takes NaN as NULL,
    which the NOT NULL constraint of [amount] refuses. *)
Definition bound_as_null (x : float) : bool := PrimFloat.is_nan x.

(** The row an INSERT without an id adds: it gets one more than the largest
    id ever used, and the counter moves to it. *)
Definition append_row (f : Fields) (d : database) : database * Z :=
  let rowid := largest_used d + 1 in
  (mkdb (<[rowid := f]> (expenses d)) rowid, rowid).

(** [INSERT INTO expenses(date, ...) VALUES (...)].  [None] is the exception
    [execute] raises, with the table as it was: [IntegrityError] when the
    amount is bound as NULL, [OperationalError] (the database is full) when
    the largest row id has been used. *)
Definition insert (f : Fields) (d : database) : option (database * Z) :=
  if bound_as_null (amount f) then None
  else if max_id <=? largest_used d then None
  else Some (append_row f d).

(** The rows of [UPDATE expenses SET date=?, ... WHERE id=?]: every row whose
    id is the given one gets the new columns. *)
Definition update_where_id (f : Fields) (i : Z) (t : gmap Z Fields) : gmap Z Fields :=
  map_imap (fun k old => Some (if decide (k = i) then f else old)) t.

(** [UPDATE expenses SET date=?, ... WHERE id=?].  [None] is the
    [IntegrityError] raised when a row has that id and the amount is bound as
    NULL; with no such row no constraint is looked at. *)
Definition update (f : Fields) (i : Z) (t : gmap Z Fields) : option (gmap Z Fields) :=
  if bound_as_null (amount f) && bool_decide (is_Some (t !! i)) then None
  else Some (update_where_id f i t).

(** [DELETE FROM expenses WHERE id=?]: the rows with another id stay. *)
Definition delete_where_id (i : Z) (t : gmap Z Fields) : gmap Z Fields :=
  filter (fun kv => kv.1 <> i) t.

(** Comparison of two TEXT values under the BINARY collation. *)
Definition text_le (a b : string) : bool := String.leb a b.

(** Lower-case of an ASCII letter, as [LIKE] folds case. *)
Definition fold_case (c : ascii) : ascii :=
  let n := N_of_ascii c in
  if ((65 <=? n) && (n <=? 90))%N then ascii_of_N (n + 32) else c.

(** A continuation byte of a multi-byte UTF-8 character. *)
Definition is_continuation (c : ascii) : bool :=
  let n := N_of_ascii c in ((128 <=? n) && (n <=? 191))%N.

Fixpoint skip_continuation (s : string) : string :=
  match s with
  | String c s' => if is_continuation c then skip_continuation s' else s
  | EmptyString => EmptyString
  end.

(** [text LIKE pattern] with the default settings: [%] matches any run of
    characters, [_] matches one character (the byte that starts it and the
    continuation bytes after it, never a part of a character), any other byte
    matches itself up to the case of ASCII letters; there is no escape
    character. *)
Fixpoint like (pattern text : string) : bool :=
  match pattern with
  | EmptyString => negb (Py.truthy text)
  | String c p =>
      if Ascii.eqb c "%" then
        (fix any (t : string) : bool :=
           like p t || match t with String _ t' => any t' | EmptyString => false end) text
      else
        match text with
        | EmptyString => false
        | String d t =>
            if Ascii.eqb c "_"
            then negb (is_continuation d)
                 && like p (if (192 <=? N_of_ascii d)%N then skip_continuation t else t)
            else Ascii.eqb (fold_case c) (fold_case d) && like p t
        end
  end.

(** [column LIKE pattern] on a nullable column: NULL never matches. *)
Definition like_null (pattern : string) (v : option string) : bool :=
  match v with Some t => like pattern t | None => false end.

(** [column = ?] on a nullable TEXT column: NULL never matches. *)
Definition eq_null (v : option string) (x : string) : bool :=
  match v with Some t => String.eqb t x | None => false end.

(** [ORDER BY date ASC, id ASC] *)
Definition date_id_asc (a b : Row) : Prop :=
  strict String.le (date (cols a)) (date (cols b))
  \/ (date (cols a) = date (cols b) /\ id a <= id b).

(** [ORDER BY date DESC, id DESC] *)
Definition date_id_desc (a b : Row) : Prop := date_id_asc b a.

Global Instance date_id_asc_dec : RelDecision date_id_asc.
Proof. intros a b. unfold date_id_asc. apply _. Defined.

Global Instance date_id_desc_dec : RelDecision date_id_desc.
Proof. intros a b. unfold date_id_desc. apply _. Defined.

Definition order_by (R : relation Row) `{!RelDecision R} (rows : list Row) : list Row :=
  merge_sort R rows.

End Sql.

(** ** The application *)

(** A [tkinter.messagebox] call. *)
Inductive msgbox :=
  | showerror (title message : string)
  | showinfo (title message : string).

(** How a callback ends: through one of its early [return]s, after its last
    statement, or by an exception nothing in it catches.  In the first two
    cases the message box it showed, if any, is recorded. *)
Inductive outcome :=
  | Returned (shown : option msgbox)
  | Finished (shown : option msgbox)
  | Raised.

(** The date input is a [tkcalendar.DateEntry] holding a date when that
    package is installed, a plain text entry otherwise. *)
Inductive date_widget :=
  | DateEntry (d : pydate)
  | Entry (text : string).

(** The contents of the form widgets and the attached image. *)
Record form := mkform {
  date_input : date_widget;
  category_var : string;
  amount_var : string;
  description_entry : string;
  mission_entry : string;
  current_image_path : option string;
  image_path_var : string;
}.

(** The state the callbacks share: the database file, the selected row and
    the rows shown in the table view. *)
Record app := mkapp {
  db : database;
  selected_expense_id : option Z;
  tree : list Row;
}.

Section Store.
Context `{Externals}.

Definition date_text (w : date_widget) : string :=
  match w with
  | DateEntry d => format_date d
  | Entry text => Py.strip text
  end.

Definition amount_text (f : form) : string :=
  Py.remove_char "," (Py.strip (amount_var f)).

Definition _validate_form (f : form) : bool * option string :=
  match parse_date_str (date_text (date_input f)) with
  | None => (false, Some "Invalid date. Use YYYY-MM-DD.")
  | Some _ =>
      if negb (Py.truthy (Py.strip (category_var f)))
      then (false, Some "Category is required.")
      else
        match py_float (amount_text f) with
        | None => (false, Some "Amount must be a number.")
        | Some amount_val =>
            if (amount_val <? 0)%float
            then (false, Some "Amount cannot be negative.")
            else (true, None)
        end
  end.

(** [self.current_image_path or self.image_path_var.get().strip() or None] *)
Definition attached_image (f : form) : option string :=
  if Py.truthy_opt (current_image_path f) then current_image_path f
  else if Py.truthy (Py.strip (image_path_var f))
       then Some (Py.strip (image_path_var f))
       else None.

(** The values read from the form once [float] has given [amount_val]. *)
Definition form_values (f : form) (amount_val : float) : Fields :=
  {| date := date_text (date_input f);
     category := Py.strip (category_var f);
     amount := amount_val;
     description := Some (Py.strip (description_entry f));
     mission := Some (Py.strip (mission_entry f));
     image_path := attached_image f |}.

(** [None] when [float] raises. *)
Definition _get_form_values (f : form) : option Fields :=
  form_values f <$> py_float (amount_text f).

(** The query of [load_expenses]. *)
Definition list_all (d : database) : list Row :=
  Sql.order_by Sql.date_id_desc (Sql.select_all (expenses d)).

(** [clear_form] drops the selection, [load_expenses] refills the table
    view. *)
Definition load_expenses (a : app) : app :=
  mkapp (db a) (selected_expense_id a) (list_all (db a)).

Definition clear_form (a : app) : app :=
  mkapp (db a) None (tree a).

Definition validation_error (err : option string) : msgbox :=
  showerror "Validation Error" (Py.or_str (Py.or_empty err) "Invalid input").

Definition add_expense (a : app) (f : form) : app * outcome :=
  let '(ok, err) := _validate_form f in
  if negb ok then (a, Returned (Some (validation_error err)))
  else
    match _get_form_values f with
    | None => (a, Raised)
    | Some v =>
        match Sql.insert v (db a) with
        | None => (a, Raised)
        | Some (d, _) =>
            (load_expenses (clear_form (mkapp d (selected_expense_id a) (tree a))),
             Finished None)
        end
    end.

Definition edit_expense (a : app) (f : form) : app * outcome :=
  match selected_expense_id a with
  | None =>
      (a, Returned (Some (showinfo "No selection" "Double-click an item to load for editing.")))
  | Some sel =>
      let '(ok, err) := _validate_form f in
      if negb ok then (a, Returned (Some (validation_error err)))
      else
        match _get_form_values f with
        | None => (a, Raised)
        | Some v =>
            match Sql.update v sel (expenses (db a)) with
            | None => (a, Raised)
            | Some t =>
                let d := mkdb t (sqlite_sequence (db a)) in
                (load_expenses (clear_form (mkapp d (selected_expense_id a) (tree a))),
                 Finished None)
            end
        end
  end.

(** [confirm] is the answer to the "Confirm Delete" question. *)
Definition delete_expense (a : app) (confirm : bool) : app * outcome :=
  match selected_expense_id a with
  | None => (a, Returned (Some (showinfo "No selection" "Select a row to delete.")))
  | Some sel =>
      if negb confirm then (a, Returned None)
      else
        let d := mkdb (Sql.delete_where_id sel (expenses (db a)))
                      (sqlite_sequence (db a)) in
        (load_expenses (clear_form (mkapp d (selected_expense_id a) (tree a))),
         Finished None)
  end.

(** The WHERE clause [filter_expenses] builds: each of the three tests is
    added only when its value is truthy. *)
Definition filter_where (from_str to_str : option string) (mission_text : string)
    (r : Row) : bool :=
  (match from_str with
   | Some s => if Py.truthy s then Sql.text_le s (date (cols r)) else true
   | None => true
   end)
  && (match to_str with
      | Some s => if Py.truthy s then Sql.text_le (date (cols r)) s else true
      | None => true
      end)
  && (if Py.truthy mission_text
      then Sql.like_null ("%" +:+ mission_text +:+ "%") (mission (cols r))
      else true).

(** The query of [filter_expenses]; [from_str] and [to_str] are what
    [_get_filter_date_value] returned for the two date inputs, [mission_entry_text]
    is the text of the mission filter. *)
Definition filter_rows (d : database) (from_str to_str : option string)
    (mission_entry_text : string) : list Row :=
  Sql.order_by Sql.date_id_desc
    (List.filter (filter_where from_str to_str (Py.strip mission_entry_text))
       (Sql.select_all (expenses d))).

Definition filter_expenses (a : app) (from_str to_str : option string)
    (mission_entry_text : string) : app :=
  mkapp (db a) (selected_expense_id a)
    (filter_rows (db a) from_str to_str mission_entry_text).

End Store.

(** ** Number formatting *)

(** Nearest integer, a tie going to the even neighbour: the rounding of
    [format(x, ".2f")]. *)
Definition round_half_even (q : Q) : Z :=
  let f := Qfloor q in
  match Qcompare (q - inject_Z f)%Q (1 # 2) with
  | Lt => f
  | Gt => f + 1
  | Eq => if Z.even f then f else f + 1
  end.

(** The rational a finite float of mantissa [m] and exponent [e] stands
    for, up to its sign: m * 2^e. *)
Definition magnitude (m : positive) (e : Z) : Q := (inject_Z (Zpos m) * 2 ^ e)%Q.

(** A sign, and the hundredths nearest to the rational [q >= 0] written as
    integer part, point and two decimals. *)
Definition fixed_2 (negative : bool) (q : Q) : string :=
  let n := Z.to_N (round_half_even (q * 100)%Q) in
  (if negative then "-" else "")
  +:+ Py.str (n / 100)%N +:+ "." +:+ Py.zfill 2 (Py.str (n mod 100)%N).

(** [f"{x:.2f}"]: the value the float stands for, rounded to the nearest
    hundredth; an infinity and NaN are written by name. *)
Definition format_2f (x : float) : string :=
  match Prim2SF x with
  | S754_zero s => fixed_2 s 0
  | S754_finite s m e => fixed_2 s (magnitude m e)
  | S754_infinity s => if s then "-inf" else "inf"
  | S754_nan => "nan"
  end.

(** ** The receipt images *)

(** What the program uses of a Pillow image: its mode, the conversion to
    another mode and the JPEG encoder.  Both can raise; the right side of a
    result is then the text of the exception. *)
Class Pillow (Image : Type) := {
  mode : Image -> string;
  (** [image.convert(mode)] *)
  convert : Image -> string -> Image + string;
  (** the bytes [img.save(target, format="JPEG", quality=q)] writes *)
  jpeg : Image -> Z -> string + string;
  (** what a [save] that raises leaves at its target, given what was there *)
  leftover : Image -> option string -> option string;
}.

(** The files on disk, by path. *)
Abbreviation files := (gmap string string).

Section Receipts.
Context {Image : Type} `{Pillow Image}.

(** [app_dir] is the directory of the script. *)
Definition receipts_dir (app_dir : string) : string := Py.path_join app_dir "receipts".

(** [_save_image_to_receipts]; [now] is the value of [datetime.now()].  The
    result is the new disk and the returned path, or the text of the
    exception that leaves the function. *)
Definition _save_image_to_receipts (app_dir : string) (now : pydatetime)
    (disk : files) (image : Image) : files * (string + string) :=
  let base := strftime_stamp now in
  let target := Py.path_join (receipts_dir app_dir) ("receipt_" +:+ base +:+ ".jpg") in
  match (if String.eqb (mode image) "RGB" || String.eqb (mode image) "L"
         then inl image else convert image "RGB") with
  | inr e => (disk, inr e)
  | inl img =>
      match jpeg img 85 with
      | inl bytes => (<[target := bytes]> disk, inl target)
      | inr e => (partial_alter (leftover img) target disk, inr e)
      end
  end.

End Receipts.

(** ** The PDF report *)

(** The calls made on the ReportLab canvas. *)
Inductive canvas_op :=
  | setFont (name : string) (size : Z)
  | drawString (x y : Q) (text : string)
  | setFillColor_black
  | line (x1 y1 x2 y2 : Q)
  | showPage
  | drawImage (path : string) (x y width height : Q).

(** What [export_pdf] finds around it. *)
Record report_env := mkenv {
  HAS_REPORTLAB : bool;
  HAS_PIL : bool;
  HAS_PERSIAN : bool;
  (** [A4] *)
  page_width : Q;
  page_height : Q;
  (** [date.today()] *)
  today : pydate;
  (** the font [_register_persian_font] settles on *)
  font_name : string;
  (** [get_display(arabic_reshaper.reshape(text))]; [None] when it raises *)
  reshape_display : string -> option string;
  (** [os.path.isfile] *)
  isfile : string -> bool;
  (** whether [ImageReader(img_path)] returns *)
  image_reader : string -> bool;
  (** [Image.open(img_path).size]; [None] when opening raises *)
  image_size : string -> option (Z * Z);
  (** whether [c.drawImage] returns for that file *)
  draw_image : string -> bool;
}.

Section Report.
Variable env : report_env.
Local Open Scope Q_scope.

Definition _persian_text (text : string) : string :=
  if negb (HAS_PERSIAN env) then text
  else match reshape_display env text with
       | Some bidi_text => bidi_text
       | None => text
       end.

Definition line_height : Q := 16.
Definition image_max_width : Q := page_width env - 80.
Definition header_positions : list Q := [40; 70; 150; 250; 330; 520].
Definition top_of_page : Q := page_height env - 100.

(** The query of [export_pdf]:
    [SELECT * FROM expenses WHERE mission = ? ORDER BY date ASC, id ASC]. *)
Definition report_rows (d : database) (mission_name : string) : list Row :=
  Sql.order_by Sql.date_id_asc
    (List.filter (fun r => Sql.eq_null (mission (cols r)) mission_name)
       (Sql.select_all (expenses d))).

(** [for text, x in zip(texts, header_positions): c.drawString(x, y, ...)] *)
Definition draw_cells (y : Q) (texts : list string) : list canvas_op :=
  zip_with (fun text x => drawString x y (_persian_text text)) texts header_positions.

(** A new page with the title and the date line again. *)
Definition new_page (title_text sub_text : string) : list canvas_op :=
  [ showPage;
    setFont (font_name env) 16; drawString 40 (page_height env - 50) title_text;
    setFont (font_name env) 11; drawString 40 (page_height env - 70) sub_text ].

(** The size at which an image of [width] by [height] pixels is drawn. *)
Definition image_scale (width height : Z) : Q :=
  Py.min (image_max_width / inject_Z width) (300 / inject_Z height).

Definition drawn_size (width height : Z) : Q * Q :=
  let scale := image_scale width height in
  (inject_Z width * scale, inject_Z height * scale).

(** The body of the [try] that embeds a record's image, started with the
    cursor at [y].  It gives the canvas calls made and the cursor afterwards;
    an exception leaves the block with what was done until then. *)
Definition embed_image (title_text sub_text : string) (y : Q) (img_path : string)
    : list canvas_op * Q :=
  if negb (image_reader env img_path) then ([], y)
  else
    match (if HAS_PIL env then image_size env img_path else Some (1024, 768)%Z) with
    | None => ([], y)
    | Some (width, height) =>
        if ((width =? 0) || (height =? 0))%Z then ([], y)
        else
          let '(new_w, new_h) := drawn_size width height in
          let '(before, y1) :=
            if Qlt_le_dec (y - new_h) 60
            then (new_page title_text sub_text ++ [setFont (font_name env) 10],
                  top_of_page)
            else ([], y) in
          if draw_image env img_path
          then (before ++ [drawImage img_path 40 (y1 - new_h) new_w new_h],
                y1 - (new_h + 8))
          else (before, y1)
    end.

(** The six cells of a row. *)
Definition row_values (index : N) (r : Row) : list string :=
  [ Py.str index; date (cols r); category (cols r); format_2f (amount (cols r));
    Py.or_empty (description (cols r)); Py.or_empty (mission (cols r)) ].

(** One turn of the loop over the records. *)
Definition render_record (title_text sub_text : string) (index : N) (y : Q) (r : Row)
    : list canvas_op * Q :=
  let text := setFont (font_name env) 10 :: draw_cells y (row_values index r) in
  let y1 := y - line_height in
  let '(image, y2) :=
    match image_path (cols r) with
    | Some img_path =>
        if Py.truthy img_path && isfile env img_path
        then embed_image title_text sub_text y1 img_path
        else ([], y1)
    | None => ([], y1)
    end in
  let '(break, y3) :=
    if Qlt_le_dec y2 60
    then (new_page title_text sub_text, top_of_page)
    else ([], y2) in
  (text ++ image ++ break, y3).

Fixpoint render_records (title_text sub_text : string) (index : N) (y : Q)
    (rows : list Row) : list canvas_op :=
  match rows with
  | [] => []
  | r :: rest =>
      let '(calls, y') := render_record title_text sub_text index y r in
      calls ++ render_records title_text sub_text (index + 1)%N y' rest
  end.

Definition headers : list string :=
  ["#"; "تاریخ"; "دسته"; "مبلغ"; "توضیحات"; "ماموریت"].

(** Everything drawn between [canvas.Canvas(save_path)] and [c.save()]. *)
Definition document (mission_name : string) (rows : list Row) : list canvas_op :=
  let today_str := format_date (today env) in
  let title_text := _persian_text ("گزارش هزینه ماموریت: " +:+ mission_name) in
  let sub_text := _persian_text ("تاریخ تهیه گزارش: " +:+ today_str) in
  let y := top_of_page in
  [ setFont (font_name env) 16; drawString 40 (page_height env - 50) title_text;
    setFont (font_name env) 11; drawString 40 (page_height env - 70) sub_text;
    setFillColor_black; setFont (font_name env) 12 ]
  ++ draw_cells y headers
  ++ [ line 40 (y - line_height + 4) (page_width env - 40) (y - line_height + 4) ]
  ++ render_records title_text sub_text 1 (y - line_height - 6) rows.

(** The mission to export: the filter's, else the form's, else what the
    user types when asked ([prompt], [None] when the dialog is dismissed). *)
Definition export_mission (filter_mission_text mission_text : string)
    (prompt : option string) : option string :=
  let mission_name := Py.or_str (Py.strip filter_mission_text) (Py.strip mission_text) in
  if Py.truthy mission_name then Some mission_name
  else if Py.truthy_opt prompt then prompt else None.

(** From the query on, for the mission settled on.  [save_path] is the
    answer of the save dialog, empty when it is dismissed.  The second
    component is the file written: its path and the calls it records. *)
Definition generate (d : database) (mission_name save_path : string)
    : outcome * option (string * list canvas_op) :=
  let rows := report_rows d mission_name in
  match rows with
  | [] => (Returned (Some (showinfo "No Data" "No expenses found for the given mission.")),
           None)
  | _ :: _ =>
      if negb (Py.truthy save_path) then (Returned None, None)
      else
        (Finished (Some (showinfo "Export Complete"
                           ("PDF saved to:" +:+ String "010" save_path))),
         Some (save_path, document mission_name rows))
  end.

Definition export_pdf (d : database) (filter_mission_text mission_text : string)
    (prompt : option string) (save_path : string)
    : outcome * option (string * list canvas_op) :=
  if negb (HAS_REPORTLAB env)
  then (Returned (Some (showerror "Missing Dependency"
                          "ReportLab is required for PDF export.")), None)
  else
    match export_mission filter_mission_text mission_text prompt with
    | None => (Returned None, None)
    | Some mission_name => generate d mission_name save_path
    end.

End Report.

(** ** Parsers for ASCII input

    One implementation of [Externals], enough to run the callbacks on
    concrete forms: [float] on the decimal texts Python reads (sign, digits
    with single underscores between them, fraction, exponent) and on the
    names of infinity and NaN, giving the nearest binary64; [strptime] on
    four, two and two digits naming a day of the calendar. *)

Module Ascii_input.

Definition digit (c : ascii) : option N :=
  let n := N_of_ascii c in
  if ((48 <=? n) && (n <=? 57))%N then Some (n - 48)%N else None.

(** The number a string of digits writes, after the digits in [acc]. *)
Fixpoint number (acc : N) (s : string) : option N :=
  match s with
  | EmptyString => Some acc
  | String c s' =>
      match digit c with
      | Some d => number (10 * acc + d)%N s'
      | None => None
      end
  end.

(** The text before the first [sep] and the text after it, when there is
    one. *)
Fixpoint split_at (sep : ascii) (s : string) : string * option string :=
  match s with
  | EmptyString => (EmptyString, None)
  | String c s' =>
      if Ascii.eqb c sep then (EmptyString, Some s')
      else let '(a, b) := split_at sep s' in (String c a, b)
  end.

(** Digits with single underscores between them: the digits. *)
Fixpoint grouped (after_digit : bool) (s : string) : option string :=
  match s with
  | EmptyString => if after_digit then Some EmptyString else None
  | String c s' =>
      match digit c with
      | Some _ => String c <$> grouped true s'
      | None => if Ascii.eqb c "_" && after_digit then grouped false s' else None
      end
  end.

(** A run of digits that may be empty. *)
Definition digits_or_none (s : string) : option string :=
  if Py.truthy s then grouped false s else Some EmptyString.

(** The binary64 nearest to the rational [q], which is not negative; a tie
    goes to the even mantissa, and what rounds to 2^1024 or more is
    infinity. *)
Definition nearest (q : Q) : float :=
  if (Qnum q <=? 0)%Z then 0%float
  else
    let t := (Z.log2 (Qnum q) - Z.log2 (Zpos (Qden q)))%Z in
    let e1 := if Qle_bool (2 ^ t) q then (t - 52)%Z else (t - 53)%Z in
    let e := Z.max e1 (-1074) in
    let m := round_half_even (q / 2 ^ e)%Q in
    let '(m, e) := if (m =? 2 ^ 53)%Z then (2 ^ 52, e + 1)%Z else (m, e) in
    if (971 <? e)%Z then infinity
    else match m with
         | Zpos p => SF2Prim (S754_finite false p e)
         | _ => 0%float
         end.

(** Mantissa and exponent, both unsigned texts. *)
Definition unsigned_decimal (s : string) : option float :=
  let '(mantissa, exponent) := split_at "e" s in
  let '(whole, rest) := split_at "." mantissa in
  let fraction := default "" rest in
  if negb (Py.truthy whole) && negb (Py.truthy fraction) then None
  else
    match digits_or_none whole ≫= number 0, digits_or_none fraction,
          match exponent with
          | None => Some 0
          | Some (String "-" x) => Z.opp <$> (Z.of_N <$> (grouped false x ≫= number 0))
          | Some (String "+" x) => Z.of_N <$> (grouped false x ≫= number 0)
          | Some x => Z.of_N <$> (grouped false x ≫= number 0)
          end with
    | Some w, Some digits, Some x =>
        match number 0 digits with
        | Some f =>
            let k := Z.of_nat (String.length digits) in
            Some (nearest (inject_Z (Z.of_N w * 10 ^ k + Z.of_N f) * 10 ^ (x - k))%Q)
        | None => None
        end
    | _, _, _ => None
    end.

(** The text with its ASCII letters in lower case. *)
Fixpoint folded (s : string) : string :=
  match s with
  | EmptyString => EmptyString
  | String c s' => String (Sql.fold_case c) (folded s')
  end.

Definition unsigned (s : string) : option float :=
  if String.eqb s "inf" || String.eqb s "infinity" then Some infinity
  else if String.eqb s "nan" then Some nan
  else unsigned_decimal s.

Definition float (s : string) : option float :=
  match folded (Py.strip s) with
  | String "-" s' => PrimFloat.opp <$> unsigned s'
  | String "+" s' => unsigned s'
  | s' => unsigned s'
  end.

Definition leap (y : N) : bool :=
  ((y mod 4 =? 0) && (negb (y mod 100 =? 0) || (y mod 400 =? 0)))%N.

Definition days_in_month (y m : N) : N :=
  if (m =? 2)%N then (if leap y then 29 else 28)%N
  else if ((m =? 4) || (m =? 6) || (m =? 9) || (m =? 11))%N then 30%N else 31%N.

Definition strptime (s : string) : option pydate :=
  match split_at "-" s with
  | (ys, Some rest) =>
      match split_at "-" rest with
      | (ms, Some ds) =>
          if (Nat.eqb (String.length ys) 4 && Nat.eqb (String.length ms) 2
              && Nat.eqb (String.length ds) 2)
          then
            match number 0 ys, number 0 ms, number 0 ds with
            | Some y, Some m, Some d =>
                if ((1 <=? y) && (1 <=? m) && (m <=? 12) && (1 <=? d)
                    && (d <=? days_in_month y m))%N
                then Some (mkdate y m d) else None
            | _, _, _ => None
            end
          else None
      | _ => None
      end
  | _ => None
  end.

Definition externals : Externals :=
  {| py_float := float; strptime_Ymd := strptime |}.

End Ascii_input.

(** ** Substrings *)

(** [sub] occurs in [t], byte for byte. *)
Fixpoint contains (sub t : string) : bool :=
  String.prefix sub t
  || match t with String _ t' => contains sub t' | EmptyString => false end.

(** [sub] starts [t] up to the case of ASCII letters. *)
Fixpoint prefix_nocase (sub t : string) : bool :=
  match sub, t with
  | EmptyString, _ => true
  | String c sub', String d t' =>
      Ascii.eqb (Sql.fold_case c) (Sql.fold_case d) && prefix_nocase sub' t'
  | String _ _, EmptyString => false
  end.

(** [sub] occurs in [t] up to the case of ASCII letters. *)
Fixpoint contains_nocase (sub t : string) : bool :=
  prefix_nocase sub t
  || match t with String _ t' => contains_nocase sub t' | EmptyString => false end.

(** No [%] and no [_]. *)
Fixpoint wildcard_free (s : string) : bool :=
  match s with
  | EmptyString => true
  | String c s' => negb (Ascii.eqb c "%") && negb (Ascii.eqb c "_") && wildcard_free s'
  end.

(** The two date tests of the filter, each applied when its bound is given. *)
Definition in_date_range (from_str to_str : option string) (r : Row) : bool :=
  (if Py.truthy_opt from_str
   then Sql.text_le (Py.or_empty from_str) (date (cols r)) else true)
  && (if Py.truthy_opt to_str
      then Sql.text_le (date (cols r)) (Py.or_empty to_str) else true).

(** The filter read with a mission test [occurs]: a record passes when it is
    in the date range and, if a mission text is given, its mission is set and
    the text occurs in it. *)
Definition where_mission (occurs : string -> string -> bool)
    (from_str to_str : option string) (mission_text : string) (r : Row) : bool :=
  in_date_range from_str to_str r
  && (if Py.truthy mission_text
      then match mission (cols r) with
           | Some t => occurs mission_text t
           | None => false
           end
      else true).

(** A message box that reports an error, or an exception. *)
Definition reports_error (o : outcome) : Prop :=
  o = Raised \/ exists title message, o = Returned (Some (showerror title message)).

(** ** Reading a document back *)

(** The texts drawn while the font size is [size]; [current] is the size in
    force before the first call.  The rows of the table are the only text the
    report draws at size 10. *)
Fixpoint texts_at_size (size current : Z) (calls : list canvas_op) : list string :=
  match calls with
  | [] => []
  | setFont _ s :: rest => texts_at_size size s rest
  | drawString _ _ text :: rest =>
      if current =? size then text :: texts_at_size size current rest
      else texts_at_size size current rest
  | _ :: rest => texts_at_size size current rest
  end.

(** The font size in force after the calls. *)
Definition size_after (current : Z) (calls : list canvas_op) : Z :=
  fold_left (fun s c => match c with setFont _ s' => s' | _ => s end) calls current.

(** The files drawn as images, in order. *)
Definition images_drawn (calls : list canvas_op) : list string :=
  omap (fun c => match c with drawImage path _ _ _ _ => Some path | _ => None end) calls.

(** The image of a record that every step of the embedding accepts: the path
    is set and names a file, the reader and Pillow open it, its sides are not
    zero and the canvas draws it. *)
Definition embeddable (env : report_env) (r : Row) : option string :=
  match image_path (cols r) with
  | Some p =>
      if Py.truthy p && isfile env p && image_reader env p && draw_image env p
         && match (if HAS_PIL env then image_size env p else Some (1024, 768)) with
            | Some (w, h) => negb (w =? 0) && negb (h =? 0)
            | None => false
            end
      then Some p else None
  | None => None
  end.

(** ** Digits *)

Definition is_digit (c : ascii) : bool :=
  let n := N_of_ascii c in ((48 <=? n) && (n <=? 57))%N.

Fixpoint all_digits (s : string) : bool :=
  match s with
  | EmptyString => true
  | String c s' => is_digit c && all_digits s'
  end.

(** The character of a decimal digit. *)
Definition digit_char (n : N) : ascii := ascii_of_N (48 + n).

(** Two timestamps of the same second. *)
Definition same_second (t t' : pydatetime) : Prop :=
  on t = on t' /\ hour t = hour t' /\ minute t = minute t' /\ second t = second t'.

(** A timestamp the clock can give. *)
Definition clock_time (t : pydatetime) : Prop :=
  (1000 <= year (on t) <= 9999 /\ month (on t) < 100 /\ day (on t) < 100
   /\ hour t < 100 /\ minute t < 100 /\ second t < 100)%N.

(** Eight digits, an underscore and six digits. *)
Definition is_stamp (s : string) : bool :=
  Nat.eqb (String.length s) 15
  && all_digits (substring 0 8 s) && String.eqb (substring 8 1 s) "_"
  && all_digits (substring 9 6 s).

(** The image [_save_image_to_receipts] hands to the encoder, or the text of
    the exception the conversion raises. *)
Definition to_encode {Image : Type} `{Pillow Image} (image : Image) : Image + string :=
  if String.eqb (mode image) "RGB" || String.eqb (mode image) "L"
  then inl image else convert image "RGB".

(** The ingest of [image] goes through: [img] is what is encoded and [bytes]
    what the encoder writes at quality 85. *)
Definition encodes {Image : Type} `{Pillow Image} (image img : Image) (bytes : string)
    : Prop :=
  to_encode image = inl img /\ jpeg img 85 = inl bytes.

(** The ingest of [image] raises, with the text [e]: in the conversion, or in
    the encoding of [img]. *)
Definition ingest_raises {Image : Type} `{Pillow Image} (image : Image)
    (img : option Image) (e : string) : Prop :=
  match img with
  | None => to_encode image = inr e
  | Some img => to_encode image = inl img /\ jpeg img 85 = inr e
  end.

(** The path an ingest at the time [now] writes to. *)
Definition receipt_path (app_dir : string) (now : pydatetime) : string :=
  Py.path_join (receipts_dir app_dir) ("receipt_" +:+ strftime_stamp now +:+ ".jpg").

(** The two disks hold the same at every path but [path]. *)
Definition same_but_at (path : string) (disk disk' : files) : Prop :=
  forall p : string, p <> path -> disk' !! p = disk !! p.

(** The number a text of decimal digits writes. *)
Definition read_digits (s : string) : option N :=
  N.of_uint <$> NilZero.uint_of_string s.

(** The six numbers of a stamp: what its digits read as, field by field. *)
Definition stamp_fields (s : string) : option (list N) :=
  mapM (fun '(start, len) => read_digits (substring start len s))
    [(0, 4); (4, 2); (6, 2); (9, 2); (11, 2); (13, 2)]%nat.

(** The six numbers of a time, to the second. *)
Definition to_the_second (t : pydatetime) : list N :=
  [year (on t); month (on t); day (on t); hour t; minute t; second t].

(** ** Amounts *)

(** [cell] writes the rational [q] to two decimals: digits, a point and two
    digits, which read as the number of hundredths nearest to [q], the even
    one when two are as near. *)
Definition writes_hundredths (q : Q) (cell : string) : Prop :=
  exists (whole cents : string) (a b : N),
    cell = whole +:+ "." +:+ cents
    /\ String.length cents = 2%nat
    /\ read_digits whole = Some a /\ read_digits cents = Some b
    /\ (Qabs (inject_Z (Z.of_N (100 * a + b)) - q * 100) <= 1 # 2)%Q
    /\ ((Qabs (inject_Z (Z.of_N (100 * a + b)) - q * 100) == 1 # 2)%Q ->
        N.even (100 * a + b) = true).

(** [cell] writes the float [x] with two decimals: the sign and the value it
    stands for when it is finite, its name otherwise. *)
Definition two_decimals (x : float) (cell : string) : Prop :=
  match Prim2SF x with
  | S754_zero s =>
      exists t, cell = (if s then "-" else "") +:+ t /\ writes_hundredths 0 t
  | S754_finite s m e =>
      exists t, cell = (if s then "-" else "") +:+ t
                /\ writes_hundredths (magnitude m e) t
  | S754_infinity s => cell = if s then "-inf" else "inf"
  | S754_nan => cell = "nan"
  end.

(** Some row id is still unused. *)
Definition ids_left (d : database) : Prop := Sql.largest_used d < Sql.max_id.

(** ** Calendar order *)

(** A date that [strftime_Ymd] writes in the ten characters YYYY-MM-DD. *)
Definition four_digit_year (d : pydate) : Prop :=
  (year d < 10000 /\ month d < 100 /\ day d < 100)%N.

(** [a] is the day of [b] or an earlier one. *)
Definition on_or_before (a b : pydate) : Prop :=
  (year a < year b
   \/ (year a = year b
       /\ (month a < month b \/ (month a = month b /\ day a <= day b))))%N.

(** ** Sample data *)

Module Sample.

Definition entry (day category amount mission_name : string) : form :=
  {| date_input := Entry day; category_var := category; amount_var := amount;
     description_entry := ""; mission_entry := mission_name;
     current_image_path := None; image_path_var := "" |}.

Definition started : app := mkapp (mkdb ∅ 0) None [].

Definition add (f : form) (a : app) : app :=
  fst (add_expense (H := Ascii_input.externals) a f).

(** Two expenses of the same day for mission Alpha, then one a month later
    for mission B. *)
Definition three : app :=
  add (entry "2024-02-01" "Snapp" "7.5" "B")
    (add (entry "2024-01-01" "Food" "1,000" "Alpha")
       (add (entry "2024-01-01" "Food" "12.50" "Alpha") started)).

(** The same with a row selected that the table does not have. *)
Definition stale_selection : app := mkapp (db three) (Some 7) (tree three).

Definition receipt (day amount mission_name img : string) : form :=
  {| date_input := Entry day; category_var := "Food"; amount_var := amount;
     description_entry := "lunch"; mission_entry := mission_name;
     current_image_path := None; image_path_var := img |}.

(** Three expenses of mission M: the first two of the same day, one with a
    small receipt and one whose receipt file is gone; the third, a month
    later, with a large receipt. *)
Definition with_receipts : app :=
  add (receipt "2024-03-01" "30" "M" "/r/large.jpg")
    (add (receipt "2024-02-01" "20" "M" "/r/missing.jpg")
       (add (receipt "2024-02-01" "10" "M" "/r/small.jpg") started)).

(** An A4 page (210 mm by 297 mm in points of 1/72 inch), every optional
    package installed, and two receipt files on disk: a small one of 100 by
    100 pixels and a large one of 3000 by 2000; nothing else is a file. *)
Definition a4 : report_env :=
  {| HAS_REPORTLAB := true; HAS_PIL := true; HAS_PERSIAN := true;
     page_width := 75600 # 127; page_height := 106920 # 127;
     today := mkdate 2024 3 7;
     font_name := "PersianFont";
     reshape_display := fun text => Some text;
     isfile := fun p => String.eqb p "/r/small.jpg" || String.eqb p "/r/large.jpg";
     image_reader := fun _ => true;
     image_size := fun p => if String.eqb p "/r/small.jpg" then Some (100, 100)
                            else Some (3000, 2000);
     draw_image := fun _ => true |}.

(** Images as a mode and the pixel data, [None] when the file the image was
    opened from is cut short, so that its data cannot be loaded: the
    conversion and the encoder then raise before a file is touched.  The
    conversion of loaded data only relabels it and the encoder only tags
    it. *)
#[global] Instance pictures : Pillow (string * option string) :=
  {| mode := fst;
     convert := fun image m =>
       match snd image with
       | Some pixels => inl (m, Some pixels)
       | None => inr "image file is truncated"
       end;
     jpeg := fun image q =>
       match snd image with
       | Some pixels => inl ("JPEG " +:+ fst image +:+ " " +:+ pixels)
       | None => inr "image file is truncated"
       end;
     leftover := fun _ before => before |}.

Definition noon : pydatetime := mkdatetime (mkdate 2024 3 7) 12 0 5 100.
Definition noon_later : pydatetime := mkdatetime (mkdate 2024 3 7) 12 0 5 900000.

End Sample.

(** ** The remaining callbacks *)

(** The result of a function that may raise. *)
Inductive raising (A : Type) :=
  | Value (a : A)
  | Raises.
Arguments Value {A} a.
Arguments Raises {A}.

Module Py_text.

(** [len(s)]: the number of characters, which in UTF-8 is the number of bytes
    that do not continue a character. *)
Fixpoint len (s : string) : nat :=
  match s with
  | EmptyString => 0
  | String c s' => if Sql.is_continuation c then len s' else S (len s')
  end.

End Py_text.

(** A date input of the filter: a [tkcalendar.DateEntry], with its text and
    what [get_date()] makes of it ([None] when it raises), or a plain entry.
    A [DateEntry] is a [ttk.Entry] too. *)
Inductive filter_widget :=
  | FilterDateEntry (text : string) (get_date : option pydate)
  | FilterEntry (text : string).

Definition widget_text (w : filter_widget) : string :=
  match w with
  | FilterDateEntry text _ => text
  | FilterEntry text => text
  end.

(** The state of the clipboard as [ImageGrab.grabclipboard()] reports it: an
    image, a list of file names, anything else, or an exception with its
    text. *)
Inductive clipboard (Image : Type) :=
  | ClipImage (image : Image)
  | ClipFiles (names : list string)
  | ClipOther
  | ClipRaises (e : string).
Arguments ClipImage {Image} image.
Arguments ClipFiles {Image} names.
Arguments ClipOther {Image}.
Arguments ClipRaises {Image} e.

(** What the image callbacks find around them. *)
Record image_env (Image : Type) := mkimage_env {
  pil_installed : bool;
  script_dir : string;
  clock : pydatetime;
  (** [Image.open(filename)]: the image, or the text of the exception *)
  image_open : string -> Image + string;
  (** [_update_preview(path)] past its [HAS_PIL] test: the text of the
      exception it catches, if any *)
  preview_fails : string -> option string;
  (** [os.path.isfile] *)
  on_disk : string -> bool;
}.
Arguments pil_installed {Image} _.
Arguments script_dir {Image} _.
Arguments clock {Image} _.
Arguments image_open {Image} _ _.
Arguments preview_fails {Image} _ _.
Arguments on_disk {Image} _ _.

(** The events of a session: the buttons, and a double click on the row at
    position [focus] of the table view ([None] when no row has the focus). *)
Inductive event :=
  | Add (f : form)
  | Update (f : form)
  | Delete (confirm : bool)
  | Clear
  | ShowAll
  | Filter (from_str to_str : option string) (mission_text : string)
  | DoubleClick (focus : option nat).

Section Callbacks.
Context `{Externals}.

(** The part of [_get_filter_date_value] after the [try]: the test for an
    entry, which every date input passes. *)
Definition entry_date_value (text : string) : raising (option string) :=
  let v2 := Py.strip text in
  if Py.truthy v2
  then match parse_date_str v2 with
       | Some _ => Value (Some v2)
       | None => Raises
       end
  else Value None.

Definition _get_filter_date_value (w : filter_widget) : raising (option string) :=
  match w with
  | FilterDateEntry text get_date =>
      let v := Py.strip text in
      if negb (Py.truthy v) then Value None
      else if Nat.eqb (Py_text.len v) 10
           then match parse_date_str v with
                | Some _ => Value (Some v)
                | None => entry_date_value text
                end
           else match get_date with
                | Some d => Value (Some (format_date d))
                | None => entry_date_value text
                end
  | FilterEntry text => entry_date_value text
  end.

(** The Filter button: [filter_expenses] from the widgets on. *)
Definition filter_clicked (a : app) (from_input to_input : filter_widget)
    (mission_text : string) : app * outcome :=
  match _get_filter_date_value from_input with
  | Raises => (a, Raised)
  | Value from_str =>
      match _get_filter_date_value to_input with
      | Raises => (a, Raised)
      | Value to_str => (filter_expenses a from_str to_str mission_text, Finished None)
      end
  end.

(** [on_tree_double_click]: the row with the focus becomes the selection. *)
Definition on_tree_double_click (a : app) (focus : option nat) : app :=
  match focus with
  | None => a
  | Some k =>
      match tree a !! k with
      | None => a
      | Some r => mkapp (db a) (Some (id r)) (tree a)
      end
  end.

Definition step (a : app) (e : event) : app :=
  match e with
  | Add f => (add_expense a f).1
  | Update f => (edit_expense a f).1
  | Delete confirm => (delete_expense a confirm).1
  | Clear => clear_form a
  | ShowAll => load_expenses a
  | Filter from_str to_str mission_text => filter_expenses a from_str to_str mission_text
  | DoubleClick focus => on_tree_double_click a focus
  end.

(** The application opened on the database [d]: [__init__] loads the view. *)
Definition opened (d : database) : app := mkapp d None (list_all d).

Definition run (a : app) (events : list event) : app := fold_left step events a.

End Callbacks.

Section Image_callbacks.
Context {Image : Type} `{Pillow Image}.
Variable ienv : image_env Image.

(** The message box of [_update_preview], if it shows one. *)
Definition preview_message (path : string) : option msgbox :=
  match preview_fails ienv path with
  | Some e => Some (showerror "Preview Error" ("Failed to show preview: " +:+ e))
  | None => None
  end.

(** The two assignments after a successful save. *)
Definition attach (saved_path : string) (f : form) : form :=
  mkform (date_input f) (category_var f) (amount_var f) (description_entry f)
    (mission_entry f) (Some saved_path) saved_path.

(** [select_image_file]; [filename] is the answer of the file dialog, empty
    when it is dismissed. *)
Definition select_image_file (filename : string) (f : form) (disk : files)
    : form * files * outcome :=
  if negb (Py.truthy filename) then (f, disk, Returned None)
  else if negb (pil_installed ienv)
  then (f, disk, Returned (Some (showerror "Missing Dependency"
                                   "Pillow is required for image handling.")))
  else
    let failed disk' e :=
      (f, disk', Finished (Some (showerror "Image Error"
                                   ("Failed to process image: " +:+ e)))) in
    match image_open ienv filename with
    | inr e => failed disk e
    | inl image =>
        match _save_image_to_receipts (script_dir ienv) (clock ienv) disk image with
        | (disk', inl saved_path) =>
            (attach saved_path f, disk', Finished (preview_message saved_path))
        | (disk', inr e) => failed disk' e
        end
    end.

Definition paste_image_from_clipboard (data : clipboard Image) (f : form) (disk : files)
    : form * files * outcome :=
  if negb (pil_installed ienv)
  then (f, disk, Returned (Some (showerror "Missing Dependency"
                                   "Pillow is required for clipboard paste.")))
  else
    let no_image := (f, disk, Finished (Some (showinfo "Clipboard"
                                                "No image found in clipboard."))) in
    let failed disk' e :=
      (f, disk', Finished (Some (showerror "Clipboard Error"
                                   ("Failed to paste image: " +:+ e)))) in
    let save image :=
      match _save_image_to_receipts (script_dir ienv) (clock ienv) disk image with
      | (disk', inl saved_path) =>
          (attach saved_path f, disk', Returned (preview_message saved_path))
      | (disk', inr e) => failed disk' e
      end in
    match data with
    | ClipRaises e => failed disk e
    | ClipImage image => save image
    | ClipFiles (name :: _) =>
        if on_disk ienv name
        then match image_open ienv name with
             | inl image => save image
             | inr e => failed disk e
             end
        else no_image
    | ClipFiles [] => no_image
    | ClipOther => no_image
    end.

(** The image Paste from Clipboard takes from the clipboard: the image it
    holds, or what the first name of the list it holds opens as, when that
    name is a file. *)
Definition clipboard_image (data : clipboard Image) (image : Image) : Prop :=
  data = ClipImage image
  \/ exists (name : string) (rest : list string),
       data = ClipFiles (name :: rest) /\ on_disk ienv name = true
       /\ image_open ienv name = inl image.

End Image_callbacks.

(** ** The font of the report *)

Module Py_names.

(** [s.lower()] on ASCII letters; other bytes stay. *)
Definition lower_char (c : ascii) : ascii := Sql.fold_case c.

Fixpoint lower (s : string) : string :=
  match s with
  | EmptyString => EmptyString
  | String c s' => String (lower_char c) (lower s')
  end.

(** [s.endswith(suffix)] *)
Definition endswith (s suffix : string) : bool :=
  let n := String.length s in
  let k := String.length suffix in
  Nat.leb k n && String.eqb (substring (n - k) k s) suffix.

End Py_names.

(** What [_register_persian_font] finds around it. *)
Record font_env := mkfont_env {
  (** [fonts_dir()] *)
  fonts_directory : string;
  (** [os.path.isfile] *)
  font_isfile : string -> bool;
  (** whether [pdfmetrics.registerFont(TTFont("PersianFont", path))] returns *)
  registers : string -> bool;
  (** whether [urlretrieve] returns *)
  urlretrieve : bool;
  (** the names in the downloaded archive; [None] when opening it raises *)
  zip_names : option (list string);
  (** whether [zf.extract(name, fonts_dir())] returns *)
  extracts : string -> bool;
}.

Section Font.
Variable fe : font_env.

Definition font_candidates : list string :=
  [ Py.path_join (fonts_directory fe) "Vazirmatn-Regular.ttf";
    Py.path_join (fonts_directory fe) "Vazir.ttf";
    "/usr/share/fonts/truetype/dejavu/DejaVuSans.ttf";
    "/usr/share/fonts/truetype/freefont/FreeSans.ttf" ].

(** The loop over the local candidates: the first one that is a file and
    registers. *)
Fixpoint first_registered (candidates : list string) : option string :=
  match candidates with
  | [] => None
  | path :: rest =>
      if font_isfile fe path && registers fe path then Some path
      else first_registered rest
  end.

(** The loop over the names of the archive: at the first name that ends in
    vazirmatn-regular.ttf the font is extracted and registered; an exception
    there ends the attempt. *)
Fixpoint from_archive (names : list string) : option string :=
  match names with
  | [] => None
  | name :: rest =>
      if Py_names.endswith (Py_names.lower name) "vazirmatn-regular.ttf"
      then let extracted_path := Py.path_join (fonts_directory fe) name in
           if extracts fe name && registers fe extracted_path
           then Some extracted_path else None
      else from_archive rest
  end.

(** The last resort: fetch the archive and look into it. *)
Definition downloaded : option string :=
  if urlretrieve fe
  then match zip_names fe with
       | Some names => from_archive names
       | None => None
       end
  else None.

(** [_register_persian_font]: the font name, the file registered under it if
    any, and whether the network was used. *)
Definition _register_persian_font : string * option string * bool :=
  match first_registered font_candidates with
  | Some path => ("PersianFont", Some path, false)
  | None =>
      match downloaded with
      | Some path => ("PersianFont", Some path, true)
      | None => ("Helvetica", None, true)
      end
  end.

End Font.

(** ** Where things are drawn *)

(** The heights at which text is drawn while the font size is [size]. *)
Fixpoint heights_at_size (size current : Z) (calls : list canvas_op) : list Q :=
  match calls with
  | [] => []
  | setFont _ s :: rest => heights_at_size size s rest
  | drawString _ y _ :: rest =>
      if current =? size then y :: heights_at_size size current rest
      else heights_at_size size current rest
  | _ :: rest => heights_at_size size current rest
  end.

(** The boxes of the images drawn: left, bottom, width and height. *)
Definition image_boxes (calls : list canvas_op) : list (Q * Q * Q * Q) :=
  omap (fun c => match c with
                 | drawImage _ x y w h => Some (x, y, w, h)
                 | _ => None
                 end) calls.


(** Every image Pillow opens has sides of at least one pixel. *)
Definition positive_sizes (env : report_env) : Prop :=
  forall (p : string) (w h : Z), image_size env p = Some (w, h) -> 0 < w /\ 0 < h.

(** Where the box of an image may lie: left edge at the margin of 40, within
    the content width, at most 300 high, above the bottom margin of 60 and
    below the title lines. *)
Definition in_body (env : report_env) (box : Q * Q * Q * Q) : Prop :=
  let '(x, y, w, h) := box in
  (x = 40 /\ 0 <= w /\ x + w <= page_width env - 40
   /\ 0 <= h <= 300 /\ 60 <= y /\ y + h <= top_of_page env)%Q.

(** The box of an image starts at the left margin of 40, has sides that are
    not negative and its lower edge at or above the bottom margin of 60. *)
Definition above_margin (box : Q * Q * Q * Q) : Prop :=
  let '(x, y, w, h) := box in
  (x = 40 /\ 0 <= w /\ 0 <= h /\ 60 <= y)%Q.

(** Where the line of a row may lie: above the bottom margin of 60 and below
    the title lines. *)
Definition row_height (env : report_env) (y : Q) : Prop :=
  (60 <= y <= top_of_page env)%Q.


(** The text starts with a whitespace character. *)
Definition starts_blank (s : string) : bool :=
  match s with
  | EmptyString => false
  | String c s1 =>
      Py.isspace c
      || match s1 with
         | EmptyString => false
         | String c1 s2 =>
             Py.isspace2 c c1
             || match s2 with
                | EmptyString => false
                | String c2 _ => Py.isspace3 c c1 c2
                end
         end
  end.

(** Every byte of the text is an ASCII character that is no blank. *)
Fixpoint no_blank (s : string) : bool :=
  match s with
  | EmptyString => true
  | String c s' => negb (Py.isspace c) && (N_of_ascii c <? 128)%N && no_blank s'
  end.

(** ** Invariants of the store *)

(** Every id in the table is positive and at most the counter. *)
Definition well_numbered (d : database) : Prop :=
  forall (i : Z) (f : Fields), expenses d !! i = Some f -> 0 < i <= sqlite_sequence d.

(** The view shows rows of the table, and the selection is one of its ids. *)
Definition coherent (a : app) : Prop :=
  (forall r : Row, r ∈ tree a -> expenses (db a) !! id r = Some (cols r))
  /\ (forall sel : Z, selected_expense_id a = Some sel -> is_Some (expenses (db a) !! sel)).

(** A record as the form writes it: a date that parses, a category that is
    not empty, an amount that is not negative, description and mission set,
    texts without blanks around them and no empty image path. *)
Definition form_written `{Externals} (f : Fields) : Prop :=
  is_Some (parse_date_str (date f)) /\ Py.strip (date f) = date f
  /\ category f <> "" /\ Py.strip (category f) = category f
  /\ (0 <=? amount f)%float = true
  /\ (exists s, description f = Some s /\ Py.strip s = s)
  /\ (exists s, mission f = Some s /\ Py.strip s = s)
  /\ image_path f <> Some "".

(** ** A sample session *)

Module Session_sample.

Definition empty_store : database := mkdb ∅ 0.

(** Two expenses are added. *)
Definition two_added : list event :=
  [ Add (Sample.entry "2024-01-01" "Food" "12.50" "Alpha");
    Add (Sample.entry "2024-01-01" "Food" "1,000" "Alpha") ].

(** The first row of the view, which is the second expense, is selected and
    deleted. *)
Definition top_deleted : list event := [ DoubleClick (Some 0%nat); Delete true ].

Definition run_events (d : database) (events : list event) : app :=
  run (H := Ascii_input.externals) (opened d) events.

(** After the two additions, with the second expense selected. *)
Definition second_selected : app :=
  run_events empty_store (two_added ++ [DoubleClick (Some 0%nat)]).

(** A form with a date that is no date. *)
Definition bad_date : form := Sample.entry "2024-02-30" "Food" "5" "Alpha".

Definition one_second_later : pydatetime := mkdatetime (mkdate 2024 3 7) 12 0 6 0.

End Session_sample.

Module Filter_sample.

(** A plain entry holding a text that names no day, and one left blank. *)
Definition no_day : filter_widget := FilterEntry " 2024-13-01 ".
Definition blank : filter_widget := FilterEntry "   ".

(** A calendar input showing a day in the widget's own pattern. *)
Definition calendar_day : filter_widget :=
  FilterDateEntry "1/2/24" (Some (mkdate 2024 1 2)).

(** A store with one expense whose mission has both wildcard characters. *)
Definition discounted : database :=
  db (Sample.add (Sample.entry "2024-01-01" "Food" "5" "50%_off trip") Sample.started).

Definition discounted_row : Row :=
  (1, mkFields "2024-01-01" "Food" 5 (Some "") (Some "50%_off trip") None).

End Filter_sample.

Module Image_sample.

(** Pillow is installed; two files open: [/home/u/photo.png], an RGBA
    picture, and [/home/u/cut.png], whose data is cut short; previews
    work. *)
Definition desk : image_env (string * option string) :=
  {| pil_installed := true;
     script_dir := "/home/u/app";
     clock := Sample.noon;
     image_open := fun name =>
       if String.eqb name "/home/u/photo.png" then inl ("RGBA", Some "photo")
       else if String.eqb name "/home/u/cut.png" then inl ("RGB", None)
       else inr "cannot identify image file";
     preview_fails := fun _ => None;
     on_disk := fun name =>
       String.eqb name "/home/u/photo.png" || String.eqb name "/home/u/cut.png" |}.

Definition lunch : form := Sample.entry "2024-03-07" "Food" "18" "Alpha".

End Image_sample.

Module Font_sample.

(** Only the system's DejaVu font is there, and it registers; the network is
    down. *)
Definition dejavu_only : font_env :=
  {| fonts_directory := "/home/u/app/fonts";
     font_isfile := fun p => String.eqb p "/usr/share/fonts/truetype/dejavu/DejaVuSans.ttf";
     registers := fun _ => true;
     urlretrieve := false;
     zip_names := None;
     extracts := fun _ => false |}.

End Font_sample.

(** ** The two orderings *)

Section Orderings.

Global Instance date_id_asc_total : Total Sql.date_id_asc.
Proof.
  intros a b. unfold Sql.date_id_asc.
  destruct (decide (date (cols a) = date (cols b))) as [Heq|Hne].
  - destruct (Z.le_ge_cases (id a) (id b)); [left|right]; right; split; auto; lia.
  - destruct (total String.le (date (cols a)) (date (cols b))) as [Hle|Hle];
      [left|right]; left; split; auto; intros Hge; apply Hne;
      [|symmetry]; apply (anti_symm String.le); auto.
Qed.

Global Instance date_id_asc_trans : Transitive Sql.date_id_asc.
Proof.
  intros a b c [Hab|[Hab Iab]] [Hbc|[Hbc Ibc]]; unfold Sql.date_id_asc.
  - left. eapply strict_trans_l; [exact Hab|apply Hbc].
  - left. rewrite <- Hbc. exact Hab.
  - left. rewrite Hab. exact Hbc.
  - right. split; [congruence|lia].
Qed.

Global Instance date_id_desc_total : Total Sql.date_id_desc.
Proof. intros a b. unfold Sql.date_id_desc. apply (total Sql.date_id_asc). Qed.

Global Instance date_id_desc_trans : Transitive Sql.date_id_desc.
Proof.
  intros a b c Hab Hbc. unfold Sql.date_id_desc in *.
  eapply date_id_asc_trans; eauto.
Qed.

(** Both orders put rows with the same date and the same id together only
    when they agree on both. *)
Lemma date_id_asc_both (a b : Row) :
  Sql.date_id_asc a b -> Sql.date_id_asc b a ->
  date (cols a) = date (cols b) /\ id a = id b.
Proof.
  intros [[H1 H2]|[H1 H2]] [[H3 H4]|[H3 H4]]; try tauto.
  - exfalso. apply H2. rewrite H3. reflexivity.
  - exfalso. apply H4. rewrite H1. reflexivity.
  - split; [auto|lia].
Qed.

Lemma order_by_perm (R : relation Row) `{!RelDecision R} (rows : list Row) :
  Sql.order_by R rows ≡ₚ rows.
Proof. apply merge_sort_Permutation. Qed.

Lemma order_by_sorted (R : relation Row) `{!RelDecision R, !Transitive R, !Total R}
    (rows : list Row) :
  StronglySorted R (Sql.order_by R rows).
Proof. apply StronglySorted_merge_sort; apply _. Qed.

(** In a strongly sorted list the relation holds between any earlier and any
    later position. *)
Lemma StronglySorted_lookup {A} (R : relation A) (l : list A) (i j : nat) (a b : A) :
  StronglySorted R l -> (i < j)%nat -> l !! i = Some a -> l !! j = Some b -> R a b.
Proof.
  intros Hs. revert i j. induction Hs as [|x l Hs IH Hall]; intros i j Hij Hi Hj.
  - rewrite lookup_nil in Hi. discriminate.
  - destruct j as [|j]; [lia|]. simpl in Hj.
    destruct i as [|i]; simpl in Hi.
    + inversion Hi; subst. rewrite Forall_forall in Hall.
      apply Hall. eapply list_elem_of_lookup_2; eauto.
    + eapply (IH i j); eauto. lia.
Qed.

End Orderings.

(** ** Floats *)

Section Float_facts.

(** A float that zero is below or equal to is neither negative nor NaN, and
    the other way round. *)
Lemma leb_zero_iff (v : float) :
  (0 <=? v)%float = true <-> (v <? 0)%float = false /\ PrimFloat.is_nan v = false.
Proof.
  unfold PrimFloat.is_nan.
  rewrite FloatAxioms.leb_spec, FloatAxioms.ltb_spec, FloatAxioms.eqb_spec.
  change (Prim2SF 0) with (S754_zero false).
  unfold SFleb, SFltb, SFeqb.
  destruct (Prim2SF v) as [s|s| |s m e] eqn:Hv.
  - destruct s; split; [intros _; split| |intros _; split|]; reflexivity.
  - destruct s; simpl; split; intros Hs; try discriminate; try (split; reflexivity);
      try reflexivity.
    destruct Hs; discriminate.
  - simpl. split; [discriminate|]. intros [_ Hn]. discriminate.
  - destruct s; simpl; rewrite ?Z.compare_refl, ?Pos.compare_cont_refl; split;
      intros Hs; try discriminate; try (split; reflexivity); try reflexivity.
    destruct Hs; discriminate.
Qed.

Lemma leb_zero_not_negative (v : float) :
  (0 <=? v)%float = true -> (v <? 0)%float = false.
Proof. intros Hv. by apply leb_zero_iff in Hv as [Hneg _]. Qed.

Lemma leb_zero_not_null (v : float) :
  (0 <=? v)%float = true -> Sql.bound_as_null v = false.
Proof. intros Hv. by apply leb_zero_iff in Hv as [_ Hnan]. Qed.

End Float_facts.

(** ** Filtering and sorting a list of rows *)

Section List_facts.
Context {A : Type}.

Lemma filter_perm (f : A -> bool) (l l' : list A) :
  l ≡ₚ l' -> List.filter f l ≡ₚ List.filter f l'.
Proof.
  induction 1 as [|x l l' _ IH|x y l|l l' l'' _ IH1 _ IH2]; simpl.
  - constructor.
  - destruct (f x); [constructor|]; exact IH.
  - destruct (f x), (f y); try reflexivity. constructor.
  - etransitivity; eauto.
Qed.

Lemma filter_elem_of (f : A -> bool) (l : list A) (x : A) :
  x ∈ List.filter f l <-> x ∈ l /\ f x = true.
Proof. rewrite !list_elem_of_In. apply filter_In. Qed.

Lemma filter_strongly_sorted (R : relation A) (f : A -> bool) (l : list A) :
  StronglySorted R l -> StronglySorted R (List.filter f l).
Proof.
  induction 1 as [|x l Hs IH Hall]; simpl; [constructor|].
  destruct (f x); [|exact IH].
  constructor; [exact IH|].
  rewrite Forall_forall in *. intros y Hy.
  apply Hall. apply filter_elem_of in Hy. tauto.
Qed.

Lemma filter_all (f : A -> bool) (l : list A) :
  (forall x, x ∈ l -> f x = true) -> List.filter f l = l.
Proof.
  induction l as [|x l IH]; intros Hall; simpl; [reflexivity|].
  rewrite (Hall x) by constructor.
  f_equal. apply IH. intros y Hy. apply Hall. by constructor.
Qed.

Lemma filter_ext_elem_of (f g : A -> bool) (l : list A) :
  (forall x, x ∈ l -> f x = g x) -> List.filter f l = List.filter g l.
Proof.
  induction l as [|x l IH]; intros Hall; simpl; [reflexivity|].
  rewrite (Hall x) by constructor.
  rewrite IH; [reflexivity|]. intros y Hy. apply Hall. by constructor.
Qed.

End List_facts.

(** ** The table and the statements on it *)

Section Table_facts.
Implicit Types (t : gmap Z Fields) (d : database) (r : Row).

Lemma select_all_elem_of t r :
  r ∈ Sql.select_all t <-> t !! id r = Some (cols r).
Proof. destruct r as [i f]. apply elem_of_map_to_list. Qed.

Lemma select_all_ids_nodup t : NoDup ((Sql.select_all t).*1).
Proof. apply NoDup_fst_map_to_list. Qed.

(** Rows fetched from one table are told apart by their id. *)
Lemma rows_same_id (l : list Row) (a b : Row) :
  NoDup (l.*1) -> a ∈ l -> b ∈ l -> id a = id b -> a = b.
Proof.
  intros Hnd Ha Hb Hid.
  apply list_elem_of_lookup_1 in Ha as [i Hi], Hb as [j Hj].
  assert (l.*1 !! i = Some (id a)) as Hi' by (by rewrite list_lookup_fmap, Hi).
  assert (l.*1 !! j = Some (id a)) as Hj'
    by (rewrite list_lookup_fmap, Hj; simpl; by rewrite Hid).
  assert (i = j) as -> by (eapply NoDup_lookup; eauto).
  congruence.
Qed.

(** Two sorted listings of the same rows of a table are the same list. *)
Lemma sorted_rows_unique (R : relation Row) (l1 l2 : list Row) :
  (forall a b, R a b -> R b a -> id a = id b) ->
  NoDup (l1.*1) ->
  StronglySorted R l1 -> StronglySorted R l2 -> l1 ≡ₚ l2 -> l1 = l2.
Proof.
  intros Hanti Hnd Hs1 Hs2 Hp.
  apply (StronglySorted_unique_strong R); auto.
  intros a b Ha Hb Hab Hba.
  apply (rows_same_id l1); auto.
  by rewrite Hp.
Qed.

Lemma date_id_desc_same_id (a b : Row) :
  Sql.date_id_desc a b -> Sql.date_id_desc b a -> id a = id b.
Proof. intros H1 H2. symmetry. eapply date_id_asc_both; eauto. Qed.

Lemma date_id_asc_same_id (a b : Row) :
  Sql.date_id_asc a b -> Sql.date_id_asc b a -> id a = id b.
Proof. intros H1 H2. eapply date_id_asc_both; eauto. Qed.

Lemma filter_ids_nodup (f : Row -> bool) (l : list Row) :
  NoDup (l.*1) -> NoDup ((List.filter f l).*1).
Proof.
  induction l as [|x l IH]; simpl; [auto|].
  rewrite NoDup_cons. intros [Hx Hnd].
  destruct (f x); [|auto].
  rewrite fmap_cons, NoDup_cons. split; [|auto].
  intros Hin. apply Hx.
  apply list_elem_of_fmap in Hin as [y [-> Hy]].
  apply list_elem_of_fmap. exists y. split; [done|].
  apply filter_elem_of in Hy. tauto.
Qed.

Lemma order_by_ids_nodup (R : relation Row) `{!RelDecision R} (l : list Row) :
  NoDup (l.*1) -> NoDup ((Sql.order_by R l).*1).
Proof. intros Hnd. by rewrite (order_by_perm R l). Qed.

(** Sorting after a WHERE clause gives the rows of the sorted table that
    pass the clause, in the same order. *)
Lemma order_by_filter (R : relation Row) `{!RelDecision R, !Transitive R, !Total R}
    (f : Row -> bool) t :
  (forall a b, R a b -> R b a -> id a = id b) ->
  Sql.order_by R (List.filter f (Sql.select_all t))
  = List.filter f (Sql.order_by R (Sql.select_all t)).
Proof.
  intros Hanti. apply (sorted_rows_unique R); auto.
  - apply order_by_ids_nodup, filter_ids_nodup, select_all_ids_nodup.
  - apply order_by_sorted; auto.
  - apply filter_strongly_sorted, order_by_sorted; auto.
  - rewrite order_by_perm. apply filter_perm. symmetry. apply order_by_perm.
Qed.

Lemma max_rowid_ge t (i : Z) (f : Fields) :
  t !! i = Some f -> i <= Sql.max_rowid t.
Proof.
  intros Hi. unfold Sql.max_rowid.
  assert (i ∈ (map_to_list t).*1) as Hin.
  { apply list_elem_of_fmap. exists (i, f). split; [done|].
    by apply elem_of_map_to_list. }
  induction ((map_to_list t).*1) as [|k l IH]; simpl.
  - by apply elem_of_nil in Hin.
  - apply elem_of_cons in Hin as [->|Hin]; [lia|].
    specialize (IH Hin). lia.
Qed.

(** The id an INSERT hands out is not in the table. *)
Lemma insert_fresh d (f : Fields) :
  expenses d !! (Sql.append_row f d).2 = None.
Proof.
  simpl. destruct (expenses d !! _) as [g|] eqn:Hg; [|reflexivity].
  apply max_rowid_ge in Hg. unfold Sql.largest_used in Hg. lia.
Qed.

(** An INSERT goes through when its amount is not bound as NULL and a row
    id is left; otherwise it raises. *)
Lemma insert_some d (f : Fields) :
  Sql.bound_as_null (amount f) = false -> ids_left d ->
  Sql.insert f d = Some (Sql.append_row f d).
Proof.
  intros Hnull Hleft. unfold Sql.insert. rewrite Hnull.
  unfold ids_left in Hleft.
  destruct (Sql.max_id <=? Sql.largest_used d) eqn:Hfull; [|reflexivity].
  apply Z.leb_le in Hfull. lia.
Qed.

Lemma insert_full d (f : Fields) :
  ~ ids_left d -> Sql.insert f d = None.
Proof.
  intros Hfull. unfold Sql.insert. destruct (Sql.bound_as_null _); [reflexivity|].
  destruct (Sql.max_id <=? Sql.largest_used d) eqn:Hle; [reflexivity|].
  apply Z.leb_gt in Hle. by destruct Hfull.
Qed.

Lemma update_some (f : Fields) (i : Z) t :
  Sql.bound_as_null (amount f) = false ->
  Sql.update f i t = Some (Sql.update_where_id f i t).
Proof. intros Hnull. unfold Sql.update. by rewrite Hnull. Qed.

Lemma update_absent (f : Fields) (i : Z) t :
  t !! i = None -> Sql.update f i t = Some (Sql.update_where_id f i t).
Proof.
  intros Hi. unfold Sql.update. rewrite Hi.
  rewrite bool_decide_eq_false_2 by (intros [g Hg]; discriminate).
  by rewrite andb_false_r.
Qed.

Lemma update_where_id_lookup (f : Fields) (i k : Z) t :
  Sql.update_where_id f i t !! k
  = if decide (k = i) then (fun _ => f) <$> t !! k else t !! k.
Proof.
  unfold Sql.update_where_id. rewrite map_lookup_imap.
  destruct (t !! k) as [g|]; simpl; destruct (decide (k = i)); reflexivity.
Qed.

Lemma update_where_id_absent (f : Fields) (i : Z) t :
  t !! i = None -> Sql.update_where_id f i t = t.
Proof.
  intros Hi. apply map_eq. intros k. rewrite update_where_id_lookup.
  destruct (decide (k = i)) as [->|]; [|reflexivity].
  by rewrite Hi.
Qed.

Lemma delete_where_id_lookup (i k : Z) t :
  Sql.delete_where_id i t !! k = if decide (k = i) then None else t !! k.
Proof.
  unfold Sql.delete_where_id.
  destruct (decide (k = i)) as [->|Hne].
  - apply map_lookup_filter_None. right. intros g _. simpl. tauto.
  - destruct (t !! k) as [g|] eqn:Hk.
    + apply map_lookup_filter_Some. split; [done|]. simpl. exact Hne.
    + apply map_lookup_filter_None. by left.
Qed.

Lemma delete_where_id_absent (i : Z) t :
  t !! i = None -> Sql.delete_where_id i t = t.
Proof.
  intros Hi. apply map_eq. intros k. rewrite delete_where_id_lookup.
  destruct (decide (k = i)) as [->|]; [|reflexivity].
  by rewrite Hi.
Qed.

End Table_facts.

(** ** Decimal digits and the two-decimal format *)

Section Digits.

Lemma string_of_uint_digits (d : Decimal.uint) :
  all_digits (NilEmpty.string_of_uint d) = true.
Proof. induction d; simpl; auto. Qed.

Lemma str_digits (n : N) : all_digits (Py.str n) = true.
Proof.
  unfold Py.str, NilZero.string_of_uint.
  destruct (N.to_uint n) eqn:Hd; try reflexivity; rewrite <- Hd;
    apply string_of_uint_digits.
Qed.

Lemma str_not_empty (n : N) : Py.str n <> "".
Proof.
  unfold Py.str, NilZero.string_of_uint.
  destruct (N.to_uint n); simpl; discriminate.
Qed.

(** Below one hundred, [zfill 2] writes the tens and the units. *)
Lemma zfill_two_digits (n : N) :
  (n < 100)%N ->
  Py.zfill 2 (Py.str n)
  = String (digit_char (n / 10)) (String (digit_char (n mod 10)) "").
Proof.
  intros Hn.
  assert (forallb (fun k => String.eqb (Py.zfill 2 (Py.str k))
                     (String (digit_char (k / 10)) (String (digit_char (k mod 10)) "")))
            (N.of_nat <$> seq 0 100) = true) as Hall by (vm_compute; reflexivity).
  rewrite forallb_forall in Hall. apply String.eqb_eq, Hall.
  apply in_map_iff. exists (N.to_nat n). split; [lia|]. apply in_seq. lia.
Qed.

(** From one thousand to 9999, [zfill 4] adds nothing to the four digits. *)
Lemma zfill_four_digits (n : N) :
  (1000 <= n <= 9999)%N ->
  Py.zfill 4 (Py.str n)
  = String (digit_char (n / 1000)) (String (digit_char (n / 100 mod 10))
      (String (digit_char (n / 10 mod 10)) (String (digit_char (n mod 10)) ""))).
Proof.
  intros Hn.
  assert (forallb (fun k => String.eqb (Py.zfill 4 (Py.str k))
                     (String (digit_char (k / 1000)) (String (digit_char (k / 100 mod 10))
                        (String (digit_char (k / 10 mod 10))
                           (String (digit_char (k mod 10)) "")))))
            (N.of_nat <$> seq (N.to_nat 1000) (N.to_nat 9000)) = true) as Hall
    by (vm_compute; reflexivity).
  rewrite forallb_forall in Hall. apply String.eqb_eq, Hall.
  apply in_map_iff. exists (N.to_nat n). split; [lia|]. apply in_seq. lia.
Qed.

Lemma digit_char_is_digit (k : N) : (k < 10)%N -> is_digit (digit_char k) = true.
Proof.
  intros Hk.
  assert (forallb (fun k => is_digit (digit_char k)) (N.of_nat <$> seq 0 10) = true)
    as Hall by (vm_compute; reflexivity).
  rewrite forallb_forall in Hall. apply Hall.
  apply in_map_iff. exists (N.to_nat k). split; [lia|]. apply in_seq. lia.
Qed.

(** The rounding is to a nearest integer. *)
Lemma round_half_even_nearest (q : Q) :
  (inject_Z (round_half_even q) - (1 # 2) <= q
   /\ q <= inject_Z (round_half_even q) + (1 # 2))%Q.
Proof.
  pose proof (Qfloor_le q) as Hlo. pose proof (Qlt_floor q) as Hhi.
  rewrite inject_Z_plus in Hhi. change (inject_Z 1) with 1%Q in Hhi.
  unfold round_half_even.
  destruct (Qcompare _ _) eqn:Hc.
  - apply Qeq_alt in Hc.
    destruct (Z.even (Qfloor q)); rewrite ?inject_Z_plus;
      change (inject_Z 1) with 1%Q; split; lra.
  - apply Qlt_alt in Hc. split; lra.
  - apply Qgt_alt in Hc. rewrite inject_Z_plus. change (inject_Z 1) with 1%Q.
    split; lra.
Qed.

(** On a tie the rounding gives the even neighbour. *)
Lemma round_half_even_tie (q : Q) :
  (Qabs (inject_Z (round_half_even q) - q) == 1 # 2)%Q ->
  Z.even (round_half_even q) = true.
Proof.
  pose proof (Qfloor_le q) as Hlo. pose proof (Qlt_floor q) as Hhi.
  rewrite inject_Z_plus in Hhi. change (inject_Z 1) with 1%Q in Hhi.
  unfold round_half_even.
  destruct (Qcompare _ _) eqn:Hc.
  - intros _. destruct (Z.even (Qfloor q)) eqn:He; [exact He|].
    rewrite Z.even_add, He. reflexivity.
  - apply Qlt_alt in Hc. intros Habs.
    rewrite Qabs_neg in Habs by lra. lra.
  - apply Qgt_alt in Hc. rewrite inject_Z_plus. change (inject_Z 1) with 1%Q.
    intros Habs. rewrite Qabs_pos in Habs by lra. lra.
Qed.

Lemma round_half_even_nonneg (q : Q) : (0 <= q)%Q -> 0 <= round_half_even q.
Proof.
  intros Hq.
  assert (0 <= Qfloor q) as Hf.
  { change 0 with (Qfloor 0). by apply Qfloor_resp_le. }
  unfold round_half_even. destruct (Qcompare _ _); [destruct (Z.even _)| |]; lia.
Qed.

(** What [str] writes reads back as the number. *)
Lemma read_str (n : N) : read_digits (Py.str n) = Some n.
Proof.
  unfold read_digits, Py.str. rewrite NilZero.usu.
  - simpl. f_equal. apply DecimalN.Unsigned.of_to.
  - destruct n as [|p]; simpl; [discriminate|].
    apply DecimalPos.Unsigned.to_uint_nonnil.
Qed.

Lemma read_two_digits (n : N) :
  (n < 100)%N ->
  read_digits (Py.zfill 2 (Py.str n)) = Some n
  /\ String.length (Py.zfill 2 (Py.str n)) = 2%nat.
Proof.
  intros Hn.
  assert (forallb (fun k =>
            match read_digits (Py.zfill 2 (Py.str k)) with
            | Some r => N.eqb r k
            | None => false
            end && Nat.eqb (String.length (Py.zfill 2 (Py.str k))) 2)
            (N.of_nat <$> seq 0 100) = true) as Hall by (vm_compute; reflexivity).
  rewrite forallb_forall in Hall.
  specialize (Hall n). apply andb_prop in Hall as [Hread Hlen].
  - destruct (read_digits _) as [r|]; [|discriminate].
    apply N.eqb_eq in Hread. apply Nat.eqb_eq in Hlen. by subst.
  - apply in_map_iff. exists (N.to_nat n). split; [lia|]. apply in_seq. lia.
Qed.

Lemma even_of_N (n : N) : N.even n = Z.even (Z.of_N n).
Proof. destruct n as [|[p|p|]]; reflexivity. Qed.

(** [fixed_2] writes the hundredths nearest to its argument, after the
    sign. *)
Lemma fixed_2_writes (negative : bool) (q : Q) :
  (0 <= q)%Q ->
  exists t : string,
    fixed_2 negative q = (if negative then "-" else "") +:+ t
    /\ writes_hundredths q t.
Proof.
  intros Hq. unfold fixed_2.
  set (r := round_half_even (q * 100)).
  assert (0 <= r) as Hr by (apply round_half_even_nonneg; lra).
  set (n := Z.to_N r).
  assert (n mod 100 < 100)%N as Hlt by (apply N.mod_lt; lia).
  destruct (read_two_digits _ Hlt) as [Hcents Hlen].
  assert (100 * (n / 100) + n mod 100 = n)%N as Hn
    by (symmetry; apply N.div_mod; lia).
  assert (Z.of_N n = r) as Hnr by (unfold n; lia).
  exists (Py.str (n / 100) +:+ "." +:+ Py.zfill 2 (Py.str (n mod 100))).
  split; [reflexivity|].
  exists (Py.str (n / 100)), (Py.zfill 2 (Py.str (n mod 100))), (n / 100)%N, (n mod 100)%N.
  split; [reflexivity|]. split; [exact Hlen|].
  split; [apply read_str|]. split; [exact Hcents|].
  rewrite Hn, Hnr. split.
  - apply Qabs_Qle_condition.
    destruct (round_half_even_nearest (q * 100)) as [H1 H2]. fold r in H1, H2.
    split; lra.
  - intros Htie. rewrite even_of_N, Hnr. by apply round_half_even_tie.
Qed.

Lemma magnitude_nonneg (m : positive) (e : Z) : (0 <= magnitude m e)%Q.
Proof.
  unfold magnitude. apply Qmult_le_0_compat.
  - unfold Qle. simpl. lia.
  - apply Qpower_0_le. discriminate.
Qed.

(** [format_2f] writes a finite float with two decimals, and the others by
    name. *)
Lemma format_2f_two_decimals (x : float) : two_decimals x (format_2f x).
Proof.
  unfold two_decimals, format_2f. destruct (Prim2SF x) as [s|s| |s m e].
  - apply fixed_2_writes. apply Qle_refl.
  - reflexivity.
  - reflexivity.
  - apply fixed_2_writes, magnitude_nonneg.
Qed.

End Digits.

(** ** Dates as text

    Dates are stored and compared as text.  For dates written as YYYY-MM-DD
    the order of the texts is the order of the calendar. *)

Section Date_text.

Lemma compare_app (a a' s s' : string) :
  String.length a = String.length a' ->
  String.compare (a +:+ s) (a' +:+ s')
  = match String.compare a a' with Eq => String.compare s s' | c => c end.
Proof.
  revert a'. induction a as [|c a IH]; intros [|c' a'] Hlen; try discriminate.
  - reflexivity.
  - simpl in *. destruct (Ascii.compare c c'); auto.
Qed.

Lemma two_digits_compare (n m : N) :
  (n < 100)%N -> (m < 100)%N ->
  String.compare (Py.zfill 2 (Py.str n)) (Py.zfill 2 (Py.str m)) = N.compare n m.
Proof.
  intros Hn Hm.
  pose (below := N.of_nat <$> seq 0 100).
  assert (forallb (fun a => forallb (fun b =>
            match String.compare (Py.zfill 2 (Py.str a)) (Py.zfill 2 (Py.str b)),
                  N.compare a b with
            | Eq, Eq | Lt, Lt | Gt, Gt => true
            | _, _ => false
            end) below) below = true) as Hall by (vm_compute; reflexivity).
  assert (forall k, (k < 100)%N -> In k below) as Hin.
  { intros k Hk. apply in_map_iff. exists (N.to_nat k). split; [lia|]. apply in_seq. lia. }
  rewrite forallb_forall in Hall. specialize (Hall n (Hin n Hn)).
  rewrite forallb_forall in Hall. specialize (Hall m (Hin m Hm)).
  destruct (String.compare _ _), (N.compare n m); done.
Qed.

Lemma four_digits_split (n : N) :
  (n < 10000)%N ->
  Py.zfill 4 (Py.str n)
  = Py.zfill 2 (Py.str (n / 100)) +:+ Py.zfill 2 (Py.str (n mod 100)).
Proof.
  intros Hn.
  assert (forallb (fun k => String.eqb (Py.zfill 4 (Py.str k))
                     (Py.zfill 2 (Py.str (k / 100)) +:+ Py.zfill 2 (Py.str (k mod 100))))
            (N.of_nat <$> seq 0 (N.to_nat 10000)) = true) as Hall
    by (vm_compute; reflexivity).
  rewrite forallb_forall in Hall. apply String.eqb_eq, Hall.
  apply in_map_iff. exists (N.to_nat n). split; [lia|]. apply in_seq. lia.
Qed.

Lemma two_digits_length (n : N) :
  (n < 100)%N -> String.length (Py.zfill 2 (Py.str n)) = 2%nat.
Proof. intros Hn. by rewrite zfill_two_digits. Qed.

Lemma four_digits_compare (n m : N) :
  (n < 10000)%N -> (m < 10000)%N ->
  String.compare (Py.zfill 4 (Py.str n)) (Py.zfill 4 (Py.str m)) = N.compare n m.
Proof.
  intros Hn Hm.
  pose proof (N.div_mod' n 100) as En. pose proof (N.div_mod' m 100) as Em.
  assert (n mod 100 < 100)%N as H3 by (apply N.mod_lt; lia).
  assert (m mod 100 < 100)%N as H4 by (apply N.mod_lt; lia).
  assert (n / 100 < 100)%N as H1 by (apply N.Div0.div_lt_upper_bound; lia).
  assert (m / 100 < 100)%N as H2 by (apply N.Div0.div_lt_upper_bound; lia).
  rewrite !four_digits_split, compare_app, !two_digits_compare by
    (rewrite ?two_digits_length; auto).
  set (a := (n / 100)%N) in *. set (r := (n mod 100)%N) in *.
  set (a' := (m / 100)%N) in *. set (r' := (m mod 100)%N) in *.
  clearbody a r a' r'.
  destruct (N.compare_spec a a'), (N.compare_spec r r'), (N.compare_spec n m);
    try reflexivity; exfalso; lia.
Qed.

Lemma four_digits_length (n : N) :
  (n < 10000)%N -> String.length (Py.zfill 4 (Py.str n)) = 4%nat.
Proof.
  intros Hn.
  assert (n / 100 < 100)%N as H1 by (apply N.Div0.div_lt_upper_bound; lia).
  assert (n mod 100 < 100)%N as H2 by (apply N.mod_lt; lia).
  rewrite four_digits_split by assumption.
  by rewrite (zfill_two_digits _ H1), (zfill_two_digits _ H2).
Qed.

Lemma format_date_compare (a b : pydate) :
  four_digit_year a -> four_digit_year b ->
  String.compare (format_date a) (format_date b)
  = match N.compare (year a) (year b) with
    | Eq => match N.compare (month a) (month b) with
            | Eq => N.compare (day a) (day b)
            | c => c
            end
    | c => c
    end.
Proof.
  intros (Hy & Hm & Hd) (Hy' & Hm' & Hd'). unfold format_date, strftime_Ymd.
  rewrite compare_app by (by rewrite !four_digits_length).
  rewrite four_digits_compare by assumption.
  destruct (N.compare (year a) (year b)); try reflexivity.
  change (String.compare ("-" +:+ ?s) ("-" +:+ ?s')) with (String.compare s s').
  rewrite compare_app by (by rewrite !two_digits_length).
  rewrite two_digits_compare by assumption.
  destruct (N.compare (month a) (month b)); try reflexivity.
  change (String.compare ("-" +:+ ?s) ("-" +:+ ?s')) with (String.compare s s').
  by apply two_digits_compare.
Qed.

(** Text order on written dates is calendar order. *)
Lemma format_date_order (a b : pydate) :
  four_digit_year a -> four_digit_year b ->
  Sql.text_le (format_date a) (format_date b) = true <-> on_or_before a b.
Proof.
  intros Ha Hb. unfold Sql.text_le, String.leb, on_or_before.
  rewrite (format_date_compare a b Ha Hb).
  destruct (N.compare_spec (year a) (year b)), (N.compare_spec (month a) (month b)),
    (N.compare_spec (day a) (day b)); split; try done; try lia; intros; exfalso; lia.
Qed.

End Date_text.

(** ** LIKE on a pattern without wildcards *)

Section Like_facts.

Lemma like_percent (p t : string) :
  Sql.like (String "%" p) t
  = Sql.like p t
    || match t with String _ t' => Sql.like (String "%" p) t' | EmptyString => false end.
Proof. destruct t; reflexivity. Qed.

Lemma like_only_percent (t : string) : Sql.like "%" t = true.
Proof.
  induction t as [|c t IH]; [reflexivity|].
  rewrite like_percent, IH. apply orb_true_r.
Qed.

Lemma like_literal (c : ascii) (p t : string) :
  Ascii.eqb c "%" = false -> Ascii.eqb c "_" = false ->
  Sql.like (String c p) t
  = match t with
    | String d t' => Ascii.eqb (Sql.fold_case c) (Sql.fold_case d) && Sql.like p t'
    | EmptyString => false
    end.
Proof. intros H1 H2. simpl. rewrite H1. destruct t; [reflexivity|]. by rewrite H2. Qed.

Lemma like_prefix (m t : string) :
  wildcard_free m = true -> Sql.like (m +:+ "%") t = prefix_nocase m t.
Proof.
  revert t. induction m as [|c m IH]; intros t Hm.
  - apply like_only_percent.
  - simpl in Hm. apply andb_prop in Hm as [Hc Hm]. apply andb_prop in Hc as [Hc1 Hc2].
    apply negb_true_iff in Hc1, Hc2.
    change (String c m +:+ "%") with (String c (m +:+ "%")).
    rewrite like_literal by assumption.
    destruct t as [|d t]; [reflexivity|].
    simpl. by rewrite IH.
Qed.

Lemma like_contains (m t : string) :
  wildcard_free m = true -> Sql.like ("%" +:+ m +:+ "%") t = contains_nocase m t.
Proof.
  intros Hm. change ("%" +:+ m +:+ "%") with (String "%" (m +:+ "%")).
  induction t as [|d t IH]; rewrite like_percent, like_prefix by assumption.
  - destruct m; reflexivity.
  - rewrite IH. reflexivity.
Qed.

End Like_facts.

(** ** The listing and the filter *)

Section Listing.

Lemma list_all_perm (d : database) : list_all d ≡ₚ Sql.select_all (expenses d).
Proof. apply order_by_perm. Qed.

Lemma list_all_ids_nodup (d : database) : NoDup ((list_all d).*1).
Proof. apply order_by_ids_nodup, select_all_ids_nodup. Qed.

Lemma list_all_elem_of (d : database) (r : Row) :
  r ∈ list_all d <-> expenses d !! id r = Some (cols r).
Proof. rewrite list_all_perm. apply select_all_elem_of. Qed.

Lemma filter_where_nocase (from_str to_str : option string) (m : string) (r : Row) :
  wildcard_free m = true ->
  filter_where from_str to_str m r = where_mission contains_nocase from_str to_str m r.
Proof.
  intros Hm. unfold filter_where, where_mission, in_date_range.
  f_equal; [f_equal|].
  - destruct from_str as [s|]; [destruct s|]; reflexivity.
  - destruct to_str as [s|]; [destruct s|]; reflexivity.
  - destruct (Py.truthy m); [|reflexivity].
    destruct (mission (cols r)) as [t|]; [|reflexivity].
    simpl. by apply like_contains.
Qed.

End Listing.

(** C6: [list_all] returns every record of the table, each once, ordered by
    date descending with ties broken by id descending: of two positions the
    earlier holds the later or equal date, and when the dates are equal it
    holds the larger id.  Dates compare as the stored text, which for dates
    written YYYY-MM-DD is the order of the calendar. *)
Theorem list_all_date_desc_id_desc (d : database) :
  (forall r : Row, r ∈ list_all d <-> expenses d !! id r = Some (cols r))
  /\ NoDup (list_all d)
  /\ forall (i j : nat) (a b : Row),
       (i < j)%nat -> list_all d !! i = Some a -> list_all d !! j = Some b ->
       Sql.text_le (date (cols b)) (date (cols a)) = true
       /\ (date (cols a) = date (cols b) -> id b < id a)
       /\ forall day_a day_b : pydate,
            four_digit_year day_a -> four_digit_year day_b ->
            date (cols a) = format_date day_a -> date (cols b) = format_date day_b ->
            on_or_before day_b day_a.
Proof.
  split; [apply list_all_elem_of|].
  split; [apply (NoDup_fmap_1 fst), list_all_ids_nodup|].
  intros i j a b Hij Hi Hj.
  assert (Sql.date_id_desc a b) as Hab.
  { eapply (StronglySorted_lookup Sql.date_id_desc); eauto.
    apply order_by_sorted; apply _. }
  assert (id a <> id b) as Hne.
  { intros Hid.
    assert ((list_all d).*1 !! i = Some (id a)) as Hi' by (by rewrite list_lookup_fmap, Hi).
    assert ((list_all d).*1 !! j = Some (id a)) as Hj'
      by (rewrite list_lookup_fmap, Hj; simpl; by rewrite Hid).
    pose proof (NoDup_lookup _ _ _ _ (list_all_ids_nodup d) Hi' Hj'). lia. }
  assert (Sql.text_le (date (cols b)) (date (cols a)) = true) as Hle.
  { apply Is_true_true. change (String.le (date (cols b)) (date (cols a))).
    destruct Hab as [[Hle _]|[Heq _]]; [exact Hle|]. rewrite Heq. reflexivity. }
  split; [exact Hle|]. split.
  - intros Hd. destruct Hab as [[_ Hnle]|[_ Hid]]; [|lia].
    exfalso. apply Hnle. rewrite Hd. reflexivity.
  - intros day_a day_b Ha Hb Hda Hdb. rewrite Hda, Hdb in Hle.
    by apply format_date_order.
Qed.

(** Two expenses of one day and a later one, as listed. *)
Example sample_listing :
  (fun r => (id r, date (cols r))) <$> list_all (db Sample.three)
  = [(3, "2024-02-01"); (2, "2024-01-01"); (1, "2024-01-01")].
Proof. vm_compute. reflexivity. Qed.

(** C1, as amended: for a mission text without the wildcards [%] and [_],
    [filter] returns exactly the records of [list_all], in its order, that
    have the date at or after [from_date] if given, at or before [to_date] if
    given, and a mission in which the text occurs regardless of the case of
    ASCII letters if given; with none of the three given it returns
    [list_all]. *)
Theorem filter_rows_conjunction (d : database) (from_str to_str : option string)
    (mission_text : string) :
  wildcard_free (Py.strip mission_text) = true ->
  filter_rows d from_str to_str mission_text
  = List.filter (where_mission contains_nocase from_str to_str (Py.strip mission_text))
      (list_all d)
  /\ (Py.truthy_opt from_str = false -> Py.truthy_opt to_str = false ->
      Py.truthy (Py.strip mission_text) = false ->
      filter_rows d from_str to_str mission_text = list_all d).
Proof.
  intros Hm.
  assert (filter_rows d from_str to_str mission_text
          = List.filter (where_mission contains_nocase from_str to_str
                           (Py.strip mission_text)) (list_all d)) as Heq.
  { unfold filter_rows, list_all.
    rewrite (order_by_filter Sql.date_id_desc) by apply date_id_desc_same_id.
    apply filter_ext_elem_of. intros r _. by apply filter_where_nocase. }
  split; [exact Heq|].
  intros Hf Ht Hmis. rewrite Heq. apply filter_all. intros r _.
  unfold where_mission, in_date_range. by rewrite Hf, Ht, Hmis.
Qed.

Lemma filter_rows_conjunction_witness :
  filter_rows (db Sample.three) (Some "2024-01-01") None " alpha "
  = List.filter (where_mission contains_nocase (Some "2024-01-01") None "alpha")
      (list_all (db Sample.three))
  /\ (Py.truthy_opt (Some "2024-01-01") = false -> Py.truthy_opt None = false ->
      Py.truthy (Py.strip " alpha ") = false ->
      filter_rows (db Sample.three) (Some "2024-01-01") None " alpha "
      = list_all (db Sample.three)).
Proof.
  apply (filter_rows_conjunction (db Sample.three) (Some "2024-01-01") None " alpha ").
  vm_compute. reflexivity.
Defined.

(** The mission test of [filter] is not a case-sensitive substring test: the
    text "alpha" selects the two records of mission "Alpha", in which it does
    not occur byte for byte. *)
Lemma filter_mission_ignores_case :
  id <$> filter_rows (db Sample.three) None None "alpha" = [2; 1]
  /\ List.filter (where_mission contains None None "alpha") (list_all (db Sample.three)) = []
  /\ filter_rows (db Sample.three) None None "alpha"
     <> List.filter (where_mission contains None None "alpha") (list_all (db Sample.three)).
Proof.
  split; [vm_compute; reflexivity|].
  split; [vm_compute; reflexivity|].
  vm_compute. discriminate.
Qed.

(** ** Writes *)

Section Writes.
Context `{Externals}.

Lemma validate_ok (f : form) (v : float) :
  is_Some (parse_date_str (date_text (date_input f))) ->
  Py.strip (category_var f) <> "" ->
  py_float (amount_text f) = Some v -> (0 <=? v)%float = true ->
  _validate_form f = (true, None) /\ _get_form_values f = Some (form_values f v).
Proof.
  intros [dt Hd] Hc Hv Hpos. unfold _validate_form, _get_form_values.
  rewrite Hd, Hv. split; [|reflexivity].
  destruct (Py.strip (category_var f)) as [|c s]; [congruence|]. simpl.
  by rewrite (leb_zero_not_negative v Hpos).
Qed.

(** A form that passes validation has an amount [float] reads. *)
Lemma validate_true_values (f : form) (err : option string) :
  _validate_form f = (true, err) -> is_Some (_get_form_values f).
Proof.
  unfold _validate_form, _get_form_values. intros Hv.
  destruct (parse_date_str _); [|discriminate].
  destruct (negb (Py.truthy _)); [discriminate|].
  destruct (py_float (amount_text f)); [|discriminate].
  eexists. reflexivity.
Qed.

Lemma remove_char_gone (c : ascii) (s : string) :
  ~ In c (list_ascii_of_string (Py.remove_char c s)).
Proof.
  induction s as [|d s IH]; simpl; [tauto|].
  destruct (Ascii.eqb d c) eqn:Hd; [exact IH|].
  simpl. intros [->|Hin]; [|tauto].
  by rewrite Ascii.eqb_refl in Hd.
Qed.

Lemma add_expense_valid (a : app) (f : form) (v : float) :
  _validate_form f = (true, None) -> _get_form_values f = Some (form_values f v) ->
  Sql.bound_as_null v = false -> ids_left (db a) ->
  add_expense a f
  = (let d := (Sql.append_row (form_values f v) (db a)).1 in mkapp d None (list_all d),
     Finished None).
Proof.
  intros Hv Hg Hnull Hleft. unfold add_expense. rewrite Hv, Hg. simpl.
  by rewrite (insert_some (db a) (form_values f v) Hnull Hleft).
Qed.

(** With every row id used, a valid form makes [add_expense] raise. *)
Lemma add_expense_full (a : app) (f : form) (v : float) :
  _validate_form f = (true, None) -> _get_form_values f = Some (form_values f v) ->
  ~ ids_left (db a) ->
  add_expense a f = (a, Raised).
Proof.
  intros Hv Hg Hfull. unfold add_expense. rewrite Hv, Hg. simpl.
  by rewrite (insert_full (db a) (form_values f v) Hfull).
Qed.

Lemma edit_expense_valid (a : app) (f : form) (v : float) (sel : Z) :
  selected_expense_id a = Some sel ->
  _validate_form f = (true, None) -> _get_form_values f = Some (form_values f v) ->
  Sql.bound_as_null v = false ->
  edit_expense a f
  = (let d := mkdb (Sql.update_where_id (form_values f v) sel (expenses (db a)))
                (sqlite_sequence (db a)) in
     mkapp d None (list_all d), Finished None).
Proof.
  intros Hs Hv Hg Hnull. unfold edit_expense. rewrite Hs, Hv, Hg. simpl.
  by rewrite (update_some (form_values f v) sel _ Hnull).
Qed.

End Writes.

(** C2, as amended: for an id that is not in the store, neither update nor
    delete fails: with valid fields update runs to its end, a confirmed
    delete runs to its end, and no record is modified or removed by either. *)
Theorem absent_id_no_error_no_change `{Externals} (a : app) (f : form) (sel : Z)
    (confirm : bool) :
  selected_expense_id a = Some sel ->
  expenses (db a) !! sel = None ->
  db (edit_expense a f).1 = db a
  /\ db (delete_expense a confirm).1 = db a
  /\ (_validate_form f = (true, None) -> (edit_expense a f).2 = Finished None)
  /\ (delete_expense a true).2 = Finished None.
Proof.
  intros Hsel Habs. destruct a as [[t s] sel' tr]. simpl in *. subst sel'.
  unfold edit_expense, delete_expense. simpl.
  rewrite (delete_where_id_absent _ _ Habs).
  repeat split.
  - destruct (_validate_form f) as [[|] err] eqn:Hv; simpl; [|reflexivity].
    destruct (validate_true_values f err Hv) as [v ->]. simpl.
    rewrite (update_absent _ _ _ Habs). simpl.
    by rewrite (update_where_id_absent _ _ _ Habs).
  - by destruct confirm.
  - intros Hv. rewrite Hv. simpl.
    destruct (validate_true_values f None Hv) as [v ->].
    by rewrite (update_absent _ _ _ Habs).
Qed.

Lemma absent_id_no_error_no_change_witness :
  let a := Sample.stale_selection in
  let f := Sample.entry "2024-03-01" "Food" "3" "C" in
  db (edit_expense (H := Ascii_input.externals) a f).1 = db a
  /\ db (delete_expense a true).1 = db a
  /\ (_validate_form (H := Ascii_input.externals) f = (true, None) ->
      (edit_expense (H := Ascii_input.externals) a f).2 = Finished None)
  /\ (delete_expense a true).2 = Finished None.
Proof.
  apply (absent_id_no_error_no_change (H := Ascii_input.externals)
           Sample.stale_selection (Sample.entry "2024-03-01" "Food" "3" "C") 7 true).
  - reflexivity.
  - vm_compute. reflexivity.
Defined.

(** With row 7 selected and no row 7 in the table, an update with valid
    fields and a confirmed delete both run to their end: no message box
    reports an error and nothing is raised. *)
Lemma absent_id_is_not_reported :
  let a := Sample.stale_selection in
  let f := Sample.entry "2024-03-01" "Food" "3" "C" in
  selected_expense_id a = Some 7
  /\ expenses (db a) !! 7 = None
  /\ (edit_expense (H := Ascii_input.externals) a f).2 = Finished None
  /\ ~ reports_error (edit_expense (H := Ascii_input.externals) a f).2
  /\ (delete_expense a true).2 = Finished None
  /\ ~ reports_error (delete_expense a true).2.
Proof.
  assert (forall o, o = Finished None -> ~ reports_error o) as Hno.
  { intros o -> [Hr|(t & m & Hr)]; discriminate. }
  repeat split; try (vm_compute; reflexivity);
    apply Hno; vm_compute; reflexivity.
Qed.

Section Create.
Context `{Externals}.

(** A duplicate-free list all of whose elements are [x], with [x] in it. *)
Lemma nodup_only (A : Type) (l : list A) (x : A) :
  NoDup l -> x ∈ l -> (forall y, y ∈ l -> y = x) -> l = [x].
Proof.
  intros Hnd Hx Hall. destruct l as [|a l]; [by apply elem_of_nil in Hx|].
  assert (a = x) as -> by (apply Hall; constructor).
  f_equal. destruct l as [|b l]; [reflexivity|].
  assert (b = x) as -> by (apply Hall; constructor; constructor).
  apply NoDup_cons in Hnd as [Hnot _]. exfalso. apply Hnot. constructor.
Qed.

Lemma list_all_insert (d : database) (fields : Fields) :
  list_all (Sql.append_row fields d).1 ≡ₚ ((Sql.append_row fields d).2, fields) :: list_all d.
Proof.
  rewrite !list_all_perm. unfold Sql.select_all. simpl.
  apply map_to_list_insert, (insert_fresh d fields).
Qed.

Lemma list_all_only_new (d : database) (fields : Fields) :
  List.filter (fun r => id r =? (Sql.append_row fields d).2) (list_all (Sql.append_row fields d).1)
  = [((Sql.append_row fields d).2, fields)].
Proof.
  set (new_id := (Sql.append_row fields d).2).
  apply nodup_only.
  - apply (NoDup_fmap_1 fst), filter_ids_nodup, list_all_ids_nodup.
  - apply filter_elem_of. split; [|apply Z.eqb_refl].
    rewrite list_all_insert. constructor.
  - intros r Hr. apply filter_elem_of in Hr as [Hr Hid].
    apply Z.eqb_eq in Hid.
    rewrite list_all_insert in Hr. apply elem_of_cons in Hr as [Hr|Hr]; [exact Hr|].
    apply list_all_elem_of in Hr. rewrite Hid in Hr.
    unfold new_id in Hr. rewrite insert_fresh in Hr. discriminate.
Qed.

End Create.

(** C7, as amended: for a parseable date, a non-empty category and a
    non-negative amount, on a table where a row id is left (the largest id
    ever used is below 2^63 - 1), [create] succeeds; the id it assigns
    is above every id ever used and in no record stored before; the following
    [list_all] is the earlier one with one more record, has exactly one
    record with the new id, and that record carries the given values; every
    record stored before is unchanged. *)
Theorem add_expense_creates_one `{Externals} (a : app) (f : form) (v : float) :
  is_Some (parse_date_str (date_text (date_input f))) ->
  Py.strip (category_var f) <> "" ->
  py_float (amount_text f) = Some v -> (0 <=? v)%float = true ->
  ids_left (db a) ->
  exists new_id : Z,
    let a' := (add_expense a f).1 in
    let new := (new_id, form_values f v) in
    (add_expense a f).2 = Finished None
    /\ Sql.largest_used (db a) < new_id <= Sql.max_id
    /\ expenses (db a) !! new_id = None
    /\ tree a' = list_all (db a')
    /\ list_all (db a') ≡ₚ new :: list_all (db a)
    /\ List.filter (fun r => id r =? new_id) (list_all (db a')) = [new]
    /\ forall (i : Z) (g : Fields),
         expenses (db a) !! i = Some g -> expenses (db a') !! i = Some g.
Proof.
  intros Hd Hc Hv Hpos Hleft.
  destruct (validate_ok f v Hd Hc Hv Hpos) as [Hval Hget].
  exists (Sql.append_row (form_values f v) (db a)).2.
  rewrite (add_expense_valid a f v Hval Hget (leb_zero_not_null v Hpos) Hleft).
  cbv zeta. cbn [fst snd db tree].
  split; [reflexivity|].
  split; [unfold ids_left in Hleft; cbn [Sql.append_row snd]; lia|].
  split; [apply insert_fresh|].
  split; [reflexivity|].
  split; [apply list_all_insert|].
  split; [apply list_all_only_new|].
  intros i g Hi. cbn [Sql.append_row fst expenses].
  rewrite lookup_insert_ne; [exact Hi|].
  intros Heq. pose proof (insert_fresh (db a) (form_values f v)) as Hfresh.
  cbn [Sql.append_row snd] in Hfresh. rewrite Heq in Hfresh. congruence.
Qed.

Lemma add_expense_creates_one_witness :
  exists new_id : Z,
    let a := Sample.three in
    let f := Sample.entry " 2024-03-05" "Food " "42.25" "Alpha" in
    let a' := (add_expense (H := Ascii_input.externals) a f).1 in
    let new := (new_id, form_values f 42.25) in
    (add_expense (H := Ascii_input.externals) a f).2 = Finished None
    /\ Sql.largest_used (db a) < new_id <= Sql.max_id
    /\ expenses (db a) !! new_id = None
    /\ tree a' = list_all (db a')
    /\ list_all (db a') ≡ₚ new :: list_all (db a)
    /\ List.filter (fun r => id r =? new_id) (list_all (db a')) = [new]
    /\ forall (i : Z) (g : Fields),
         expenses (db a) !! i = Some g -> expenses (db a') !! i = Some g.
Proof.
  apply (add_expense_creates_one (H := Ascii_input.externals) Sample.three
           (Sample.entry " 2024-03-05" "Food " "42.25" "Alpha") 42.25).
  - vm_compute. eexists. reflexivity.
  - vm_compute. discriminate.
  - vm_compute. reflexivity.
  - vm_compute. reflexivity.
  - vm_compute. reflexivity.
Defined.

(** A table in which the largest row id there is has been used: a valid form
    passes validation, the INSERT raises, and nothing is stored. *)
Lemma full_table_refuses_valid_input :
  let last := mkFields "2024-01-01" "Food" 12.5 (Some "") (Some "Alpha") None in
  let a := opened (mkdb {[ Sql.max_id := last ]} Sql.max_id) in
  let f := Sample.entry "2024-03-05" "Food" "42.25" "Alpha" in
  _validate_form (H := Ascii_input.externals) f = (true, None)
  /\ py_float (Externals := Ascii_input.externals) (amount_text f) = Some 42.25%float
  /\ (0 <=? 42.25)%float = true
  /\ add_expense (H := Ascii_input.externals) a f = (a, Raised)
  /\ list_all (db (add_expense (H := Ascii_input.externals) a f).1) = [(Sql.max_id, last)]
  /\ ~ ids_left (db a).
Proof.
  cbv zeta. repeat split; try (vm_compute; reflexivity).
  vm_compute. discriminate.
Qed.

(** C10: the amount text is read with every comma removed, in validation and
    in the values stored by create and update alike: when the text without
    its commas is a non-negative number, the form passes validation and that
    number is the amount stored, by create under the new id (while a row id
    is left) and by update under the selected id. *)
Theorem amount_commas_are_dropped `{Externals} (a : app) (f : form) (v : float) :
  is_Some (parse_date_str (date_text (date_input f))) ->
  Py.strip (category_var f) <> "" ->
  py_float (Py.remove_char "," (Py.strip (amount_var f))) = Some v ->
  (0 <=? v)%float = true ->
  ~ In ","%char (list_ascii_of_string (amount_text f))
  /\ _validate_form f = (true, None)
  /\ amount <$> _get_form_values f = Some v
  /\ (ids_left (db a) ->
      exists new_id : Z,
        expenses (db a) !! new_id = None
        /\ amount <$> expenses (db (add_expense a f).1) !! new_id = Some v)
  /\ (forall sel : Z,
        selected_expense_id a = Some sel -> is_Some (expenses (db a) !! sel) ->
        amount <$> expenses (db (edit_expense a f).1) !! sel = Some v).
Proof.
  intros Hd Hc Hv Hpos.
  destruct (validate_ok f v Hd Hc Hv Hpos) as [Hval Hget].
  split; [apply remove_char_gone|].
  split; [exact Hval|].
  split; [by rewrite Hget|].
  split.
  - intros Hleft. exists (Sql.append_row (form_values f v) (db a)).2.
    split; [apply insert_fresh|].
    rewrite (add_expense_valid a f v Hval Hget (leb_zero_not_null v Hpos) Hleft).
    cbn [fst snd db Sql.append_row expenses]. by rewrite lookup_insert_eq.
  - intros sel Hsel [g Hg].
    rewrite (edit_expense_valid a f v sel Hsel Hval Hget (leb_zero_not_null v Hpos)).
    cbn [fst db expenses]. rewrite update_where_id_lookup, Hg.
    by destruct (decide (sel = sel)).
Qed.

Lemma amount_commas_are_dropped_witness :
  let a := mkapp (db Sample.three) (Some 1) (tree Sample.three) in
  let f := Sample.entry "2024-03-05" "Food" " 1,000 " "Alpha" in
  ~ In ","%char (list_ascii_of_string (amount_text f))
  /\ _validate_form (H := Ascii_input.externals) f = (true, None)
  /\ amount <$> _get_form_values (H := Ascii_input.externals) f = Some 1000%float
  /\ (ids_left (db a) ->
      exists new_id : Z,
        expenses (db a) !! new_id = None
        /\ amount <$> expenses (db (add_expense (H := Ascii_input.externals) a f).1) !! new_id
           = Some 1000%float)
  /\ (forall sel : Z,
        selected_expense_id a = Some sel -> is_Some (expenses (db a) !! sel) ->
        amount <$> expenses (db (edit_expense (H := Ascii_input.externals) a f).1) !! sel
        = Some 1000%float).
Proof.
  apply (amount_commas_are_dropped (H := Ascii_input.externals)
           (mkapp (db Sample.three) (Some 1) (tree Sample.three))
           (Sample.entry "2024-03-05" "Food" " 1,000 " "Alpha") 1000%float).
  - vm_compute. eexists. reflexivity.
  - vm_compute. discriminate.
  - vm_compute. reflexivity.
  - vm_compute. reflexivity.
Defined.

(** The sample stores are far from the last row id. *)
Example sample_ids_left :
  ids_left (db Sample.three) /\ Sql.largest_used (db Sample.three) = 3
  /\ ids_left (db (mkapp (db Sample.three) (Some 1) (tree Sample.three))).
Proof. repeat split; vm_compute; reflexivity. Qed.

(** ** The rows of a report *)

Section Report_rows.
Implicit Types (d : database) (r : Row).

Lemma eq_null_true (v : option string) (x : string) :
  Sql.eq_null v x = true <-> v = Some x.
Proof.
  destruct v as [t|]; simpl; [|split; discriminate].
  rewrite String.eqb_eq. split; [by intros ->|congruence].
Qed.

Lemma report_rows_perm d (m : string) :
  report_rows d m
  ≡ₚ List.filter (fun r => Sql.eq_null (mission (cols r)) m) (Sql.select_all (expenses d)).
Proof. apply order_by_perm. Qed.

Lemma report_rows_elem_of d (m : string) r :
  r ∈ report_rows d m <-> expenses d !! id r = Some (cols r) /\ mission (cols r) = Some m.
Proof.
  rewrite report_rows_perm, filter_elem_of, select_all_elem_of, eq_null_true.
  reflexivity.
Qed.

Lemma report_rows_sorted d (m : string) :
  StronglySorted Sql.date_id_asc (report_rows d m).
Proof. apply order_by_sorted; apply _. Qed.

Lemma report_rows_ids_nodup d (m : string) : NoDup ((report_rows d m).*1).
Proof. apply order_by_ids_nodup, filter_ids_nodup, select_all_ids_nodup. Qed.

Lemma reverse_rev {A} (l : list A) : reverse l = rev l.
Proof. symmetry. apply rev_alt. Qed.

(** The ascending order is the listing order read backwards. *)
Lemma order_by_asc_reverse (t : gmap Z Fields) :
  Sql.order_by Sql.date_id_asc (Sql.select_all t)
  = reverse (Sql.order_by Sql.date_id_desc (Sql.select_all t)).
Proof.
  apply (sorted_rows_unique Sql.date_id_asc).
  - apply date_id_asc_same_id.
  - apply order_by_ids_nodup, select_all_ids_nodup.
  - apply order_by_sorted; apply _.
  - apply Sorted_StronglySorted; [apply _|].
    apply (Sorted_reverse Sql.date_id_desc), StronglySorted_Sorted, order_by_sorted;
      apply _.
  - by rewrite reverse_Permutation, !order_by_perm.
Qed.

Lemma report_rows_reverse d (m : string) :
  report_rows d m
  = reverse (List.filter (fun r => Sql.eq_null (mission (cols r)) m) (list_all d)).
Proof.
  unfold report_rows, list_all.
  rewrite (order_by_filter Sql.date_id_asc) by apply date_id_asc_same_id.
  by rewrite order_by_asc_reverse, !reverse_rev, filter_rev.
Qed.

Lemma report_rows_nil d (m : string) :
  (forall (i : Z) (g : Fields), expenses d !! i = Some g -> mission g <> Some m) ->
  report_rows d m = [].
Proof.
  intros Hnone. destruct (report_rows d m) as [|r l] eqn:Hr; [reflexivity|].
  assert (r ∈ report_rows d m) as Hin by (rewrite Hr; constructor).
  apply report_rows_elem_of in Hin as [Hlook Hm].
  by apply Hnone in Hlook.
Qed.

Lemma report_rows_not_nil d (m : string) (i : Z) (g : Fields) :
  expenses d !! i = Some g -> mission g = Some m -> report_rows d m <> [].
Proof.
  intros Hlook Hm Hnil.
  assert ((i, g) ∈ report_rows d m) as Hin by (by apply report_rows_elem_of).
  rewrite Hnil in Hin. by apply elem_of_nil in Hin.
Qed.

(** Positions in a list in ascending order: the earlier holds the earlier or
    equal date, and the smaller id when the dates are equal. *)
Lemma asc_positions (l : list Row) (i j : nat) (a b : Row) :
  StronglySorted Sql.date_id_asc l -> NoDup (l.*1) ->
  (i < j)%nat -> l !! i = Some a -> l !! j = Some b ->
  Sql.text_le (date (cols a)) (date (cols b)) = true
  /\ (date (cols a) = date (cols b) -> id a < id b).
Proof.
  intros Hs Hnd Hij Hi Hj.
  pose proof (StronglySorted_lookup _ _ _ _ _ _ Hs Hij Hi Hj) as Hab.
  assert (id a <> id b) as Hne.
  { intros Hid.
    assert (l.*1 !! i = Some (id a)) as Hi' by (by rewrite list_lookup_fmap, Hi).
    assert (l.*1 !! j = Some (id a)) as Hj'
      by (rewrite list_lookup_fmap, Hj; simpl; by rewrite Hid).
    pose proof (NoDup_lookup _ _ _ _ Hnd Hi' Hj'). lia. }
  destruct Hab as [[Hle Hnle]|[Heq Hid]].
  - split; [by apply Is_true_true|].
    intros Hd. exfalso. apply Hnle. rewrite Hd. reflexivity.
  - split; [|lia].
    apply Is_true_true. change (String.le (date (cols a)) (date (cols b))).
    rewrite Heq. reflexivity.
Qed.

(** A test that holds of every fetched row holds of every stored record. *)
Lemma table_forall (t : gmap Z Fields) (P : Fields -> bool) :
  forallb (fun r => P (cols r)) (Sql.select_all t) = true ->
  forall (i : Z) (g : Fields), t !! i = Some g -> P g = true.
Proof.
  intros Hall i g Hi. rewrite forallb_forall in Hall.
  apply (Hall (i, g)). apply list_elem_of_In. by apply elem_of_map_to_list.
Qed.

End Report_rows.

(** ** What a document shows *)

Section Document_facts.
Variable env : report_env.

Lemma texts_at_size_app (size current : Z) (a b : list canvas_op) :
  texts_at_size size current (a ++ b)
  = texts_at_size size current a ++ texts_at_size size (size_after current a) b.
Proof.
  revert current. induction a as [|c a IH]; intros current; [reflexivity|].
  destruct c; simpl; rewrite ?IH; try reflexivity.
  destruct (current =? size); reflexivity.
Qed.

Lemma images_drawn_app (a b : list canvas_op) :
  images_drawn (a ++ b) = images_drawn a ++ images_drawn b.
Proof. apply omap_app. Qed.

Lemma embed_image_texts (title_text sub_text img_path : string) (y : Q) (current : Z) :
  texts_at_size 10 current (embed_image env title_text sub_text y img_path).1 = [].
Proof.
  unfold embed_image, drawn_size.
  destruct (image_reader env img_path); [|reflexivity]. cbn [negb].
  destruct (if HAS_PIL env then _ else _) as [[w h]|]; [|reflexivity].
  destruct ((w =? 0) || (h =? 0)); [reflexivity|].
  cbv zeta. destruct (Qlt_le_dec _ _), (draw_image env img_path); reflexivity.
Qed.

Lemma embed_image_images (title_text sub_text img_path : string) (y : Q) (r : Row) :
  image_path (cols r) = Some img_path ->
  Py.truthy img_path && isfile env img_path = true ->
  images_drawn (embed_image env title_text sub_text y img_path).1
  = option_list (embeddable env r).
Proof.
  intros Hp Hfile. unfold embeddable, embed_image, drawn_size. rewrite Hp, Hfile.
  destruct (image_reader env img_path); [|reflexivity]. cbn [negb andb].
  destruct (if HAS_PIL env then _ else _) as [[w h]|];
    [|by destruct (draw_image env img_path)].
  destruct (w =? 0), (h =? 0); cbn [orb negb andb];
    try (by destruct (draw_image env img_path)).
  cbv zeta. destruct (Qlt_le_dec _ _), (draw_image env img_path); reflexivity.
Qed.

Lemma render_record_texts (title_text sub_text : string) (index : N) (y : Q) (r : Row)
    (current : Z) :
  texts_at_size 10 current (render_record env title_text sub_text index y r).1
  = _persian_text env <$> row_values index r.
Proof.
  unfold render_record.
  destruct (match image_path (cols r) with Some _ => _ | None => _ end)
    as [image y2] eqn:Himage.
  assert (forall c, texts_at_size 10 c image = []) as Hnone.
  { intros c. destruct (image_path (cols r)) as [p|].
    - destruct (Py.truthy p && isfile env p).
      + rewrite <- (embed_image_texts title_text sub_text p (y - line_height) c).
        by rewrite Himage.
      + by inversion Himage.
    - by inversion Himage. }
  destruct (Qlt_le_dec y2 60); cbn [fst];
    rewrite (texts_at_size_app 10 current (setFont _ 10 :: _)),
      texts_at_size_app, Hnone; reflexivity.
Qed.

Lemma render_record_images (title_text sub_text : string) (index : N) (y : Q) (r : Row) :
  images_drawn (render_record env title_text sub_text index y r).1
  = option_list (embeddable env r).
Proof.
  unfold render_record.
  destruct (match image_path (cols r) with Some _ => _ | None => _ end)
    as [image y2] eqn:Himage.
  assert (images_drawn image = option_list (embeddable env r)) as Himg.
  { destruct (image_path (cols r)) as [p|] eqn:Hp.
    - destruct (Py.truthy p && isfile env p) eqn:Hfile.
      + rewrite <- (embed_image_images title_text sub_text p (y - line_height) r Hp Hfile).
        by rewrite Himage.
      + inversion Himage. unfold embeddable. by rewrite Hp, Hfile.
    - inversion Himage. unfold embeddable. by rewrite Hp. }
  destruct (Qlt_le_dec y2 60); cbn [fst];
    rewrite (images_drawn_app (setFont _ 10 :: _)), images_drawn_app, Himg;
    cbn; by rewrite ?app_nil_r.
Qed.

Lemma render_records_texts (title_text sub_text : string) (rows : list Row) :
  forall (index : N) (y : Q) (current : Z),
    texts_at_size 10 current (render_records env title_text sub_text index y rows)
    = concat (imap (fun k r => _persian_text env <$> row_values (index + N.of_nat k) r)
                rows).
Proof.
  induction rows as [|r rows IH]; intros index y current; [reflexivity|].
  cbn [render_records].
  destruct (render_record env title_text sub_text index y r) as [calls y'] eqn:Hr.
  rewrite texts_at_size_app, IH, imap_cons. cbn [concat].
  f_equal.
  - transitivity (_persian_text env <$> row_values index r).
    + replace calls with (render_record env title_text sub_text index y r).1
        by (by rewrite Hr).
      apply render_record_texts.
    + change (N.of_nat 0) with 0%N. by rewrite N.add_0_r.
  - f_equal. apply imap_ext. intros k x _. cbn [compose]. do 2 f_equal. lia.
Qed.

Lemma render_records_images (title_text sub_text : string) (rows : list Row) :
  forall (index : N) (y : Q),
    images_drawn (render_records env title_text sub_text index y rows)
    = omap (embeddable env) rows.
Proof.
  induction rows as [|r rows IH]; intros index y; [reflexivity|].
  cbn [render_records].
  destruct (render_record env title_text sub_text index y r) as [calls y'] eqn:Hr.
  rewrite images_drawn_app, IH.
  replace calls with (render_record env title_text sub_text index y r).1
    by (by rewrite Hr).
  rewrite render_record_images. cbn [omap list_omap].
  by destruct (embeddable env r).
Qed.

(** The rows of the table are drawn one after the other, numbered from 1. *)
Lemma document_texts (mission_name : string) (rows : list Row) :
  texts_at_size 10 12 (document env mission_name rows)
  = concat (imap (fun k r => _persian_text env <$> row_values (N.of_nat (S k)) r) rows).
Proof.
  unfold document. cbv zeta.
  rewrite !texts_at_size_app, render_records_texts.
  cbn [texts_at_size draw_cells headers header_positions zip_with List.app Z.eqb Pos.eqb
         size_after fold_left].
  f_equal. apply imap_ext. intros k x _. cbn beta. do 2 f_equal. lia.
Qed.

Lemma document_images (mission_name : string) (rows : list Row) :
  images_drawn (document env mission_name rows) = omap (embeddable env) rows.
Proof.
  unfold document. cbv zeta.
  rewrite !images_drawn_app, render_records_images. reflexivity.
Qed.

Lemma generate_some (d : database) (mission_name save_path : string) :
  report_rows d mission_name <> [] -> Py.truthy save_path = true ->
  generate env d mission_name save_path
  = (Finished (Some (showinfo "Export Complete"
                       ("PDF saved to:" +:+ String "010" save_path))),
     Some (save_path, document env mission_name (report_rows d mission_name))).
Proof.
  intros Hrows Hpath. unfold generate.
  destruct (report_rows d mission_name); [done|]. by rewrite Hpath.
Qed.

End Document_facts.

(** ** The size of an embedded image *)

Section Image_size.
Variable env : report_env.
Local Open Scope Q_scope.

Lemma inject_Z_pos (n : Z) : (0 < n)%Z -> 0 < inject_Z n.
Proof. intros Hn. unfold Qlt. simpl. lia. Qed.

Lemma min_le_l (a b : Q) : Py.min a b <= a.
Proof.
  unfold Py.min. destruct (Qle_bool a b) eqn:Hab; [apply Qle_refl|].
  apply Qlt_le_weak, Qnot_le_lt. intros Hle.
  apply Qle_bool_iff in Hle. congruence.
Qed.

Lemma min_le_r (a b : Q) : Py.min a b <= b.
Proof.
  unfold Py.min. destruct (Qle_bool a b) eqn:Hab; [|apply Qle_refl].
  by apply Qle_bool_iff.
Qed.

Lemma min_cases (a b : Q) : Py.min a b = a \/ Py.min a b = b.
Proof. unfold Py.min. destruct (Qle_bool a b); auto. Qed.

Lemma min_gt (a b c : Q) : c < Py.min a b <-> c < a /\ c < b.
Proof.
  split.
  - intros Hc. split; eapply Qlt_le_trans; eauto using min_le_l, min_le_r.
  - intros [Ha Hb]. destruct (min_cases a b) as [->| ->]; assumption.
Qed.

Lemma mult_div_cancel (w m : Q) : 0 < w -> w * (m / w) == m.
Proof. intros Hw. field. intros Hz. rewrite Hz in Hw. by apply Qlt_irrefl in Hw. Qed.

Lemma one_lt_div (w m : Q) : 0 < w -> (1 < m / w <-> w < m).
Proof.
  intros Hw. split.
  - intros H1. apply (Qmult_lt_l _ _ w) in H1; [|exact Hw].
    rewrite mult_div_cancel, Qmult_1_r in H1; assumption.
  - intros H1. apply Qlt_shift_div_l; [exact Hw|]. by rewrite Qmult_1_l.
Qed.

Lemma scaled_le (w m s : Q) : 0 < w -> s <= m / w -> w * s <= m.
Proof.
  intros Hw Hs. rewrite <- (mult_div_cancel w m Hw).
  by apply Qmult_le_l.
Qed.

End Image_size.

(** C3, as amended: an embedded image of [width] by [height] pixels is drawn
    at [(width*scale, height*scale)] where [scale] is the smaller of
    [content_width/width] and [300/height] and is not capped at 1: the drawn
    image keeps its proportions, lies within the box of the content width by
    300 and reaches it in one direction, so it is enlarged exactly when it is
    smaller than the box in both directions. *)
Theorem drawn_size_fills_box (env : report_env) (width height : Z)
    (title_text sub_text img_path : string) (y : Q) :
  0 < width -> 0 < height ->
  image_reader env img_path = true -> draw_image env img_path = true ->
  (if HAS_PIL env then image_size env img_path else Some (1024, 768)) = Some (width, height) ->
  let content_width := image_max_width env in
  let scale := image_scale env width height in
  let new_w := (inject_Z width * scale)%Q in
  let new_h := (inject_Z height * scale)%Q in
  (exists (before : list canvas_op) (y1 : Q),
     (embed_image env title_text sub_text y img_path).1
     = before ++ [drawImage img_path 40 (y1 - new_h) new_w new_h]
     /\ images_drawn before = [])
  /\ (scale <= content_width / inject_Z width)%Q
  /\ (scale <= 300 / inject_Z height)%Q
  /\ (scale = content_width / inject_Z width \/ scale = 300 / inject_Z height)%Q
  /\ (new_w <= content_width)%Q /\ (new_h <= 300)%Q
  /\ (new_w == content_width \/ new_h == 300)%Q
  /\ (new_w * inject_Z height == new_h * inject_Z width)%Q
  /\ ((1 < scale)%Q <-> (inject_Z width < content_width)%Q /\ (inject_Z height < 300)%Q).
Proof.
  intros Hw Hh Hreader Hdraw Hsize. cbv zeta.
  pose proof (inject_Z_pos width Hw) as HW.
  pose proof (inject_Z_pos height Hh) as HH.
  split.
  { unfold embed_image. rewrite Hreader, Hsize, Hdraw. simpl.
    replace (width =? 0) with false by (symmetry; apply Z.eqb_neq; lia).
    replace (height =? 0) with false by (symmetry; apply Z.eqb_neq; lia).
    unfold drawn_size. cbv zeta. cbn [orb].
    destruct (Qlt_le_dec _ _).
    - exists (new_page env title_text sub_text ++ [setFont (font_name env) 10]),
        (top_of_page env).
      split; reflexivity.
    - exists [], y. split; reflexivity. }
  unfold image_scale.
  split; [apply min_le_l|]. split; [apply min_le_r|]. split; [apply min_cases|].
  split; [apply scaled_le, min_le_l; exact HW|].
  split; [apply scaled_le, min_le_r; exact HH|].
  split.
  { destruct (min_cases (image_max_width env / inject_Z width) (300 / inject_Z height))
      as [-> | ->]; [left|right]; by apply mult_div_cancel. }
  split; [ring|].
  rewrite min_gt, (one_lt_div _ _ HW), (one_lt_div _ _ HH). reflexivity.
Qed.

Lemma drawn_size_fills_box_witness :
  let env := Sample.a4 in
  let content_width := image_max_width env in
  let scale := image_scale env 3000 2000 in
  let new_w := (inject_Z 3000 * scale)%Q in
  let new_h := (inject_Z 2000 * scale)%Q in
  (exists (before : list canvas_op) (y1 : Q),
     (embed_image env "title" "date" 700 "/r/large.jpg").1
     = before ++ [drawImage "/r/large.jpg" 40 (y1 - new_h) new_w new_h]
     /\ images_drawn before = [])
  /\ (scale <= content_width / inject_Z 3000)%Q
  /\ (scale <= 300 / inject_Z 2000)%Q
  /\ (scale = content_width / inject_Z 3000 \/ scale = 300 / inject_Z 2000)%Q
  /\ (new_w <= content_width)%Q /\ (new_h <= 300)%Q
  /\ (new_w == content_width \/ new_h == 300)%Q
  /\ (new_w * inject_Z 2000 == new_h * inject_Z 3000)%Q
  /\ ((1 < scale)%Q <-> (inject_Z 3000 < content_width)%Q /\ (inject_Z 2000 < 300)%Q).
Proof.
  apply (drawn_size_fills_box Sample.a4 3000 2000 "title" "date" "/r/large.jpg" 700).
  - lia.
  - lia.
  - reflexivity.
  - reflexivity.
  - reflexivity.
Defined.

(** On an A4 page an image of 100 by 100 pixels fits the box of the content
    width by 300, and is drawn at 300 by 300: three times its natural size. *)
Lemma small_image_is_enlarged :
  let env := Sample.a4 in
  (inject_Z 100 <= image_max_width env)%Q /\ (inject_Z 100 <= 300)%Q
  /\ (image_scale env 100 100 == 3)%Q
  /\ ((drawn_size env 100 100).1 == 300)%Q /\ ((drawn_size env 100 100).2 == 300)%Q
  /\ ~ ((drawn_size env 100 100).1 == inject_Z 100)%Q
  /\ exists y', (embed_image env "title" "date" 700 "/r/small.jpg").1
                = [drawImage "/r/small.jpg" 40 y' (drawn_size env 100 100).1
                     (drawn_size env 100 100).2].
Proof.
  cbv zeta.
  split; [vm_compute; discriminate|].
  split; [vm_compute; discriminate|].
  split; [vm_compute; reflexivity|].
  split; [vm_compute; reflexivity|].
  split; [vm_compute; reflexivity|].
  split; [vm_compute; discriminate|].
  eexists. vm_compute. reflexivity.
Qed.

(** ** The report *)

(** C4: when no stored record has exactly the mission asked for, the export
    stops at the "No Data" message and writes no file; a record whose mission
    merely contains the text does not count. *)
Theorem generate_no_data (env : report_env) (d : database) (m save_path : string) :
  (forall (i : Z) (g : Fields), expenses d !! i = Some g -> mission g <> Some m) ->
  generate env d m save_path
  = (Returned (Some (showinfo "No Data" "No expenses found for the given mission.")), None)
  /\ forall (filter_text form_text : string) (prompt : option string),
       HAS_REPORTLAB env = true ->
       export_mission filter_text form_text prompt = Some m ->
       export_pdf env d filter_text form_text prompt save_path
       = (Returned (Some (showinfo "No Data" "No expenses found for the given mission.")),
          None).
Proof.
  intros Hnone.
  assert (generate env d m save_path
          = (Returned (Some (showinfo "No Data" "No expenses found for the given mission.")),
             None)) as Hgen.
  { unfold generate. by rewrite (report_rows_nil d m Hnone). }
  split; [exact Hgen|].
  intros filter_text form_text prompt Hlab Hm.
  unfold export_pdf. by rewrite Hlab, Hm.
Qed.

Lemma generate_no_data_witness :
  let d := db Sample.three in
  contains "Alph" "Alpha" = true
  /\ generate Sample.a4 d "Alph" "/tmp/report.pdf"
     = (Returned (Some (showinfo "No Data" "No expenses found for the given mission.")), None)
  /\ forall (filter_text form_text : string) (prompt : option string),
       HAS_REPORTLAB Sample.a4 = true ->
       export_mission filter_text form_text prompt = Some "Alph" ->
       export_pdf Sample.a4 d filter_text form_text prompt "/tmp/report.pdf"
       = (Returned (Some (showinfo "No Data" "No expenses found for the given mission.")),
          None).
Proof.
  split; [reflexivity|].
  apply (generate_no_data Sample.a4 (db Sample.three) "Alph" "/tmp/report.pdf").
  intros i g Hi Hm.
  pose proof (table_forall (expenses (db Sample.three))
                (fun g => negb (Sql.eq_null (mission g) "Alph"))) as Hall.
  specialize (Hall ltac:(vm_compute; reflexivity) i g Hi).
  apply negb_true_iff in Hall. apply eq_null_true in Hm. congruence.
Defined.

(** C5, as amended: for a mission with at least one record, the export
    writes the report; its rows are the records of exactly that mission
    ordered by date ascending with ties broken by id ascending, which is the
    listing order read backwards; the rows drawn are these records in that
    order, each with its six cells, the first the number of the row counted
    from 1, the fourth the amount: a finite amount is written with exactly
    two decimals, as the hundredths nearest to the value the float stands for
    (the even one on a tie), an infinite amount by name. *)
Theorem report_chronological (env : report_env) (d : database) (m save_path : string) :
  (exists (i : Z) (g : Fields), expenses d !! i = Some g /\ mission g = Some m) ->
  Py.truthy save_path = true ->
  let rows := report_rows d m in
  exists doc : list canvas_op,
    (generate env d m save_path).2 = Some (save_path, doc)
    /\ (forall r : Row,
          r ∈ rows <-> expenses d !! id r = Some (cols r) /\ mission (cols r) = Some m)
    /\ (forall (i j : nat) (a b : Row),
          (i < j)%nat -> rows !! i = Some a -> rows !! j = Some b ->
          Sql.text_le (date (cols a)) (date (cols b)) = true
          /\ (date (cols a) = date (cols b) -> id a < id b))
    /\ rows = reverse (List.filter (fun r => Sql.eq_null (mission (cols r)) m) (list_all d))
    /\ texts_at_size 10 12 doc
       = concat (imap (fun k r =>
                         _persian_text env <$>
                           [ Py.str (N.of_nat (S k)); date (cols r); category (cols r);
                             format_2f (amount (cols r));
                             Py.or_empty (description (cols r));
                             Py.or_empty (mission (cols r)) ]) rows)
    /\ (forall n : N, read_digits (Py.str n) = Some n)
    /\ (forall x : float, two_decimals x (format_2f x)).
Proof.
  intros (i & g & Hi & Hm) Hpath. cbv zeta.
  exists (document env m (report_rows d m)).
  split.
  { rewrite generate_some; [reflexivity| |exact Hpath].
    by apply (report_rows_not_nil d m i g). }
  split; [apply report_rows_elem_of|].
  split.
  { intros i' j a b. apply asc_positions;
      [apply report_rows_sorted|apply report_rows_ids_nodup]. }
  split; [apply report_rows_reverse|].
  split; [apply document_texts|].
  split; [apply read_str|apply format_2f_two_decimals].
Qed.

Lemma report_chronological_witness :
  let env := Sample.a4 in
  let d := db Sample.with_receipts in
  let rows := report_rows d "M" in
  exists doc : list canvas_op,
    (generate env d "M" "/tmp/report.pdf").2 = Some ("/tmp/report.pdf", doc)
    /\ (forall r : Row,
          r ∈ rows <-> expenses d !! id r = Some (cols r) /\ mission (cols r) = Some "M")
    /\ (forall (i j : nat) (a b : Row),
          (i < j)%nat -> rows !! i = Some a -> rows !! j = Some b ->
          Sql.text_le (date (cols a)) (date (cols b)) = true
          /\ (date (cols a) = date (cols b) -> id a < id b))
    /\ rows = reverse (List.filter (fun r => Sql.eq_null (mission (cols r)) "M") (list_all d))
    /\ texts_at_size 10 12 doc
       = concat (imap (fun k r =>
                         _persian_text env <$>
                           [ Py.str (N.of_nat (S k)); date (cols r); category (cols r);
                             format_2f (amount (cols r));
                             Py.or_empty (description (cols r));
                             Py.or_empty (mission (cols r)) ]) rows)
    /\ (forall n : N, read_digits (Py.str n) = Some n)
    /\ (forall x : float, two_decimals x (format_2f x)).
Proof.
  apply (report_chronological Sample.a4 (db Sample.with_receipts) "M" "/tmp/report.pdf").
  - exists 1, (form_values
                 (Sample.receipt "2024-02-01" "10" "M" "/r/small.jpg") 10).
    split; vm_compute; reflexivity.
  - reflexivity.
Defined.

(** The amount text "inf" passes the validation of the form, is stored, and
    the report writes it as it is: a cell without a point and without
    decimals. *)
Lemma infinite_amount_has_no_decimals :
  let f := Sample.receipt "2024-02-01" "inf" "M" "" in
  let a := Sample.add f Sample.started in
  _validate_form (H := Ascii_input.externals) f = (true, None)
  /\ amount <$> expenses (db a) !! 1 = Some infinity
  /\ (exists doc : list canvas_op,
        (generate Sample.a4 (db a) "M" "/tmp/report.pdf").2
        = Some ("/tmp/report.pdf", doc)
        /\ texts_at_size 10 12 doc = ["1"; "2024-02-01"; "Food"; "inf"; "lunch"; "M"])
  /\ format_2f infinity = "inf"
  /\ forall (sign : string) (q : Q),
       ~ exists t : string, "inf" = sign +:+ t /\ writes_hundredths q t.
Proof.
  cbv zeta.
  split; [vm_compute; reflexivity|].
  split; [vm_compute; reflexivity|].
  split; [eexists; split; vm_compute; reflexivity|].
  split; [vm_compute; reflexivity|].
  intros sign q (t & Ht & whole & cents & a & b & -> & _).
  assert (In "."%char (list_ascii_of_string "inf")) as Hin.
  { rewrite Ht. clear. induction sign as [|c sign IH]; simpl.
    - induction whole as [|c whole IH]; simpl; auto.
    - auto. }
  simpl in Hin. intuition discriminate.
Qed.

(** Amounts as the form reads them and the report writes them: the value of
    the binary float decides, so 2.675, which is stored as a float just
    below it, is written 2.67; a tie goes to the even hundredth. *)
Example sample_amount_cells :
  (fun text => format_2f <$> Ascii_input.float text)
    <$> ["2.675"; "0.125"; "0.375"; "1,5"; "1_000"; "1e3"; "-0.0"; " 7 "; "0.005"; "nan"]
  = [ Some "2.67"; Some "0.12"; Some "0.38"; None; Some "1000.00"; Some "1000.00";
      Some "-0.00"; Some "7.00"; Some "0.01"; Some "nan" ].
Proof. vm_compute. reflexivity. Qed.

(** C8: the export of a mission with records completes and writes the report
    whatever the state of the receipt files: every record's row is drawn, and
    the images drawn are, in order, those of the records whose image every
    step accepts; a record whose file is missing, or whose file the reader
    or Pillow cannot open, contributes its row and no image. *)
Theorem report_skips_unreadable_images (env : report_env) (d : database)
    (m save_path : string) :
  (exists (i : Z) (g : Fields), expenses d !! i = Some g /\ mission g = Some m) ->
  Py.truthy save_path = true ->
  exists doc : list canvas_op,
    generate env d m save_path
    = (Finished (Some (showinfo "Export Complete"
                         ("PDF saved to:" +:+ String "010" save_path))),
       Some (save_path, doc))
    /\ texts_at_size 10 12 doc
       = concat (imap (fun k r => _persian_text env <$> row_values (N.of_nat (S k)) r)
                   (report_rows d m))
    /\ images_drawn doc = omap (embeddable env) (report_rows d m)
    /\ forall (r : Row) (p : string),
         image_path (cols r) = Some p ->
         (isfile env p = false \/ image_reader env p = false
          \/ (HAS_PIL env = true /\ image_size env p = None)) ->
         embeddable env r = None.
Proof.
  intros (i & g & Hi & Hm) Hpath.
  exists (document env m (report_rows d m)).
  split.
  { apply generate_some; [|exact Hpath]. by apply (report_rows_not_nil d m i g). }
  split; [apply document_texts|].
  split; [apply document_images|].
  intros r p Hp Hbad. unfold embeddable. rewrite Hp.
  destruct Hbad as [-> | [-> | [-> ->]]];
    rewrite ?andb_false_r; reflexivity.
Qed.

Lemma report_skips_unreadable_images_witness :
  let env := Sample.a4 in
  let d := db Sample.with_receipts in
  exists doc : list canvas_op,
    generate env d "M" "/tmp/report.pdf"
    = (Finished (Some (showinfo "Export Complete"
                         ("PDF saved to:" +:+ String "010" "/tmp/report.pdf"))),
       Some ("/tmp/report.pdf", doc))
    /\ texts_at_size 10 12 doc
       = concat (imap (fun k r => _persian_text env <$> row_values (N.of_nat (S k)) r)
                   (report_rows d "M"))
    /\ images_drawn doc = omap (embeddable env) (report_rows d "M")
    /\ forall (r : Row) (p : string),
         image_path (cols r) = Some p ->
         (isfile env p = false \/ image_reader env p = false
          \/ (HAS_PIL env = true /\ image_size env p = None)) ->
         embeddable env r = None.
Proof.
  apply (report_skips_unreadable_images Sample.a4 (db Sample.with_receipts) "M"
           "/tmp/report.pdf").
  - exists 1, (form_values
                 (Sample.receipt "2024-02-01" "10" "M" "/r/small.jpg") 10).
    split; vm_compute; reflexivity.
  - reflexivity.
Defined.

(** The sample report: the rows run from the oldest record to the newest, the
    two of the same day by id, and the receipt whose file is gone is the only
    one left out. *)
Example sample_report :
  id <$> report_rows (db Sample.with_receipts) "M" = [1; 2; 3]
  /\ id <$> list_all (db Sample.with_receipts) = [3; 2; 1]
  /\ exists doc,
       (generate Sample.a4 (db Sample.with_receipts) "M" "/tmp/report.pdf").2
       = Some ("/tmp/report.pdf", doc)
       /\ texts_at_size 10 12 doc
          = [ "1"; "2024-02-01"; "Food"; "10.00"; "lunch"; "M";
              "2"; "2024-02-01"; "Food"; "20.00"; "lunch"; "M";
              "3"; "2024-03-01"; "Food"; "30.00"; "lunch"; "M" ]
       /\ images_drawn doc = ["/r/small.jpg"; "/r/large.jpg"].
Proof.
  split; [vm_compute; reflexivity|]. split; [vm_compute; reflexivity|].
  eexists. split; [vm_compute; reflexivity|].
  split; vm_compute; reflexivity.
Qed.

(** ** The receipt images *)

Section Stamp.

Lemma is_stamp_digits (y1 y2 y3 y4 m1 m2 d1 d2 h1 h2 i1 i2 s1 s2 : ascii) :
  Forall (fun c => is_digit c = true) [y1; y2; y3; y4; m1; m2; d1; d2; h1; h2; i1; i2; s1; s2] ->
  is_stamp (String y1 (String y2 (String y3 (String y4 "")))
            +:+ String m1 (String m2 "") +:+ String d1 (String d2 "") +:+ "_"
            +:+ String h1 (String h2 "") +:+ String i1 (String i2 "")
            +:+ String s1 (String s2 "")) = true.
Proof.
  intros Hall. repeat (apply Forall_cons in Hall as [? Hall]).
  clear Hall. unfold is_stamp. simpl.
  repeat match goal with Hc : _ = true |- _ => rewrite Hc; clear Hc end.
  reflexivity.
Qed.

Lemma strftime_stamp_digits (t : pydatetime) :
  clock_time t -> is_stamp (strftime_stamp t) = true.
Proof.
  intros (Hy & Hm & Hd & Hh & Hmi & Hs). unfold strftime_stamp.
  rewrite (zfill_four_digits _ Hy), !zfill_two_digits by assumption.
  apply is_stamp_digits.
  repeat constructor; apply digit_char_is_digit;
    try (apply N.mod_lt; lia); apply N.Div0.div_lt_upper_bound; lia.
Qed.

Lemma strftime_stamp_same_second (t t' : pydatetime) :
  same_second t t' -> strftime_stamp t = strftime_stamp t'.
Proof. intros (Hon & Hh & Hm & Hs). unfold strftime_stamp. by rewrite Hon, Hh, Hm, Hs. Qed.

Lemma read_four_digits (n : N) :
  (1000 <= n <= 9999)%N -> read_digits (Py.zfill 4 (Py.str n)) = Some n.
Proof.
  intros Hn.
  assert (forallb (fun k =>
            match read_digits (Py.zfill 4 (Py.str k)) with
            | Some r => N.eqb r k
            | None => false
            end) (N.of_nat <$> seq (N.to_nat 1000) (N.to_nat 9000)) = true) as Hall
    by (vm_compute; reflexivity).
  rewrite forallb_forall in Hall. specialize (Hall n).
  destruct (read_digits _) as [r|].
  - f_equal. apply N.eqb_eq, Hall.
    apply in_map_iff. exists (N.to_nat n). split; [lia|]. apply in_seq. lia.
  - exfalso. enough (false = true) by discriminate. apply Hall.
    apply in_map_iff. exists (N.to_nat n). split; [lia|]. apply in_seq. lia.
Qed.

(** The digits of a stamp read back as the date and the time of day it was
    made from, to the second. *)
Lemma stamp_fields_stamp (t : pydatetime) :
  clock_time t -> stamp_fields (strftime_stamp t) = Some (to_the_second t).
Proof.
  intros (Hy & Hm & Hd & Hh & Hmi & Hs).
  pose proof (read_four_digits _ Hy) as Ry.
  destruct (read_two_digits _ Hm) as [Rm _]. destruct (read_two_digits _ Hd) as [Rd _].
  destruct (read_two_digits _ Hh) as [Rh _]. destruct (read_two_digits _ Hmi) as [Rmi _].
  destruct (read_two_digits _ Hs) as [Rs _].
  unfold strftime_stamp, stamp_fields, to_the_second.
  rewrite (zfill_four_digits _ Hy), !zfill_two_digits in * by assumption.
  repeat match goal with
         | |- context [digit_char ?n] =>
             let c := fresh "c" in set (c := digit_char n) in *; clearbody c
         end.
  cbv [String.append]. cbn [mapM substring Nat.sub].
  rewrite Ry, Rm, Rd, Rh, Rmi, Rs. reflexivity.
Qed.

End Stamp.

Section Ingest.
Context {Image : Type} `{Pillow Image}.

(** An ingest whose conversion or encoding raises returns no path, and
    touches no file but the one of its stamp. *)
Lemma save_raises (app_dir : string) (now : pydatetime) (disk : files)
    (image : Image) (failed : option Image) (e : string) :
  ingest_raises image failed e ->
  exists disk' : files,
    _save_image_to_receipts app_dir now disk image = (disk', inr e)
    /\ (failed = None -> disk' = disk)
    /\ forall p : string,
         p <> Py.path_join (receipts_dir app_dir)
                ("receipt_" +:+ strftime_stamp now +:+ ".jpg") ->
         disk' !! p = disk !! p.
Proof.
  unfold ingest_raises, to_encode, _save_image_to_receipts.
  destruct failed as [img|].
  - intros [-> ->]. eexists. split; [reflexivity|]. split; [discriminate|].
    intros p Hp. by apply lookup_partial_alter_ne.
  - intros ->. exists disk. auto.
Qed.

Lemma save_encodes (app_dir : string) (now : pydatetime) (disk : files)
    (image img : Image) (bytes : string) :
  encodes image img bytes ->
  _save_image_to_receipts app_dir now disk image
  = (<[Py.path_join (receipts_dir app_dir)
         ("receipt_" +:+ strftime_stamp now +:+ ".jpg") := bytes]> disk,
     inl (Py.path_join (receipts_dir app_dir)
            ("receipt_" +:+ strftime_stamp now +:+ ".jpg"))).
Proof.
  unfold encodes, to_encode, _save_image_to_receipts. by intros [-> ->].
Qed.

End Ingest.

(** C9, as amended: an ingested image whose conversion and encoding do not
    raise is converted to RGB unless its mode is RGB or L, encoded as JPEG at
    quality 85 and written into the receipts directory under
    [receipt_<stamp>.jpg], where the stamp is the eight digits of the date, an
    underscore and the six digits of the time of day, which read back as the
    clock's date and time to the second; that path is returned and no other
    file changes.  A second such ingest within the same second gets the same
    path and leaves there its own image alone.  An ingest whose conversion or
    encoding raises returns no path and changes no other file. *)
Theorem save_image_to_receipts_path {Image : Type} `{Pillow Image} (app_dir : string)
    (now later : pydatetime) (disk : files) (image image' img img' : Image)
    (bytes bytes' : string) :
  clock_time now -> same_second now later ->
  encodes image img bytes -> encodes image' img' bytes' ->
  let path := Py.path_join (Py.path_join app_dir "receipts")
                ("receipt_" +:+ strftime_stamp now +:+ ".jpg") in
  let first := _save_image_to_receipts app_dir now disk image in
  let second := _save_image_to_receipts app_dir later first.1 image' in
  first = (<[path := bytes]> disk, inl path)
  /\ is_stamp (strftime_stamp now) = true
  /\ stamp_fields (strftime_stamp now) = Some (to_the_second now)
  /\ (mode image = "RGB" \/ mode image = "L" -> img = image)
  /\ (mode image <> "RGB" -> mode image <> "L" -> convert image "RGB" = inl img)
  /\ jpeg img 85 = inl bytes
  /\ second = (<[path := bytes']> disk, inl path)
  /\ forall (other : Image) (failed : option Image) (e : string),
       ingest_raises other failed e ->
       exists disk' : files,
         _save_image_to_receipts app_dir now disk other = (disk', inr e)
         /\ forall p : string, p <> path -> disk' !! p = disk !! p.
Proof.
  intros Hclock Hsame Hfirst Hsecond. cbv zeta.
  rewrite (save_encodes app_dir now disk image img bytes Hfirst). cbn [fst snd].
  rewrite (save_encodes app_dir later _ image' img' bytes' Hsecond).
  rewrite <- (strftime_stamp_same_second now later Hsame).
  split; [reflexivity|].
  split; [by apply strftime_stamp_digits|].
  split; [by apply stamp_fields_stamp|].
  destruct Hfirst as [Hconv Hjpeg].
  split.
  { unfold to_encode in Hconv. intros [Hm | Hm]; rewrite Hm in Hconv;
      rewrite ?orb_true_r in Hconv; simpl in Hconv; congruence. }
  split.
  { unfold to_encode in Hconv. intros H1 H2.
    apply String.eqb_neq in H1, H2. by rewrite H1, H2 in Hconv. }
  split; [exact Hjpeg|].
  split; [by rewrite insert_insert_eq|].
  intros other failed e Hraises.
  destruct (save_raises app_dir now disk other failed e Hraises) as (disk' & Hsave & _ & Hrest).
  exists disk'. split; [exact Hsave|exact Hrest].
Qed.

Lemma save_image_to_receipts_path_witness :
  let path := Py.path_join (Py.path_join "/home/u/app" "receipts")
                ("receipt_" +:+ strftime_stamp Sample.noon +:+ ".jpg") in
  let first := _save_image_to_receipts "/home/u/app" Sample.noon
                 (∅ : files) ("RGBA", Some "first") in
  let second := _save_image_to_receipts "/home/u/app"
                  Sample.noon_later first.1 ("L", Some "second") in
  first = (<[path := "JPEG RGB first"]> (∅ : files), inl path)
  /\ is_stamp (strftime_stamp Sample.noon) = true
  /\ stamp_fields (strftime_stamp Sample.noon) = Some (to_the_second Sample.noon)
  /\ (mode ("RGBA", Some "first") = "RGB" \/ mode ("RGBA", Some "first") = "L" ->
      ("RGB", Some "first") = ("RGBA", Some "first"))
  /\ (mode ("RGBA", Some "first") <> "RGB" -> mode ("RGBA", Some "first") <> "L" ->
      convert ("RGBA", Some "first") "RGB" = inl ("RGB", Some "first"))
  /\ jpeg ("RGB", Some "first") 85 = inl "JPEG RGB first"
  /\ second = (<[path := "JPEG L second"]> (∅ : files), inl path)
  /\ forall (other : string * option string) (failed : option (string * option string))
       (e : string),
       ingest_raises other failed e ->
       exists disk' : files,
         _save_image_to_receipts "/home/u/app" Sample.noon (∅ : files) other
         = (disk', inr e)
         /\ forall p : string, p <> path -> disk' !! p = (∅ : files) !! p.
Proof.
  apply (save_image_to_receipts_path (H := Sample.pictures) "/home/u/app" Sample.noon
           Sample.noon_later (∅ : files) ("RGBA", Some "first") ("L", Some "second")
           ("RGB", Some "first") ("L", Some "second") "JPEG RGB first" "JPEG L second").
  - vm_compute. repeat split; discriminate || reflexivity.
  - repeat split.
  - split; reflexivity.
  - split; reflexivity.
Defined.

(** An image opened from a file that is cut short: the encoder raises when
    it loads the data, so the ingest returns no path and writes no file. *)
Lemma truncated_image_is_not_saved :
  let image : string * option string := ("RGB", None) in
  _save_image_to_receipts "/home/u/app" Sample.noon (∅ : files) image
  = (∅, inr "image file is truncated")
  /\ ~ exists path : string,
         (_save_image_to_receipts "/home/u/app" Sample.noon (∅ : files) image).2
         = inl path.
Proof.
  cbv zeta. split; [vm_compute; reflexivity|].
  intros [path Hpath]. vm_compute in Hpath. discriminate.
Qed.

(** Two ingests in the same second on a sample disk: one file is left, under
    the name of that second, and it holds the second image. *)
Example sample_ingest_twice :
  let first := _save_image_to_receipts "/home/u/app" Sample.noon
                 (∅ : files) ("RGBA", Some "first") in
  let second := _save_image_to_receipts "/home/u/app"
                  Sample.noon_later first.1 ("L", Some "second") in
  first.2 = inl "/home/u/app/receipts/receipt_20240307_120005.jpg"
  /\ map_to_list first.1
     = [("/home/u/app/receipts/receipt_20240307_120005.jpg", "JPEG RGB first")]
  /\ second.2 = first.2
  /\ map_to_list second.1
     = [("/home/u/app/receipts/receipt_20240307_120005.jpg", "JPEG L second")].
Proof. cbv zeta. repeat split; vm_compute; reflexivity. Qed.

(** ** Stripping *)

Section Strip_facts.

Lemma lstrip_id (s : string) : starts_blank s = false -> Py.lstrip s = s.
Proof.
  destruct s as [|c [|c1 [|c2 s3]]]; simpl; [reflexivity| | |].
  - rewrite orb_false_r. by intros ->.
  - rewrite orb_false_r. intros Hs. apply orb_false_iff in Hs as [-> ->]. reflexivity.
  - intros Hs. apply orb_false_iff in Hs as [-> Hs].
    apply orb_false_iff in Hs as [-> ->]. reflexivity.
Qed.

(** What [lstrip] leaves does not start with whitespace. *)
Lemma lstrip_head (s : string) : starts_blank (Py.lstrip s) = false.
Proof.
  induction s as [s IH] using (induction_ltof1 _ String.length).
  unfold ltof in IH.
  destruct s as [|c s1]; [reflexivity|]. simpl.
  destruct (Py.isspace c) eqn:Hc; [apply IH; simpl; lia|].
  destruct s1 as [|c1 s2]; [simpl; by rewrite Hc|].
  destruct (Py.isspace2 c c1) eqn:Hc1; [apply IH; simpl; lia|].
  destruct s2 as [|c2 s3]; [simpl; by rewrite Hc, Hc1|].
  destruct (Py.isspace3 c c1 c2) eqn:Hc2; [apply IH; simpl; lia|].
  simpl. by rewrite Hc, Hc1, Hc2.
Qed.

Lemma lstrip_idempotent (s : string) : Py.lstrip (Py.lstrip s) = Py.lstrip s.
Proof. apply lstrip_id, lstrip_head. Qed.

(** Whitespace in front of a text is stripped with it. *)
Lemma lstrip_app (p w : string) :
  Py.all_blank p = true -> Py.lstrip (p +:+ w) = Py.lstrip w.
Proof.
  unfold Py.all_blank.
  induction p as [p IH] using (induction_ltof1 _ String.length).
  unfold ltof in IH.
  destruct p as [|c p1]; [reflexivity|].
  change (String c p1 +:+ w) with (String c (p1 +:+ w)).
  cbn [Py.lstrip].
  destruct (Py.isspace c) eqn:Hc; [intros Hp; apply IH; [simpl; lia|exact Hp]|].
  destruct p1 as [|c1 p2]; [discriminate|].
  change (String c1 p2 +:+ w) with (String c1 (p2 +:+ w)). cbv beta iota.
  destruct (Py.isspace2 c c1) eqn:Hc1; [intros Hp; apply IH; [simpl; lia|exact Hp]|].
  destruct p2 as [|c2 p3]; [discriminate|].
  change (String c2 p3 +:+ w) with (String c2 (p3 +:+ w)). cbv beta iota.
  destruct (Py.isspace3 c c1 c2) eqn:Hc2; [intros Hp; apply IH; [simpl; lia|exact Hp]|].
  discriminate.
Qed.

Lemma all_blank_app (p w : string) :
  Py.all_blank p = true -> Py.all_blank w = true -> Py.all_blank (p +:+ w) = true.
Proof. intros Hp Hw. unfold Py.all_blank. by rewrite (lstrip_app p w Hp). Qed.

(** What [rstrip] takes away is whitespace. *)
Lemma rstrip_split (s : string) :
  exists w : string, s = Py.rstrip s +:+ w /\ Py.all_blank w = true.
Proof.
  induction s as [|c s IH]; [by exists ""|].
  cbn [Py.rstrip]. destruct (Py.all_blank (String c s)) eqn:Hs.
  - by exists (String c s).
  - destruct IH as (w & Heq & Hw). exists w. split; [|exact Hw].
    change (String c (Py.rstrip s) +:+ w) with (String c (Py.rstrip s +:+ w)).
    by rewrite <- Heq.
Qed.

Lemma rstrip_idempotent (s : string) : Py.rstrip (Py.rstrip s) = Py.rstrip s.
Proof.
  induction s as [|c s IH]; [reflexivity|].
  cbn [Py.rstrip]. destruct (Py.all_blank (String c s)) eqn:Hs; [reflexivity|].
  cbn [Py.rstrip]. rewrite IH.
  destruct (Py.all_blank (String c (Py.rstrip s))) eqn:Hr; [|reflexivity].
  destruct (rstrip_split s) as (w & Heq & Hw).
  pose proof (all_blank_app _ w Hr Hw) as Hall.
  change (String c (Py.rstrip s) +:+ w) with (String c (Py.rstrip s +:+ w)) in Hall.
  rewrite <- Heq in Hall. congruence.
Qed.

(** A text that does not start with whitespace keeps that under [rstrip]. *)
Lemma rstrip_head (s : string) :
  starts_blank s = false -> starts_blank (Py.rstrip s) = false.
Proof.
  intros Hs. destruct (starts_blank (Py.rstrip s)) eqn:Hr; [|reflexivity].
  destruct (rstrip_split s) as (w & Heq & _).
  rewrite Heq in Hs. clear Heq.
  destruct (Py.rstrip s) as [|c [|c1 [|c2 s3]]]; simpl in Hr, Hs.
  - discriminate.
  - rewrite orb_false_r in Hr. by rewrite Hr in Hs.
  - rewrite orb_false_r in Hr. apply orb_true_iff in Hr as [Hr|Hr].
    + by rewrite Hr in Hs.
    + rewrite Hr, orb_true_r in Hs. discriminate.
  - apply orb_true_iff in Hr as [Hr|Hr]; [by rewrite Hr in Hs|].
    apply orb_true_iff in Hr as [Hr|Hr]; rewrite Hr, ?orb_true_r in Hs; discriminate.
Qed.

(** Stripping a second time changes nothing. *)
Lemma strip_idempotent (s : string) : Py.strip (Py.strip s) = Py.strip s.
Proof.
  unfold Py.strip.
  rewrite (lstrip_id (Py.rstrip (Py.lstrip s))) by apply rstrip_head, lstrip_head.
  apply rstrip_idempotent.
Qed.

Lemma no_blank_starts (s : string) : no_blank s = true -> starts_blank s = false.
Proof.
  destruct s as [|c s1]; [reflexivity|]. simpl.
  intros Hs. apply andb_prop in Hs as [Hc _]. apply andb_prop in Hc as [Hc Hascii].
  apply negb_true_iff in Hc. apply N.ltb_lt in Hascii. rewrite Hc. simpl.
  assert (Py.isspace2 c = fun _ => false) as H2.
  { unfold Py.isspace2. cbv zeta.
    replace (N_of_ascii c =? 194)%N with false by (symmetry; apply N.eqb_neq; lia).
    reflexivity. }
  assert (Py.isspace3 c = fun _ _ => false) as H3.
  { unfold Py.isspace3. cbv zeta.
    replace (N_of_ascii c =? 225)%N with false by (symmetry; apply N.eqb_neq; lia).
    replace (N_of_ascii c =? 226)%N with false by (symmetry; apply N.eqb_neq; lia).
    replace (N_of_ascii c =? 227)%N with false by (symmetry; apply N.eqb_neq; lia).
    reflexivity. }
  rewrite H2, H3. destruct s1 as [|c1 [|c2 s3]]; reflexivity.
Qed.

Lemma rstrip_no_blank (s : string) : no_blank s = true -> Py.rstrip s = s.
Proof.
  induction s as [|c s IH]; [reflexivity|].
  intros Hs. cbn [Py.rstrip]. unfold Py.all_blank.
  rewrite (lstrip_id _ (no_blank_starts _ Hs)).
  simpl in Hs. apply andb_prop in Hs as [_ Hs]. by rewrite (IH Hs).
Qed.

(** A text of ASCII characters without blanks is its own stripping. *)
Lemma strip_no_blank (s : string) : no_blank s = true -> Py.strip s = s.
Proof.
  intros Hs. unfold Py.strip.
  rewrite (lstrip_id _ (no_blank_starts _ Hs)). by apply rstrip_no_blank.
Qed.

Lemma no_blank_app (a b : string) :
  no_blank (a +:+ b) = no_blank a && no_blank b.
Proof. induction a as [|c a IH]; simpl; [reflexivity|]. by rewrite IH, andb_assoc. Qed.

Lemma digits_no_blank (s : string) : all_digits s = true -> no_blank s = true.
Proof.
  induction s as [|c s IH]; [reflexivity|]. simpl.
  intros Hs. apply andb_prop in Hs as [Hc Hs]. rewrite (IH Hs), andb_true_r.
  unfold is_digit in Hc. unfold Py.isspace.
  apply andb_prop in Hc as [H1 H2]. apply N.leb_le in H1, H2.
  apply andb_true_iff. split; [|apply N.ltb_lt; lia].
  apply negb_true_iff, orb_false_iff. split; apply andb_false_iff.
  - right. apply N.leb_gt. lia.
  - right. apply N.leb_gt. lia.
Qed.

Lemma zeros_succ (k : nat) :
  String.concat "" (repeat "0" (S k)) = String "0" (String.concat "" (repeat "0" k)).
Proof. destruct k; reflexivity. Qed.

Lemma zfill_digits (width : nat) (s : string) :
  all_digits s = true -> all_digits (Py.zfill width s) = true.
Proof.
  intros Hs. unfold Py.zfill.
  induction (width - String.length s)%nat as [|k IH]; [exact Hs|].
  rewrite zeros_succ. exact IH.
Qed.

Lemma format_date_no_blank (d : pydate) : no_blank (format_date d) = true.
Proof.
  unfold format_date, strftime_Ymd.
  rewrite !no_blank_app.
  rewrite !(digits_no_blank (Py.zfill _ _)) by apply zfill_digits, str_digits.
  reflexivity.
Qed.

End Strip_facts.

(** ** The callbacks, case by case *)

Section Callback_cases.
Context `{Externals}.

(** What validation answers: yes without a message, or no with one of its
    four messages. *)
Lemma validate_form_cases (f : form) :
  _validate_form f = (true, None)
  \/ exists m, _validate_form f = (false, Some m)
               /\ m ∈ [ "Invalid date. Use YYYY-MM-DD."; "Category is required.";
                        "Amount must be a number."; "Amount cannot be negative." ].
Proof.
  unfold _validate_form.
  destruct (parse_date_str _); [|right; eexists; split; [reflexivity|set_solver]].
  destruct (negb _); [right; eexists; split; [reflexivity|set_solver]|].
  destruct (py_float _); [|right; eexists; split; [reflexivity|set_solver]].
  destruct (_ <? _)%float; [right; eexists; split; [reflexivity|set_solver]|].
  by left.
Qed.

(** What a form that passes validation holds. *)
Lemma validate_true_inv (f : form) (err : option string) :
  _validate_form f = (true, err) ->
  is_Some (parse_date_str (date_text (date_input f)))
  /\ Py.strip (category_var f) <> ""
  /\ exists v, py_float (amount_text f) = Some v /\ (v <? 0)%float = false
               /\ _get_form_values f = Some (form_values f v).
Proof.
  unfold _validate_form, _get_form_values. intros Hv.
  destruct (parse_date_str _) as [dt|]; [|discriminate].
  split; [eauto|].
  destruct (Py.strip (category_var f)) as [|c s] eqn:Hc; [discriminate|].
  split; [discriminate|]. simpl in Hv.
  destruct (py_float (amount_text f)) as [v|]; [|discriminate].
  destruct (v <? 0)%float eqn:Hneg; [discriminate|].
  exists v. auto.
Qed.

(** [add_expense] leaves the state as it was (the form is refused, or the
    INSERT raises), or stores the values of the form. *)
Lemma add_expense_cases (a : app) (f : form) :
  (add_expense a f).1 = a
  \/ exists v, _validate_form f = (true, None)
               /\ py_float (amount_text f) = Some v /\ (0 <=? v)%float = true
               /\ ids_left (db a)
               /\ add_expense a f
                  = (opened (Sql.append_row (form_values f v) (db a)).1, Finished None).
Proof.
  destruct (validate_form_cases f) as [Hv|(m & Hv & _)].
  - destruct (validate_true_inv f None Hv) as (_ & _ & v & Hf & Hneg & Hg).
    destruct (Sql.bound_as_null v) eqn:Hnull.
    + left. unfold add_expense. rewrite Hv, Hg. simpl.
      unfold Sql.insert. cbn [amount form_values]. by rewrite Hnull.
    + destruct (decide (ids_left (db a))) as [Hleft|Hfull].
      * right. exists v. repeat split; auto; [by apply leb_zero_iff|].
        by apply add_expense_valid.
      * left. by rewrite (add_expense_full a f v Hv Hg Hfull).
  - left. unfold add_expense. by rewrite Hv.
Qed.

(** [edit_expense] leaves the state as it was (no selection, the form is
    refused, or the UPDATE raises), or rewrites the rows of the selected
    id. *)
Lemma edit_expense_cases (a : app) (f : form) :
  (edit_expense a f).1 = a
  \/ exists sel v, selected_expense_id a = Some sel
                   /\ _validate_form f = (true, None)
                   /\ py_float (amount_text f) = Some v
                   /\ ((0 <=? v)%float = true \/ expenses (db a) !! sel = None)
                   /\ edit_expense a f
                      = (opened (mkdb (Sql.update_where_id (form_values f v) sel
                                         (expenses (db a)))
                                   (sqlite_sequence (db a))), Finished None).
Proof.
  destruct (selected_expense_id a) as [sel|] eqn:Hsel;
    [|left; unfold edit_expense; by rewrite Hsel].
  destruct (validate_form_cases f) as [Hv|(m & Hv & _)].
  - destruct (validate_true_inv f None Hv) as (_ & _ & v & Hf & Hneg & Hg).
    destruct (Sql.bound_as_null v) eqn:Hnull.
    + destruct (expenses (db a) !! sel) as [g|] eqn:Hrow.
      * left. unfold edit_expense. rewrite Hsel, Hv, Hg. simpl.
        unfold Sql.update. cbn [amount form_values]. rewrite Hnull, Hrow.
        by rewrite bool_decide_eq_true_2 by eauto.
      * right. exists sel, v. repeat split; auto.
        unfold edit_expense. rewrite Hsel, Hv, Hg. simpl.
        by rewrite (update_absent _ _ _ Hrow).
    + right. exists sel, v. repeat split; auto; [left; by apply leb_zero_iff|].
      by apply edit_expense_valid.
  - left. unfold edit_expense. by rewrite Hsel, Hv.
Qed.

Lemma delete_expense_cases (a : app) (confirm : bool) :
  (delete_expense a confirm).1 = a
  \/ exists sel, selected_expense_id a = Some sel /\ confirm = true
                 /\ delete_expense a confirm
                    = (opened (mkdb (Sql.delete_where_id sel (expenses (db a)))
                                 (sqlite_sequence (db a))), Finished None).
Proof.
  unfold delete_expense.
  destruct (selected_expense_id a) as [sel|]; [|by left].
  destruct confirm; [|by left]. right. by exists sel.
Qed.

Lemma filter_rows_where (d : database) (from_str to_str : option string)
    (mission_text : string) :
  filter_rows d from_str to_str mission_text
  = List.filter (filter_where from_str to_str (Py.strip mission_text)) (list_all d).
Proof.
  unfold filter_rows, list_all.
  apply (order_by_filter Sql.date_id_desc), date_id_desc_same_id.
Qed.

Lemma update_where_id_present (f g : Fields) (i : Z) (t : gmap Z Fields) :
  t !! i = Some g -> Sql.update_where_id f i t = <[i := f]> t.
Proof.
  intros Hi. apply map_eq. intros k. rewrite update_where_id_lookup.
  destruct (decide (k = i)) as [->|Hne].
  - by rewrite Hi, lookup_insert_eq.
  - by rewrite lookup_insert_ne.
Qed.

Lemma delete_where_id_delete (i : Z) (t : gmap Z Fields) :
  Sql.delete_where_id i t = delete i t.
Proof.
  apply map_eq. intros k. rewrite delete_where_id_lookup.
  destruct (decide (k = i)) as [->|Hne].
  - by rewrite lookup_delete_eq.
  - by rewrite lookup_delete_ne.
Qed.

End Callback_cases.

(** ** Sessions *)

Section Session_facts.
Context `{Externals}.

Lemma run_app (a : app) (es es' : list event) :
  run a (es ++ es') = run (run a es) es'.
Proof. apply fold_left_app. Qed.

Lemma run_invariant (P : app -> Prop) (a : app) (es : list event) :
  (forall a e, P a -> P (step a e)) -> P a -> P (run a es).
Proof.
  intros Hstep. revert a. induction es as [|e es IH]; intros a Ha; [exact Ha|].
  apply IH, Hstep, Ha.
Qed.

Lemma opened_coherent (d : database) : coherent (opened d).
Proof.
  split; [|discriminate]. intros r Hr. by apply list_all_elem_of.
Qed.

Lemma step_coherent (a : app) (e : event) : coherent a -> coherent (step a e).
Proof.
  intros [Htree Hsel]. destruct e as [f|f|confirm| | |from_str to_str m|focus]; simpl.
  - destruct (add_expense_cases a f) as [->|(v & _ & _ & _ & _ & ->)];
      [by split|apply opened_coherent].
  - destruct (edit_expense_cases a f) as [->|(sel & v & _ & _ & _ & _ & ->)];
      [by split|apply opened_coherent].
  - destruct (delete_expense_cases a confirm) as [->|(sel & _ & _ & ->)];
      [by split|apply opened_coherent].
  - split; [exact Htree|discriminate].
  - split; [|exact Hsel]. intros r Hr. by apply list_all_elem_of.
  - split; [|exact Hsel]. simpl. intros r Hr.
    rewrite filter_rows_where in Hr. apply filter_elem_of in Hr as [Hr _].
    by apply list_all_elem_of.
  - unfold on_tree_double_click. destruct focus as [k|]; [|by split].
    destruct (tree a !! k) as [r|] eqn:Hk; [|by split].
    split; [exact Htree|]. simpl. intros sel [= <-].
    rewrite (Htree r); [eauto|]. by eapply list_elem_of_lookup_2.
Qed.

Lemma insert_numbered (d : database) (f : Fields) :
  well_numbered d ->
  well_numbered (Sql.append_row f d).1
  /\ sqlite_sequence d < sqlite_sequence (Sql.append_row f d).1
  /\ sqlite_sequence (Sql.append_row f d).1 = (Sql.append_row f d).2.
Proof.
  intros Hd. simpl.
  assert (0 <= Sql.max_rowid (expenses d)) as Hmax.
  { unfold Sql.max_rowid. induction ((map_to_list (expenses d)).*1); simpl; lia. }
  unfold Sql.largest_used.
  split; [|split; [lia|reflexivity]].
  intros i g. simpl. destruct (decide (i = Z.max (sqlite_sequence d)
                                            (Sql.max_rowid (expenses d)) + 1)) as [->|Hne].
  - intros _. lia.
  - rewrite lookup_insert_ne by congruence. intros Hi. apply Hd in Hi. lia.
Qed.

Lemma step_numbered (a : app) (e : event) :
  well_numbered (db a) ->
  well_numbered (db (step a e))
  /\ sqlite_sequence (db a) <= sqlite_sequence (db (step a e)).
Proof.
  intros Hd. destruct e as [f|f|confirm| | |from_str to_str m|focus]; simpl;
    try (split; [exact Hd|lia]).
  - destruct (add_expense_cases a f) as [->|(v & _ & _ & _ & _ & ->)];
      [split; [exact Hd|lia]|].
    destruct (insert_numbered (db a) (form_values f v) Hd) as (Hn & Hlt & _).
    split; [exact Hn|]. cbn [fst opened db]. lia.
  - destruct (edit_expense_cases a f) as [->|(sel & v & _ & _ & _ & _ & ->)];
      [split; [exact Hd|lia]|].
    cbn [fst opened db sqlite_sequence]. split; [|lia].
    intros i g. cbn [expenses sqlite_sequence]. rewrite update_where_id_lookup.
    destruct (decide (i = sel)) as [->|_]; [|apply Hd].
    destruct (expenses (db a) !! sel) as [g'|] eqn:Hg; [|discriminate].
    intros _. by apply (Hd sel g').
  - destruct (delete_expense_cases a confirm) as [->|(sel & _ & _ & ->)];
      [split; [exact Hd|lia]|].
    cbn [fst opened db sqlite_sequence]. split; [|lia].
    intros i g. cbn [expenses sqlite_sequence]. rewrite delete_where_id_lookup.
    destruct (decide (i = sel)); [discriminate|apply Hd].
  - unfold on_tree_double_click. destruct focus as [k|]; [|split; [exact Hd|lia]].
    destruct (tree a !! k); simpl; split; (exact Hd || lia).
Qed.

Lemma run_numbered (a : app) (es : list event) :
  well_numbered (db a) ->
  well_numbered (db (run a es))
  /\ sqlite_sequence (db a) <= sqlite_sequence (db (run a es)).
Proof.
  revert a. induction es as [|e es IH]; intros a Hd.
  { change (run a []) with a. split; [exact Hd|lia]. }
  destruct (step_numbered a e Hd) as [Hn Hle].
  destruct (IH (step a e) Hn) as [Hn' Hle'].
  change (run a (e :: es)) with (run (step a e) es).
  split; [exact Hn'|lia].
Qed.

End Session_facts.

(** X1: in every state a session reaches, whatever database it was opened on
    and whichever buttons and rows were clicked, every row of the table view
    is a record of the store and the selected id, if there is one, is the id
    of a stored record. *)
Theorem session_coherent `{Externals} (d : database) (events : list event) :
  let a := run (opened d) events in
  (forall r : Row, r ∈ tree a -> expenses (db a) !! id r = Some (cols r))
  /\ (forall sel : Z, selected_expense_id a = Some sel -> is_Some (expenses (db a) !! sel)).
Proof.
  apply (run_invariant coherent); [apply step_coherent|apply opened_coherent].
Qed.

(** X2: ids are not reused.  On a store whose ids are positive and at most
    the counter of the id column, take any id stored at some moment of a
    session; at any later moment at which a row id is left, a valid new
    expense gets an id above it, which no record has, and is stored under
    that id. *)
Theorem ids_never_reused `{Externals} (d : database) (before after : list event)
    (i : Z) (f : form) (v : float) :
  well_numbered d ->
  is_Some (expenses (db (run (opened d) before)) !! i) ->
  is_Some (parse_date_str (date_text (date_input f))) ->
  Py.strip (category_var f) <> "" ->
  py_float (amount_text f) = Some v -> (0 <=? v)%float = true ->
  ids_left (db (run (run (opened d) before) after)) ->
  let a := run (run (opened d) before) after in
  exists new_id : Z,
    i < new_id <= Sql.max_id
    /\ expenses (db a) !! new_id = None
    /\ expenses (db (add_expense a f).1) !! new_id = Some (form_values f v)
    /\ well_numbered (db (add_expense a f).1).
Proof.
  intros Hd [g Hi] Hdate Hcat Hv Hpos Hleft. cbv zeta.
  set (a0 := run (opened d) before). set (a := run a0 after).
  destruct (run_numbered (opened d) before Hd) as [H0 _]. fold a0 in H0.
  destruct (run_numbered a0 after H0) as [Ha Hle]. fold a in Ha, Hle.
  destruct (validate_ok f v Hdate Hcat Hv Hpos) as [Hval Hget].
  fold a0 in Hleft. fold a in Hleft.
  rewrite (add_expense_valid a f v Hval Hget (leb_zero_not_null v Hpos) Hleft).
  cbn [fst db].
  destruct (insert_numbered (db a) (form_values f v) Ha) as (Hn & Hlt & Heq).
  exists (Sql.append_row (form_values f v) (db a)).2.
  split; [|split; [apply insert_fresh|split; [|exact Hn]]].
  - apply (H0 i g) in Hi. fold a0 in Hi.
    unfold ids_left, Sql.largest_used in Hleft.
    cbn [Sql.append_row snd]. unfold Sql.largest_used. lia.
  - cbn [Sql.append_row fst snd expenses]. apply lookup_insert_eq.
Qed.

Lemma ids_never_reused_witness :
  let d := Session_sample.empty_store in
  let f := Sample.entry "2024-03-05" "Food" "42.25" "Alpha" in
  let a := run (H := Ascii_input.externals)
             (run (H := Ascii_input.externals) (opened d) Session_sample.two_added)
             Session_sample.top_deleted in
  exists new_id : Z,
    2 < new_id <= Sql.max_id
    /\ expenses (db a) !! new_id = None
    /\ expenses (db (add_expense (H := Ascii_input.externals) a f).1) !! new_id
       = Some (form_values f 42.25)
    /\ well_numbered (db (add_expense (H := Ascii_input.externals) a f).1).
Proof.
  apply (ids_never_reused (H := Ascii_input.externals) Session_sample.empty_store
           Session_sample.two_added Session_sample.top_deleted 2
           (Sample.entry "2024-03-05" "Food" "42.25" "Alpha") 42.25).
  - intros i g Hi. cbn [Session_sample.empty_store expenses] in Hi.
    rewrite lookup_empty in Hi. discriminate.
  - vm_compute. eexists. reflexivity.
  - vm_compute. eexists. reflexivity.
  - vm_compute. discriminate.
  - vm_compute. reflexivity.
  - vm_compute. reflexivity.
  - vm_compute. reflexivity.
Defined.

(** The sample session: the second expense is deleted, the third gets id 3. *)
Example sample_session_ids :
  let a := run (H := Ascii_input.externals)
             (opened Session_sample.empty_store)
             (Session_sample.two_added ++ Session_sample.top_deleted
              ++ [Add (Sample.entry "2024-03-05" "Food" "42.25" "Alpha")]) in
  id <$> tree a = [3; 1] /\ sqlite_sequence (db a) = 3.
Proof. split; vm_compute; reflexivity. Qed.

Section Written_facts.
Context `{Externals}.

Lemma attached_image_not_empty (f : form) : attached_image f <> Some "".
Proof.
  unfold attached_image.
  destruct (current_image_path f) as [[|c s]|]; simpl; try discriminate;
    destruct (Py.strip (image_path_var f)); simpl; discriminate.
Qed.

Lemma date_text_stripped (w : date_widget) : Py.strip (date_text w) = date_text w.
Proof.
  destruct w as [d|text]; simpl.
  - apply strip_no_blank, format_date_no_blank.
  - apply strip_idempotent.
Qed.

Lemma form_values_written (f : form) (v : float) :
  _validate_form f = (true, None) -> (0 <=? v)%float = true ->
  form_written (form_values f v).
Proof.
  intros Hval Hpos.
  destruct (validate_true_inv f None Hval) as (Hd & Hc & _).
  unfold form_written. cbn [form_values date category amount description mission image_path].
  split; [exact Hd|]. split; [apply date_text_stripped|].
  split; [exact Hc|]. split; [apply strip_idempotent|]. split; [exact Hpos|].
  split; [eexists; split; [reflexivity|apply strip_idempotent]|].
  split; [eexists; split; [reflexivity|apply strip_idempotent]|].
  apply attached_image_not_empty.
Qed.

Lemma step_written (a : app) (e : event) :
  (forall i g, expenses (db a) !! i = Some g -> form_written g) ->
  forall i g, expenses (db (step a e)) !! i = Some g -> form_written g.
Proof.
  intros Hd. destruct e as [f|f|confirm| | |from_str to_str m|focus]; simpl;
    try exact Hd.
  - destruct (add_expense_cases a f) as [->|(v & Hval & Hv & Hpos & _ & ->)];
      [exact Hd|].
    cbn [fst opened db Sql.append_row expenses]. intros i g.
    destruct (decide (i = Sql.largest_used (db a) + 1)) as [->|Hne].
    + rewrite lookup_insert_eq. intros [= <-]. by apply form_values_written.
    + rewrite lookup_insert_ne by congruence. apply Hd.
  - destruct (edit_expense_cases a f) as [->|(sel & v & _ & Hval & Hv & Hpos & ->)];
      [exact Hd|].
    cbn [fst opened db expenses]. intros i g. rewrite update_where_id_lookup.
    destruct (decide (i = sel)) as [->|_]; [|apply Hd].
    destruct (expenses (db a) !! sel) eqn:Hrow; [|discriminate].
    destruct Hpos as [Hpos|Habsent]; [|discriminate].
    intros [= <-]. by apply form_values_written.
  - destruct (delete_expense_cases a confirm) as [->|(sel & _ & _ & ->)]; [exact Hd|].
    cbn [fst opened db expenses]. intros i g. rewrite delete_where_id_lookup.
    destruct (decide (i = sel)); [discriminate|apply Hd].
  - unfold on_tree_double_click. destruct focus as [k|]; [|exact Hd].
    destruct (tree a !! k); exact Hd.
Qed.

End Written_facts.

(** X3: what the callbacks write is well formed.  If every record of the
    store it is opened on has a date that parses, a non-empty category, a
    non-negative amount, a description and a mission that are set, texts
    without blanks around them and no empty image path, then so has every
    record of the store at every moment of the session. *)
Theorem stored_records_well_formed `{Externals} (d : database) (events : list event) :
  (forall (i : Z) (g : Fields), expenses d !! i = Some g -> form_written g) ->
  forall (i : Z) (g : Fields),
    expenses (db (run (opened d) events)) !! i = Some g -> form_written g.
Proof.
  intros Hd.
  apply (run_invariant (fun a => forall i g, expenses (db a) !! i = Some g -> form_written g));
    [apply step_written|exact Hd].
Qed.

Lemma stored_records_well_formed_witness :
  form_written (H := Ascii_input.externals)
    (form_values (Sample.entry "2024-01-01" "Food" "12.50" "Alpha") 12.50).
Proof.
  apply (stored_records_well_formed (H := Ascii_input.externals)
           Session_sample.empty_store
           (Session_sample.two_added ++ Session_sample.top_deleted) ltac:(
             intros i g Hi; cbn [Session_sample.empty_store expenses] in Hi;
             rewrite lookup_empty in Hi; discriminate) 1).
  vm_compute. reflexivity.
Defined.

(** ** Update, delete and rejected forms *)

Section Remove_facts.

Lemma select_all_delete (sel : Z) (t : gmap Z Fields) :
  Sql.select_all (delete sel t)
  ≡ₚ List.filter (fun r => negb (id r =? sel)) (Sql.select_all t).
Proof.
  apply NoDup_Permutation.
  - apply NoDup_map_to_list.
  - apply (NoDup_fmap_1 fst), filter_ids_nodup, select_all_ids_nodup.
  - intros [k g]. rewrite filter_elem_of. unfold Sql.select_all.
    rewrite !elem_of_map_to_list. cbn [id fst].
    rewrite negb_true_iff, Z.eqb_neq.
    destruct (decide (k = sel)) as [->|Hne].
    + rewrite lookup_delete_eq. split; [discriminate|tauto].
    + rewrite lookup_delete_ne by congruence. tauto.
Qed.

Lemma list_all_delete (d : database) (sel : Z) :
  list_all (mkdb (delete sel (expenses d)) (sqlite_sequence d))
  = List.filter (fun r => negb (id r =? sel)) (list_all d).
Proof.
  apply (sorted_rows_unique Sql.date_id_desc).
  - apply date_id_desc_same_id.
  - apply list_all_ids_nodup.
  - apply order_by_sorted; apply _.
  - apply filter_strongly_sorted, order_by_sorted; apply _.
  - rewrite list_all_perm. cbn [expenses]. rewrite select_all_delete.
    apply filter_perm. symmetry. apply list_all_perm.
Qed.

End Remove_facts.

(** X4: an update of a stored record with a valid form replaces its fields
    by those of the form, under the same id; every other record is
    unchanged, no record appears or disappears, the counter of ids is
    unchanged, the selection is cleared and the view reloaded. *)
Theorem edit_expense_replaces `{Externals} (a : app) (f : form) (sel : Z) (v : float) :
  selected_expense_id a = Some sel ->
  is_Some (expenses (db a) !! sel) ->
  is_Some (parse_date_str (date_text (date_input f))) ->
  Py.strip (category_var f) <> "" ->
  py_float (amount_text f) = Some v -> (0 <=? v)%float = true ->
  let a' := (edit_expense a f).1 in
  (edit_expense a f).2 = Finished None
  /\ expenses (db a') !! sel = Some (form_values f v)
  /\ (forall k : Z, k <> sel -> expenses (db a') !! k = expenses (db a) !! k)
  /\ (forall k : Z, is_Some (expenses (db a') !! k) <-> is_Some (expenses (db a) !! k))
  /\ length (list_all (db a')) = length (list_all (db a))
  /\ sqlite_sequence (db a') = sqlite_sequence (db a)
  /\ selected_expense_id a' = None
  /\ tree a' = list_all (db a').
Proof.
  intros Hsel [g Hg] Hd Hc Hv Hpos. cbv zeta.
  destruct (validate_ok f v Hd Hc Hv Hpos) as [Hval Hget].
  rewrite (edit_expense_valid a f v sel Hsel Hval Hget (leb_zero_not_null v Hpos)).
  cbn [fst snd db expenses].
  rewrite (update_where_id_present _ g _ _ Hg).
  split; [reflexivity|]. split; [apply lookup_insert_eq|].
  split; [intros k Hk; by apply lookup_insert_ne|].
  split.
  { intros k. destruct (decide (k = sel)) as [->|Hne].
    - rewrite lookup_insert_eq, Hg. split; eauto.
    - by rewrite lookup_insert_ne. }
  split; [|auto].
  rewrite !list_all_perm. unfold Sql.select_all. cbn [expenses].
  rewrite !length_map_to_list. apply map_size_insert_Some. eauto.
Qed.

Lemma edit_expense_replaces_witness :
  let a := Session_sample.second_selected in
  let f := Sample.entry "2024-03-05" "Snapp" "8" "Beta" in
  let a' := (edit_expense (H := Ascii_input.externals) a f).1 in
  (edit_expense (H := Ascii_input.externals) a f).2 = Finished None
  /\ expenses (db a') !! 2 = Some (form_values f 8)
  /\ (forall k : Z, k <> 2 -> expenses (db a') !! k = expenses (db a) !! k)
  /\ (forall k : Z, is_Some (expenses (db a') !! k) <-> is_Some (expenses (db a) !! k))
  /\ length (list_all (db a')) = length (list_all (db a))
  /\ sqlite_sequence (db a') = sqlite_sequence (db a)
  /\ selected_expense_id a' = None
  /\ tree a' = list_all (db a').
Proof.
  apply (edit_expense_replaces (H := Ascii_input.externals) Session_sample.second_selected
           (Sample.entry "2024-03-05" "Snapp" "8" "Beta") 2 8).
  - vm_compute. reflexivity.
  - vm_compute. eexists. reflexivity.
  - vm_compute. eexists. reflexivity.
  - vm_compute. discriminate.
  - vm_compute. reflexivity.
  - vm_compute. reflexivity.
Defined.

(** X5: a confirmed delete of a stored record removes that record and no
    other: the listing afterwards is the listing before without the row of
    that id, in the same order; the counter of ids is unchanged; the
    selection is cleared.  A delete that is not confirmed changes nothing. *)
Theorem delete_expense_removes (a : app) (sel : Z) :
  selected_expense_id a = Some sel ->
  is_Some (expenses (db a) !! sel) ->
  let a' := (delete_expense a true).1 in
  (delete_expense a true).2 = Finished None
  /\ expenses (db a') !! sel = None
  /\ (forall k : Z, k <> sel -> expenses (db a') !! k = expenses (db a) !! k)
  /\ list_all (db a') = List.filter (fun r => negb (id r =? sel)) (list_all (db a))
  /\ S (length (list_all (db a'))) = length (list_all (db a))
  /\ sqlite_sequence (db a') = sqlite_sequence (db a)
  /\ selected_expense_id a' = None
  /\ tree a' = list_all (db a')
  /\ delete_expense a false = (a, Returned None).
Proof.
  intros Hsel [g Hg]. cbv zeta. unfold delete_expense. rewrite Hsel.
  cbn [negb fst snd db load_expenses clear_form selected_expense_id tree expenses
       sqlite_sequence].
  rewrite delete_where_id_delete.
  split; [reflexivity|]. split; [apply lookup_delete_eq|].
  split; [intros k Hk; by apply lookup_delete_ne|].
  split; [apply list_all_delete|].
  split; [|auto].
  rewrite !list_all_perm. unfold Sql.select_all. cbn [expenses].
  rewrite !length_map_to_list. rewrite (map_size_delete sel), Hg.
  pose proof (map_size_non_empty_iff (expenses (db a))) as Hne.
  destruct (size (expenses (db a))) eqn:Hs; [|reflexivity].
  apply map_size_empty_inv in Hs. rewrite Hs, lookup_empty in Hg. discriminate.
Qed.

Lemma delete_expense_removes_witness :
  let a := Session_sample.second_selected in
  let a' := (delete_expense a true).1 in
  (delete_expense a true).2 = Finished None
  /\ expenses (db a') !! 2 = None
  /\ (forall k : Z, k <> 2 -> expenses (db a') !! k = expenses (db a) !! k)
  /\ list_all (db a') = List.filter (fun r => negb (id r =? 2)) (list_all (db a))
  /\ S (length (list_all (db a'))) = length (list_all (db a))
  /\ sqlite_sequence (db a') = sqlite_sequence (db a)
  /\ selected_expense_id a' = None
  /\ tree a' = list_all (db a')
  /\ delete_expense a false = (a, Returned None).
Proof.
  apply (delete_expense_removes Session_sample.second_selected 2).
  - vm_compute. reflexivity.
  - vm_compute. eexists. reflexivity.
Defined.

(** X6: a form that fails validation changes nothing: add and update leave
    the store, the selection and the view as they were and show the box
    "Validation Error" with one of the four messages of the validation,
    never the stand-in "Invalid input". *)
Theorem invalid_form_changes_nothing `{Externals} (a : app) (f : form) :
  _validate_form f <> (true, None) ->
  exists m : string,
    m ∈ [ "Invalid date. Use YYYY-MM-DD."; "Category is required.";
          "Amount must be a number."; "Amount cannot be negative." ]
    /\ add_expense a f = (a, Returned (Some (showerror "Validation Error" m)))
    /\ (forall sel : Z, selected_expense_id a = Some sel ->
        edit_expense a f = (a, Returned (Some (showerror "Validation Error" m)))).
Proof.
  intros Hbad. destruct (validate_form_cases f) as [Hv|(m & Hv & Hm)]; [done|].
  exists m. split; [exact Hm|].
  assert (Py.or_str (Py.or_empty (Some m)) "Invalid input" = m) as Hmsg.
  { repeat (apply elem_of_cons in Hm as [->|Hm]; [reflexivity|]).
    by apply elem_of_nil in Hm. }
  split.
  - unfold add_expense. rewrite Hv. cbn [negb]. unfold validation_error. by rewrite Hmsg.
  - intros sel Hsel. unfold edit_expense. rewrite Hsel, Hv. cbn [negb].
    unfold validation_error. by rewrite Hmsg.
Qed.

Lemma invalid_form_changes_nothing_witness :
  exists m : string,
    m ∈ [ "Invalid date. Use YYYY-MM-DD."; "Category is required.";
          "Amount must be a number."; "Amount cannot be negative." ]
    /\ add_expense (H := Ascii_input.externals) Session_sample.second_selected
         Session_sample.bad_date
       = (Session_sample.second_selected,
          Returned (Some (showerror "Validation Error" m)))
    /\ (forall sel : Z,
        selected_expense_id Session_sample.second_selected = Some sel ->
        edit_expense (H := Ascii_input.externals) Session_sample.second_selected
          Session_sample.bad_date
        = (Session_sample.second_selected,
           Returned (Some (showerror "Validation Error" m)))).
Proof.
  apply (invalid_form_changes_nothing (H := Ascii_input.externals)
           Session_sample.second_selected Session_sample.bad_date).
  vm_compute. discriminate.
Defined.

(** ** More on the filter *)

Section Filter_facts.

Lemma filter_sublist {A} (f : A -> bool) (l : list A) : List.filter f l `sublist_of` l.
Proof.
  induction l as [|x l IH]; simpl; [constructor|].
  destruct (f x); by constructor.
Qed.

Lemma filter_none {A} (f : A -> bool) (l : list A) :
  (forall x, x ∈ l -> f x = false) -> List.filter f l = [].
Proof.
  induction l as [|x l IH]; intros Hall; simpl; [reflexivity|].
  rewrite (Hall x) by constructor. apply IH. intros y Hy. apply Hall. by constructor.
Qed.

Lemma text_le_trans (a b c : string) :
  Sql.text_le a b = true -> Sql.text_le b c = true -> Sql.text_le a c = true.
Proof.
  unfold Sql.text_le. intros Hab Hbc. apply Is_true_true.
  apply Is_true_true in Hab, Hbc.
  change (String.le a c). by transitivity b.
Qed.

Lemma text_le_antisym (a b : string) :
  Sql.text_le a b = true -> Sql.text_le b a = true -> a = b.
Proof.
  unfold Sql.text_le. intros Hab Hba.
  apply Is_true_true in Hab, Hba. by apply (anti_symm String.le).
Qed.

Lemma text_le_refl (a : string) : Sql.text_le a a = true.
Proof. apply Is_true_true. change (String.le a a). reflexivity. Qed.

Lemma fold_case_underscore (d : ascii) :
  Ascii.eqb (Sql.fold_case "_") (Sql.fold_case d) = true -> d = "_"%char.
Proof.
  destruct d as [[] [] [] [] [] [] [] []]; vm_compute; intros Hd;
    first [reflexivity|discriminate].
Qed.

(** A text that starts [t] up to case also matches as a LIKE pattern followed
    by [%], whatever wildcards it holds. *)
Lemma like_prefix_complete (m t : string) :
  prefix_nocase m t = true -> Sql.like (m +:+ "%") t = true.
Proof.
  revert t. induction m as [|c m IH]; intros t Hm; [apply like_only_percent|].
  destruct t as [|d t]; [discriminate|]. simpl in Hm.
  apply andb_prop in Hm as [Hc Hm]. specialize (IH t Hm).
  change (String c m +:+ "%") with (String c (m +:+ "%")).
  destruct (Ascii.eqb c "%") eqn:H1.
  - apply Ascii.eqb_eq in H1 as ->.
    rewrite like_percent. apply orb_true_iff. right.
    rewrite like_percent, IH. reflexivity.
  - destruct (Ascii.eqb c "_") eqn:H2.
    + apply Ascii.eqb_eq in H2 as ->.
      apply fold_case_underscore in Hc as ->.
      simpl. exact IH.
    + rewrite like_literal by assumption. by rewrite Hc, IH.
Qed.

Lemma like_contains_complete (m t : string) :
  contains_nocase m t = true -> Sql.like ("%" +:+ m +:+ "%") t = true.
Proof.
  change ("%" +:+ m +:+ "%") with (String "%" (m +:+ "%")).
  induction t as [|d t IH]; intros Hm; rewrite like_percent.
  - destruct m; [reflexivity|discriminate].
  - simpl in Hm. apply orb_true_iff in Hm as [Hm|Hm].
    + by rewrite (like_prefix_complete _ _ Hm).
    + rewrite (IH Hm). apply orb_true_r.
Qed.

Lemma in_date_range_where (from_str to_str : option string) (m : string) (r : Row) :
  filter_where from_str to_str m r
  = in_date_range from_str to_str r
    && (if Py.truthy m then Sql.like_null ("%" +:+ m +:+ "%") (mission (cols r)) else true).
Proof.
  unfold filter_where, in_date_range. f_equal. f_equal.
  - destruct from_str as [[|c s]|]; reflexivity.
  - destruct to_str as [[|c s]|]; reflexivity.
Qed.

End Filter_facts.

(** X7: the filter only narrows the view.  For any bounds and any mission
    text, wildcards included, the rows it shows are rows of the full listing
    in the order of the full listing; the store and the selection are as
    before. *)
Theorem filter_expenses_narrows (a : app) (from_str to_str : option string)
    (mission_text : string) :
  let a' := filter_expenses a from_str to_str mission_text in
  db a' = db a
  /\ selected_expense_id a' = selected_expense_id a
  /\ tree a' `sublist_of` list_all (db a)
  /\ tree a' = List.filter (filter_where from_str to_str (Py.strip mission_text))
                 (list_all (db a)).
Proof.
  cbv zeta. unfold filter_expenses. cbn [db selected_expense_id tree].
  rewrite filter_rows_where. repeat split. apply filter_sublist.
Qed.

(** X8: with both bounds given, a from-date after the to-date leaves the
    view empty, and equal bounds with no mission text show exactly the
    records of that date. *)
Theorem filter_rows_date_bounds (d : database) (from_text to_text mission_text : string) :
  Py.truthy from_text = true -> Py.truthy to_text = true ->
  (Sql.text_le from_text to_text = false ->
   filter_rows d (Some from_text) (Some to_text) mission_text = [])
  /\ (from_text = to_text -> Py.truthy (Py.strip mission_text) = false ->
      filter_rows d (Some from_text) (Some to_text) mission_text
      = List.filter (fun r => String.eqb (date (cols r)) from_text) (list_all d)).
Proof.
  intros Hf Ht. split.
  - intros Hgt. rewrite filter_rows_where. apply filter_none. intros r _.
    rewrite in_date_range_where. unfold in_date_range. cbn [Py.truthy_opt Py.or_empty].
    rewrite Hf, Ht.
    destruct (Sql.text_le from_text (date (cols r))) eqn:H1; [|reflexivity].
    destruct (Sql.text_le (date (cols r)) to_text) eqn:H2; [|reflexivity].
    rewrite (text_le_trans _ _ _ H1 H2) in Hgt. discriminate.
  - intros <- Hm. rewrite filter_rows_where. apply filter_ext_elem_of. intros r _.
    rewrite in_date_range_where, Hm, andb_true_r. unfold in_date_range.
    cbn [Py.truthy_opt Py.or_empty]. rewrite Hf.
    destruct (String.eqb (date (cols r)) from_text) eqn:He.
    + apply String.eqb_eq in He as <-. by rewrite text_le_refl.
    + apply String.eqb_neq in He.
      destruct (Sql.text_le from_text (date (cols r))) eqn:H1; [|reflexivity].
      destruct (Sql.text_le (date (cols r)) from_text) eqn:H2; [|reflexivity].
      exfalso. apply He. symmetry. by apply text_le_antisym.
Qed.

Lemma filter_rows_date_bounds_witness :
  let d := db Sample.three in
  (Sql.text_le "2024-02-01" "2024-01-01" = false ->
   filter_rows d (Some "2024-02-01") (Some "2024-01-01") "" = [])
  /\ ("2024-02-01" = "2024-01-01" -> Py.truthy (Py.strip "") = false ->
      filter_rows d (Some "2024-02-01") (Some "2024-01-01") ""
      = List.filter (fun r => String.eqb (date (cols r)) "2024-02-01") (list_all d)).
Proof.
  apply (filter_rows_date_bounds (db Sample.three) "2024-02-01" "2024-01-01" "");
    reflexivity.
Defined.

(** X9: the filter misses no record that holds the mission text.  A record
    of the listing that is within the date bounds and whose mission contains
    the stripped text, up to the case of ASCII letters, is shown, also when
    the text has the characters [%] and [_]. *)
Theorem filter_rows_complete (d : database) (from_str to_str : option string)
    (mission_text t : string) (r : Row) :
  r ∈ list_all d ->
  in_date_range from_str to_str r = true ->
  mission (cols r) = Some t ->
  contains_nocase (Py.strip mission_text) t = true ->
  r ∈ filter_rows d from_str to_str mission_text.
Proof.
  intros Hr Hrange Hm Hc. rewrite filter_rows_where. apply filter_elem_of.
  split; [exact Hr|]. rewrite in_date_range_where, Hrange, Hm. cbn [andb Sql.like_null].
  destruct (Py.truthy _); [|reflexivity]. by apply like_contains_complete.
Qed.

Lemma filter_rows_complete_witness :
  Filter_sample.discounted_row
  ∈ filter_rows Filter_sample.discounted None (Some "2024-01-31") " %_OFF ".
Proof.
  apply (filter_rows_complete Filter_sample.discounted None (Some "2024-01-31") " %_OFF "
           "50%_off trip" Filter_sample.discounted_row).
  - apply list_all_elem_of. vm_compute. reflexivity.
  - reflexivity.
  - reflexivity.
  - reflexivity.
Defined.

Section Filter_dates.
Context `{Externals}.

Lemma truthy_app_cons (a : string) (c : ascii) (b : string) :
  Py.truthy (a +:+ String c b) = true.
Proof. destruct a; reflexivity. Qed.

Lemma format_date_truthy (d : pydate) : Py.truthy (format_date d) = true.
Proof. unfold format_date, strftime_Ymd. apply truthy_app_cons. Qed.

Lemma entry_date_value_some (text v : string) :
  entry_date_value text = Value (Some v) ->
  Py.truthy v = true /\ is_Some (parse_date_str v) /\ v = Py.strip text.
Proof.
  unfold entry_date_value.
  destruct (Py.truthy (Py.strip text)) eqn:Ht; [|discriminate].
  destruct (parse_date_str (Py.strip text)) eqn:Hp; [|discriminate].
  intros [= <-]. eauto.
Qed.

Lemma entry_date_value_blank (text : string) :
  Py.strip text = "" -> entry_date_value text = Value None.
Proof. intros Ht. unfold entry_date_value. by rewrite Ht. Qed.

Lemma entry_date_value_bad (text : string) :
  Py.strip text <> "" -> parse_date_str (Py.strip text) = None ->
  entry_date_value text = Raises.
Proof.
  intros Ht Hp. unfold entry_date_value. rewrite Hp.
  destruct (Py.strip text); [done|reflexivity].
Qed.

End Filter_dates.

(** X10: a date input of the filter gives no bound when it is blank, and a
    bound it gives is never the empty text: it is the stripped text of the
    input, which parses as a date, or for a calendar input whose text is not
    ten characters long the day the calendar reads, written YYYY-MM-DD. *)
Theorem filter_date_value_checked `{Externals} (w : filter_widget) :
  (Py.strip (widget_text w) = "" -> _get_filter_date_value w = Value None)
  /\ forall v : string,
       _get_filter_date_value w = Value (Some v) ->
       Py.truthy v = true
       /\ ((is_Some (parse_date_str v) /\ v = Py.strip (widget_text w))
           \/ exists (text : string) (d : pydate),
                w = FilterDateEntry text (Some d)
                /\ Py_text.len (Py.strip text) <> 10%nat /\ v = format_date d).
Proof.
  split.
  - destruct w as [text gd|text]; simpl; intros Ht.
    + by rewrite Ht.
    + by apply entry_date_value_blank.
  - intros v. destruct w as [text gd|text]; simpl.
    + destruct (Py.truthy (Py.strip text)) eqn:Ht; [|discriminate]. cbn [negb].
      destruct (Nat.eqb (Py_text.len (Py.strip text)) 10) eqn:Hlen.
      * destruct (parse_date_str (Py.strip text)) eqn:Hp.
        -- intros [= <-]. split; [exact Ht|]. left. rewrite Hp. eauto.
        -- intros Hv. apply entry_date_value_some in Hv as (? & ? & ?). auto.
      * destruct gd as [d|].
        -- intros [= <-]. split; [apply format_date_truthy|]. right.
           exists text, d. apply Nat.eqb_neq in Hlen. auto.
        -- intros Hv. apply entry_date_value_some in Hv as (? & ? & ?). auto.
    + intros Hv. apply entry_date_value_some in Hv as (? & ? & ?). auto.
Qed.

(** The calendar input of the sample gives the day it reads, not its text. *)
Example sample_calendar_value :
  _get_filter_date_value (H := Ascii_input.externals) Filter_sample.calendar_day
  = Value (Some "2024-01-02")
  /\ _get_filter_date_value (H := Ascii_input.externals) Filter_sample.blank = Value None.
Proof. split; vm_compute; reflexivity. Qed.

(** X11: a plain date entry of the filter that is not blank and does not
    parse as a date stops the Filter button with an exception, whichever of
    the two inputs it is: the view, the selection and the store stay as they
    were. *)
Theorem filter_clicked_bad_date `{Externals} (a : app) (text : string)
    (other : filter_widget) (mission_text : string) :
  Py.strip text <> "" -> parse_date_str (Py.strip text) = None ->
  filter_clicked a (FilterEntry text) other mission_text = (a, Raised)
  /\ filter_clicked a other (FilterEntry text) mission_text = (a, Raised).
Proof.
  intros Ht Hp. unfold filter_clicked.
  assert (_get_filter_date_value (FilterEntry text) = Raises) as ->
    by (by apply entry_date_value_bad).
  split; [reflexivity|].
  by destruct (_get_filter_date_value other).
Qed.

Lemma filter_clicked_bad_date_witness :
  filter_clicked (H := Ascii_input.externals) Sample.three (FilterEntry " 2024-13-01 ")
    Filter_sample.calendar_day "Alpha" = (Sample.three, Raised)
  /\ filter_clicked (H := Ascii_input.externals) Sample.three Filter_sample.calendar_day
       (FilterEntry " 2024-13-01 ") "Alpha" = (Sample.three, Raised).
Proof.
  apply (filter_clicked_bad_date (H := Ascii_input.externals) Sample.three " 2024-13-01 "
           Filter_sample.calendar_day "Alpha").
  - vm_compute. discriminate.
  - vm_compute. reflexivity.
Defined.

(** ** Attaching a receipt *)

Section Attach_facts.
Context {Image : Type} `{Pillow Image}.
Variable ienv : image_env Image.

Lemma path_join_truthy (a b : string) : Py.truthy b = true -> Py.truthy (Py.path_join a b) = true.
Proof.
  destruct b as [|c b]; [discriminate|]. intros _. unfold Py.path_join.
  assert (Py.truthy match a with
                    | EmptyString => String c b
                    | String _ _ =>
                        if String.eqb (substring (String.length a - 1) 1 a) "/"
                        then a +:+ String c b else a +:+ "/" +:+ String c b
                    end = true) as Hrest.
  { destruct a; [reflexivity|]. destruct (String.eqb _ _); apply truthy_app_cons. }
  destruct c as [[] [] [] [] [] [] [] []]; first [exact Hrest|reflexivity].
Qed.

Lemma receipt_path_truthy (app_dir : string) (now : pydatetime) :
  Py.truthy (receipt_path app_dir now) = true.
Proof. by apply path_join_truthy. Qed.

Lemma attached_image_attach (path : string) (f : form) :
  Py.truthy path = true -> attached_image (attach path f) = Some path.
Proof. intros Hp. unfold attached_image, attach. cbn. by rewrite Hp. Qed.

(** Every ingest either goes through or raises. *)
Lemma ingest_cases (image : Image) :
  (exists (img : Image) (bytes : string), encodes image img bytes)
  \/ exists (failed : option Image) (e : string), ingest_raises image failed e.
Proof.
  unfold encodes, ingest_raises.
  destruct (to_encode image) as [img|e] eqn:Hconv.
  - destruct (jpeg img 85) as [bytes|e] eqn:Hjpeg.
    + left. by exists img, bytes.
    + right. by exists (Some img), e.
  - right. by exists None, e.
Qed.

Lemma save_encodes_path (disk : files) (image img : Image) (bytes : string) :
  encodes image img bytes ->
  _save_image_to_receipts (script_dir ienv) (clock ienv) disk image
  = (<[receipt_path (script_dir ienv) (clock ienv) := bytes]> disk,
     inl (receipt_path (script_dir ienv) (clock ienv))).
Proof. apply save_encodes. Qed.

Lemma save_raises_path (disk : files) (image : Image) (failed : option Image) (e : string) :
  ingest_raises image failed e ->
  exists disk' : files,
    _save_image_to_receipts (script_dir ienv) (clock ienv) disk image = (disk', inr e)
    /\ (failed = None -> disk' = disk)
    /\ same_but_at (receipt_path (script_dir ienv) (clock ienv)) disk disk'.
Proof. apply save_raises. Qed.

End Attach_facts.

(** X12: what the Browse button changes.  Either the form and the disk are
    as before (the dialog was dismissed, Pillow is missing, or the file did
    not open), or the chosen file opened and its ingest raised: then "Image
    Error" is shown, the form is as before and so is every file but the one
    at the receipt path of the current second; or the ingest went through:
    then exactly one file is written, the JPEG of the image at that path, and
    the form holds that path as its image while its other fields are as
    before.  An image that opens and encodes always ends in the last case. *)
Theorem select_image_file_cases {Image : Type} `{Pillow Image} (ienv : image_env Image)
    (filename : string) (f : form) (disk : files) :
  let path := receipt_path (script_dir ienv) (clock ienv) in
  let failed e := Finished (Some (showerror "Image Error"
                                    ("Failed to process image: " +:+ e))) in
  (let '(f', disk', o) := select_image_file ienv filename f disk in
   (f' = f /\ disk' = disk
    /\ (Py.truthy filename = false \/ pil_installed ienv = false
        \/ exists e, image_open ienv filename = inr e /\ o = failed e))
   \/ (exists (image : Image) (stopped : option Image) (e : string),
         Py.truthy filename = true /\ pil_installed ienv = true
         /\ image_open ienv filename = inl image
         /\ ingest_raises image stopped e
         /\ f' = f /\ same_but_at path disk disk' /\ (stopped = None -> disk' = disk)
         /\ o = failed e)
   \/ exists (image img : Image) (bytes : string),
        Py.truthy filename = true /\ pil_installed ienv = true
        /\ image_open ienv filename = inl image
        /\ encodes image img bytes
        /\ disk' = <[path := bytes]> disk
        /\ f' = attach path f
        /\ attached_image f' = Some path
        /\ o = Finished (preview_message ienv path))
  /\ forall (image img : Image) (bytes : string),
       Py.truthy filename = true -> pil_installed ienv = true ->
       image_open ienv filename = inl image -> encodes image img bytes ->
       select_image_file ienv filename f disk
       = (attach path f, <[path := bytes]> disk, Finished (preview_message ienv path)).
Proof.
  cbv zeta. split.
  - unfold select_image_file.
    destruct (Py.truthy filename) eqn:Hname; cbn [negb]; [|left; auto].
    destruct (pil_installed ienv) eqn:Hpil; cbn [negb]; [|left; auto].
    destruct (image_open ienv filename) as [image|e] eqn:Hopen; [|left; eauto 8].
    destruct (ingest_cases image) as [(img & bytes & Hok)|(stopped & e & Hbad)].
    + rewrite (save_encodes_path ienv disk image img bytes Hok). right. right.
      exists image, img, bytes. do 6 (split; [done|]).
      split; [|reflexivity]. apply attached_image_attach, receipt_path_truthy.
    + destruct (save_raises_path ienv disk image stopped e Hbad)
        as (disk' & -> & Hsame & Hrest).
      right. left. exists image, stopped, e. do 7 (split; [done|]). reflexivity.
  - intros image img bytes Hname Hpil Hopen Hok. unfold select_image_file.
    rewrite Hname, Hpil, Hopen. cbn [negb].
    by rewrite (save_encodes_path ienv disk image img bytes Hok).
Qed.

(** X13: what Paste from Clipboard changes.  It takes an image from the
    clipboard when the clipboard holds one, or holds a list of names whose
    first name is a file that opens; the other names of the list are not
    looked at.  When the ingest of that image goes through, the image is
    saved and attached as by the Browse button; when it raises, "Clipboard
    Error" is shown, the form is as before and so is every file but the one
    at the receipt path.  In every other case nothing is written and the
    form is as before. *)
Theorem paste_image_from_clipboard_cases {Image : Type} `{Pillow Image}
    (ienv : image_env Image) (data : clipboard Image) (f : form) (disk : files) :
  let path := receipt_path (script_dir ienv) (clock ienv) in
  let result := paste_image_from_clipboard ienv data f disk in
  (forall (image img : Image) (bytes : string),
     pil_installed ienv = true -> clipboard_image ienv data image ->
     encodes image img bytes ->
     result = (attach path f, <[path := bytes]> disk, Returned (preview_message ienv path))
     /\ attached_image (attach path f) = Some path)
  /\ (forall (image : Image) (stopped : option Image) (e : string),
        pil_installed ienv = true -> clipboard_image ienv data image ->
        ingest_raises image stopped e ->
        exists disk' : files,
          result = (f, disk', Finished (Some (showerror "Clipboard Error"
                                                ("Failed to paste image: " +:+ e))))
          /\ same_but_at path disk disk' /\ (stopped = None -> disk' = disk))
  /\ (pil_installed ienv = false \/ (forall image, ~ clipboard_image ienv data image) ->
      result.1 = (f, disk)
      /\ (pil_installed ienv = true ->
          result.2 = Finished (Some (showinfo "Clipboard" "No image found in clipboard."))
          \/ exists e, result.2 = Finished (Some (showerror "Clipboard Error"
                                                    ("Failed to paste image: " +:+ e))))).
Proof.
  cbv zeta.
  assert (forall image, pil_installed ienv = true -> clipboard_image ienv data image ->
            paste_image_from_clipboard ienv data f disk
            = match _save_image_to_receipts (script_dir ienv) (clock ienv) disk image with
              | (disk', inl saved_path) =>
                  (attach saved_path f, disk', Returned (preview_message ienv saved_path))
              | (disk', inr e) =>
                  (f, disk', Finished (Some (showerror "Clipboard Error"
                                               ("Failed to paste image: " +:+ e))))
              end) as Htaken.
  { intros image Hpil [->|(name & rest & -> & Hfile & Hopen)];
      unfold paste_image_from_clipboard; rewrite Hpil; cbn [negb]; [reflexivity|].
    by rewrite Hfile, Hopen. }
  split; [|split].
  - intros image img bytes Hpil Hdata Hok.
    rewrite (Htaken image Hpil Hdata), (save_encodes_path ienv disk image img bytes Hok).
    split; [reflexivity|]. apply attached_image_attach, receipt_path_truthy.
  - intros image stopped e Hpil Hdata Hbad. rewrite (Htaken image Hpil Hdata).
    destruct (save_raises_path ienv disk image stopped e Hbad) as (disk' & -> & Hsame & Hrest).
    exists disk'. auto.
  - unfold paste_image_from_clipboard, clipboard_image.
    destruct (pil_installed ienv) eqn:Hpil; cbn [negb].
    2: { intros _. split; [reflexivity|discriminate]. }
    intros [Hno|Hnone]; [discriminate|].
    destruct data as [image|[|name rest]| |e].
    + destruct (Hnone image). by left.
    + split; [reflexivity|]. intros _. by left.
    + destruct (on_disk ienv name) eqn:Hfile; [|split; [reflexivity|intros _; by left]].
      destruct (image_open ienv name) as [image|e] eqn:Hopen.
      * destruct (Hnone image). right. by exists name, rest.
      * split; [reflexivity|]. intros _. right. by exists e.
    + split; [reflexivity|]. intros _. by left.
    + split; [reflexivity|]. intros _. right. by exists e.
Qed.

(** The sample desk: a picture on the clipboard is saved and attached, a
    list naming the picture file too, whatever follows it in the list; a
    picture whose data is cut short is reported and leaves the disk and the
    form as they were; a text on the clipboard gives the "No image" box. *)
Example sample_paste :
  let paste data := paste_image_from_clipboard Image_sample.desk data Image_sample.lunch
                      (∅ : files) in
  let saved : form * files * outcome :=
    (attach "/home/u/app/receipts/receipt_20240307_120005.jpg" Image_sample.lunch,
     {[ "/home/u/app/receipts/receipt_20240307_120005.jpg" := "JPEG RGB photo" ]},
     Returned None) in
  paste (ClipImage ("RGBA", Some "photo")) = saved
  /\ paste (ClipFiles ["/home/u/photo.png"; "/home/u/none.png"]) = saved
  /\ paste (ClipFiles ["/home/u/cut.png"])
     = (Image_sample.lunch, ∅,
        Finished (Some (showerror "Clipboard Error"
                          "Failed to paste image: image file is truncated")))
  /\ paste (ClipFiles ["/home/u/none.png"; "/home/u/photo.png"])
     = (Image_sample.lunch, ∅,
        Finished (Some (showinfo "Clipboard" "No image found in clipboard.")))
  /\ paste ClipOther
     = (Image_sample.lunch, ∅,
        Finished (Some (showinfo "Clipboard" "No image found in clipboard."))).
Proof. cbv zeta. repeat split; vm_compute; reflexivity. Qed.

(** X14: a receipt attached with the Browse button, its ingest going
    through, and the expense then added while a row id is left: the stored
    record names as its image the path the image was saved under, and the
    disk holds the JPEG of the image there. *)
Theorem attached_receipt_is_stored {Image : Type} `{Pillow Image} `{Externals}
    (ienv : image_env Image) (filename : string) (image img : Image) (bytes : string)
    (f : form) (disk : files) (a : app) (v : float) :
  Py.truthy filename = true -> pil_installed ienv = true ->
  image_open ienv filename = inl image -> encodes image img bytes ->
  is_Some (parse_date_str (date_text (date_input f))) ->
  Py.strip (category_var f) <> "" ->
  py_float (amount_text f) = Some v -> (0 <=? v)%float = true ->
  ids_left (db a) ->
  let '(f', disk', _) := select_image_file ienv filename f disk in
  exists (new_id : Z) (g : Fields) (path : string),
    expenses (db a) !! new_id = None
    /\ expenses (db (add_expense a f').1) !! new_id = Some g
    /\ g = form_values f' v
    /\ image_path g = Some path
    /\ path = receipt_path (script_dir ienv) (clock ienv)
    /\ disk' !! path = Some bytes
    /\ date g = date_text (date_input f) /\ category g = Py.strip (category_var f)
    /\ amount g = v.
Proof.
  intros Hname Hpil Hopen Hok Hd Hc Hv Hpos Hleft.
  unfold select_image_file. rewrite Hname, Hpil, Hopen. cbn [negb].
  rewrite (save_encodes_path ienv disk image img bytes Hok).
  set (path := receipt_path (script_dir ienv) (clock ienv)).
  assert (Py.truthy path = true) as Hp by apply receipt_path_truthy.
  destruct (validate_ok (attach path f) v Hd Hc Hv Hpos) as [Hval Hget].
  exists (Sql.append_row (form_values (attach path f) v) (db a)).2,
    (form_values (attach path f) v), path.
  rewrite (add_expense_valid a _ v Hval Hget (leb_zero_not_null v Hpos) Hleft).
  split; [apply insert_fresh|].
  split; [cbn [fst snd db opened Sql.append_row expenses]; apply lookup_insert_eq|].
  split; [reflexivity|].
  split; [cbn [form_values image_path]; by apply attached_image_attach|].
  split; [reflexivity|].
  split; [apply lookup_insert_eq|]. auto.
Qed.

Lemma attached_receipt_is_stored_witness :
  let '(f', disk', _) :=
    select_image_file Image_sample.desk "/home/u/photo.png" Image_sample.lunch (∅ : files) in
  exists (new_id : Z) (g : Fields) (path : string),
    expenses (db Sample.three) !! new_id = None
    /\ expenses (db (add_expense (H := Ascii_input.externals) Sample.three f').1) !! new_id
       = Some g
    /\ g = form_values f' 18
    /\ image_path g = Some path
    /\ path = receipt_path (script_dir Image_sample.desk) (clock Image_sample.desk)
    /\ disk' !! path = Some "JPEG RGB photo"
    /\ date g = date_text (date_input Image_sample.lunch)
    /\ category g = Py.strip (category_var Image_sample.lunch)
    /\ amount g = 18%float.
Proof.
  apply (attached_receipt_is_stored (H0 := Ascii_input.externals) Image_sample.desk
           "/home/u/photo.png" ("RGBA", Some "photo") ("RGB", Some "photo")
           "JPEG RGB photo" Image_sample.lunch (∅ : files) Sample.three 18).
  - reflexivity.
  - reflexivity.
  - reflexivity.
  - split; reflexivity.
  - vm_compute. eexists. reflexivity.
  - vm_compute. discriminate.
  - vm_compute. reflexivity.
  - vm_compute. reflexivity.
  - vm_compute. reflexivity.
Defined.

(** The sample: the picture lands in the receipts directory and in the
    record; the file whose data is cut short is reported and changes
    nothing. *)
Example sample_attach_and_add :
  (let '(f', disk', o) :=
     select_image_file Image_sample.desk "/home/u/photo.png" Image_sample.lunch
       (∅ : files) in
   o = Finished None
   /\ map_to_list disk'
      = [("/home/u/app/receipts/receipt_20240307_120005.jpg", "JPEG RGB photo")]
   /\ image_path <$> expenses (db (add_expense (H := Ascii_input.externals)
                                     Sample.three f').1) !! 4
      = Some (Some "/home/u/app/receipts/receipt_20240307_120005.jpg"))
  /\ select_image_file Image_sample.desk "/home/u/cut.png" Image_sample.lunch (∅ : files)
     = (Image_sample.lunch, ∅,
        Finished (Some (showerror "Image Error"
                          "Failed to process image: image file is truncated"))).
Proof. split; vm_compute; repeat split. Qed.

(** ** The layout of the report *)

Section Layout_facts.
Variable env : report_env.
Local Open Scope Q_scope.

Lemma heights_at_size_app (size current : Z) (a b : list canvas_op) :
  heights_at_size size current (a ++ b)
  = heights_at_size size current a ++ heights_at_size size (size_after current a) b.
Proof.
  revert current. induction a as [|c a IH]; intros current; [reflexivity|].
  destruct c; simpl; rewrite ?IH; try reflexivity.
  destruct (current =? size)%Z; reflexivity.
Qed.

Lemma image_boxes_app (a b : list canvas_op) :
  image_boxes (a ++ b) = image_boxes a ++ image_boxes b.
Proof. apply omap_app. Qed.


(** The drawn size of an image with positive sides, on a page at least as
    wide as its margins. *)
Lemma drawn_size_bounds (width height : Z) :
  (0 < width)%Z -> (0 < height)%Z -> 80 <= page_width env ->
  0 <= (drawn_size env width height).1 <= image_max_width env
  /\ 0 <= (drawn_size env width height).2 <= 300.
Proof.
  intros Hw Hh Hpage.
  pose proof (inject_Z_pos width Hw) as HW. pose proof (inject_Z_pos height Hh) as HH.
  assert (0 <= image_max_width env) as Hcw by (unfold image_max_width; lra).
  assert (0 <= image_scale env width height) as Hscale.
  { unfold image_scale.
    destruct (min_cases (image_max_width env / inject_Z width) (300 / inject_Z height))
      as [-> | ->]; apply Qle_shift_div_l; auto; lra. }
  unfold drawn_size. cbn [fst snd]. repeat split.
  - apply Qmult_le_0_compat; [lra|exact Hscale].
  - apply scaled_le, min_le_l. exact HW.
  - apply Qmult_le_0_compat; [lra|exact Hscale].
  - apply scaled_le, min_le_r. exact HH.
Qed.

Hypothesis tall : 460 <= page_height env.
Hypothesis wide : 80 <= page_width env.
Hypothesis sized : positive_sizes env.

Lemma embed_image_layout (title_text sub_text img_path : string) (y : Q) (current : Z) :
  y <= top_of_page env ->
  (embed_image env title_text sub_text y img_path).2 <= top_of_page env
  /\ heights_at_size 10 current (embed_image env title_text sub_text y img_path).1 = []
  /\ Forall (in_body env) (image_boxes (embed_image env title_text sub_text y img_path).1).
Proof.
  intros Hy. unfold embed_image.
  destruct (image_reader env img_path); cbn [negb]; [|by repeat split].
  destruct (if HAS_PIL env then _ else _) as [[w h]|] eqn:Hsize; [|by repeat split].
  destruct ((w =? 0) || (h =? 0))%Z eqn:Hzero; [by repeat split|].
  assert (0 < w /\ 0 < h)%Z as [Hw Hh].
  { destruct (HAS_PIL env); [by apply (sized img_path)|].
    injection Hsize as <- <-. lia. }
  destruct (drawn_size_bounds w h Hw Hh wide) as [[Hw0 Hw1] [Hh0 Hh1]].
  destruct (drawn_size env w h) as [new_w new_h]. cbn [fst snd] in *.
  assert (top_of_page env == page_height env - 100) as Htop by reflexivity.
  unfold image_max_width in Hw1.
  destruct (Qlt_le_dec (y - new_h) 60) as [Hlow|Hok];
    destruct (draw_image env img_path); cbn [fst snd];
    (split; [lra|]); (split; [reflexivity|]);
    cbn [image_boxes omap list_omap new_page List.app];
    try apply Forall_nil_2;
    (apply Forall_cons_2; [|apply Forall_nil_2]);
    unfold in_body; (split; [reflexivity|]); repeat split; lra.
Qed.

Lemma render_record_layout (title_text sub_text : string) (index : N) (y : Q) (r : Row)
    (current : Z) :
  (row_height env) y ->
  (row_height env) (render_record env title_text sub_text index y r).2
  /\ Forall (row_height env)
       (heights_at_size 10 current (render_record env title_text sub_text index y r).1)
  /\ Forall (in_body env) (image_boxes (render_record env title_text sub_text index y r).1).
Proof.
  intros [Hlo Hhi]. unfold render_record.
  assert (top_of_page env == page_height env - 100) as Htop by reflexivity.
  assert (line_height == 16) as Hline by reflexivity.
  assert (exists image y2,
             match image_path (cols r) with
             | Some img_path =>
                 if Py.truthy img_path && isfile env img_path
                 then embed_image env title_text sub_text (y - line_height) img_path
                 else ([], y - line_height)
             | None => ([], y - line_height)
             end = (image, y2)
             /\ y2 <= top_of_page env
             /\ (forall c, heights_at_size 10 c image = [])
             /\ Forall (in_body env) (image_boxes image)) as (image & y2 & -> & Hy2 & Hnone & Hbox).
  { assert (y - line_height <= top_of_page env) as Hy1 by lra.
    destruct (image_path (cols r)) as [p|];
      [destruct (Py.truthy p && isfile env p)|].
    - destruct (embed_image env title_text sub_text (y - line_height) p) as [image y2] eqn:He.
      exists image, y2. split; [reflexivity|].
      split; [|split].
      + pose proof (embed_image_layout title_text sub_text p _ 10 Hy1) as [Hle _].
        by rewrite He in Hle.
      + intros c. pose proof (embed_image_layout title_text sub_text p _ c Hy1) as (_ & Hn & _).
        by rewrite He in Hn.
      + pose proof (embed_image_layout title_text sub_text p _ 10 Hy1) as (_ & _ & Hb).
        by rewrite He in Hb.
    - exists [], (y - line_height). repeat split; auto.
    - exists [], (y - line_height). repeat split; auto. }
  assert (Forall (row_height env)
            (heights_at_size 10 current
               (setFont (font_name env) 10 :: draw_cells env y (row_values index r))))
    as Hrows.
  { cbn. repeat constructor; lra. }
  destruct (Qlt_le_dec y2 60) as [Hbreak|Hstay]; cbn [fst snd];
    rewrite (heights_at_size_app 10 current (setFont _ 10 :: _)), heights_at_size_app,
      Hnone, (image_boxes_app (setFont _ 10 :: _)), image_boxes_app;
    (split; [unfold row_height; lra|]);
    (split; [rewrite app_nil_l; apply Forall_app; split; [exact Hrows|by constructor]|]);
    cbn; rewrite ?app_nil_r; exact Hbox.
Qed.

Lemma render_records_layout (title_text sub_text : string) (rows : list Row) :
  forall (index : N) (y : Q) (current : Z),
    (row_height env) y ->
    Forall (row_height env)
      (heights_at_size 10 current (render_records env title_text sub_text index y rows))
    /\ Forall (in_body env) (image_boxes (render_records env title_text sub_text index y rows)).
Proof.
  induction rows as [|r rows IH]; intros index y current Hy; [split; constructor|].
  cbn [render_records].
  destruct (render_record_layout title_text sub_text index y r current Hy) as (Hy' & Hr & Hb).
  destruct (render_record env title_text sub_text index y r) as [calls y'].
  cbn [fst snd] in *.
  rewrite heights_at_size_app, image_boxes_app.
  destruct (IH (index + 1)%N y' (size_after current calls) Hy') as [Hr' Hb'].
  split; apply Forall_app; auto.
Qed.

Lemma document_layout (mission_name : string) (rows : list Row) :
  Forall (row_height env) (heights_at_size 10 12 (document env mission_name rows))
  /\ Forall (in_body env) (image_boxes (document env mission_name rows)).
Proof.
  unfold document. cbv zeta.
  rewrite !heights_at_size_app, !image_boxes_app.
  assert ((row_height env) (top_of_page env - line_height - 6)) as Hy.
  { unfold row_height, top_of_page, line_height. lra. }
  destruct (render_records_layout
              (_persian_text env ("گزارش هزینه ماموریت: " +:+ mission_name))
              (_persian_text env ("تاریخ تهیه گزارش: " +:+ format_date (today env))) rows 1
              (top_of_page env - line_height - 6)
              (size_after (size_after (size_after 12
                 [setFont (font_name env) 16;
                  drawString 40 (page_height env - 50)
                    (_persian_text env ("گزارش هزینه ماموریت: " +:+ mission_name));
                  setFont (font_name env) 11;
                  drawString 40 (page_height env - 70)
                    (_persian_text env ("تاریخ تهیه گزارش: " +:+ format_date (today env)));
                  setFillColor_black; setFont (font_name env) 12])
                 (draw_cells env (top_of_page env) headers))
                 [line 40 (top_of_page env - line_height + 4) (page_width env - 40)
                    (top_of_page env - line_height + 4)]) Hy) as [Hr Hb].
  split.
  - cbn [heights_at_size draw_cells headers header_positions zip_with List.app Z.eqb Pos.eqb
           size_after fold_left] in *. exact Hr.
  - cbn [image_boxes omap list_omap draw_cells headers header_positions zip_with List.app]
      in *. exact Hb.
Qed.

End Layout_facts.

(** ** Pages, titles and headers *)

Section Page_facts.
Variable env : report_env.







End Page_facts.

Section Export_facts.
Variable env : report_env.

Lemma generate_written (d : database) (mission_name save_path p : string)
    (doc : list canvas_op) :
  (generate env d mission_name save_path).2 = Some (p, doc) ->
  p = save_path /\ doc = document env mission_name (report_rows d mission_name)
  /\ report_rows d mission_name <> [] /\ Py.truthy save_path = true.
Proof.
  unfold generate. destruct (report_rows d mission_name) as [|r rows]; [discriminate|].
  destruct (Py.truthy save_path); [|discriminate].
  cbn [negb snd]. intros [= <- <-]. by repeat split.
Qed.

Lemma export_mission_some (filter_text form_text : string) (prompt : option string)
    (m : string) :
  export_mission filter_text form_text prompt = Some m -> Py.truthy m = true.
Proof.
  unfold export_mission.
  destruct (Py.truthy (Py.or_str _ _)) eqn:Hm; [by intros [= <-]|].
  destruct prompt as [s|]; [|discriminate]. cbn [Py.truthy_opt].
  destruct (Py.truthy s) eqn:Hs; [by intros [= <-]|discriminate].
Qed.

End Export_facts.

(** X15: on a page at least 461 high and 80 wide, with images of positive
    sides, the table keeps above the bottom margin: every row is drawn at a
    height between the bottom margin of 60 and the line under the titles, and
    every image starts at the left margin with its lower edge at or above the
    bottom margin.  Nothing is said of how far a cell or an image reaches to
    the right. *)
Theorem report_stays_in_body (env : report_env) (d : database) (m save_path p : string)
    (doc : list canvas_op) :
  (461 <= page_height env)%Q -> (80 <= page_width env)%Q -> positive_sizes env ->
  (generate env d m save_path).2 = Some (p, doc) ->
  Forall (row_height env) (heights_at_size 10 12 doc)
  /\ Forall above_margin (image_boxes doc).
Proof.
  intros Htall Hwide Hsized Hgen.
  apply generate_written in Hgen as (_ & -> & _).
  assert (460 <= page_height env)%Q as Htall' by lra.
  destruct (document_layout env Htall' Hwide Hsized m (report_rows d m)) as [Hrows Hboxes].
  split; [exact Hrows|].
  eapply Forall_impl; [exact Hboxes|].
  intros [[[x y] w] h] (Hx & Hw & _ & [Hh _] & Hy & _). by repeat split.
Qed.

Lemma report_stays_in_body_witness :
  Forall (row_height Sample.a4)
    (heights_at_size 10 12 (document Sample.a4 "M" (report_rows (db Sample.with_receipts) "M")))
  /\ Forall above_margin
       (image_boxes (document Sample.a4 "M" (report_rows (db Sample.with_receipts) "M"))).
Proof.
  apply (report_stays_in_body Sample.a4 (db Sample.with_receipts) "M" "/tmp/report.pdf"
           "/tmp/report.pdf").
  - vm_compute. discriminate.
  - vm_compute. discriminate.
  - intros q w h. cbn [Sample.a4 image_size].
    destruct (String.eqb q "/r/small.jpg"); intros [= <- <-]; lia.
  - vm_compute. reflexivity.
Defined.



(** X17: when the export writes a file.  A report is written exactly when
    ReportLab is installed, a mission name is settled on, some record has
    exactly that mission and the save dialog gives a path; it is then written
    to that path and the callback ends with "Export Complete".  In every
    other case nothing is written and the callback returns early. *)
Theorem export_pdf_writes_iff (env : report_env) (d : database)
    (filter_text form_text : string) (prompt : option string) (save_path : string) :
  let result := export_pdf env d filter_text form_text prompt save_path in
  (is_Some result.2 <->
   HAS_REPORTLAB env = true
   /\ Py.truthy save_path = true
   /\ exists m : string,
        export_mission filter_text form_text prompt = Some m
        /\ Py.truthy m = true
        /\ exists (i : Z) (g : Fields), expenses d !! i = Some g /\ mission g = Some m)
  /\ (forall (p : string) (doc : list canvas_op),
        result.2 = Some (p, doc) ->
        p = save_path
        /\ result.1 = Finished (Some (showinfo "Export Complete"
                                        ("PDF saved to:" +:+ String "010" save_path))))
  /\ (result.2 = None -> exists shown, result.1 = Returned shown).
Proof.
  cbv zeta. unfold export_pdf.
  destruct (HAS_REPORTLAB env); cbn [negb].
  2: { split; [split; [intros [? ?]; discriminate|intros [? _]; discriminate]|].
       split; [discriminate|eauto]. }
  destruct (export_mission filter_text form_text prompt) as [m|] eqn:Hm.
  2: { split; [split; [intros [? ?]; discriminate|]|].
       - intros (_ & _ & m & ? & _). discriminate.
       - split; [discriminate|eauto]. }
  pose proof (export_mission_some _ _ _ _ Hm) as Htruthy.
  unfold generate.
  destruct (report_rows d m) as [|r rows] eqn:Hrows.
  { split; [split; [intros [? ?]; discriminate|]|].
    - intros (_ & _ & m' & [= <-] & _ & i & g & Hi & Hg). exfalso.
      by apply (report_rows_not_nil d m i g Hi Hg).
    - split; [discriminate|eauto]. }
  destruct (Py.truthy save_path) eqn:Hpath; cbn [negb fst snd].
  - split; [split; [intros _|eauto]|].
    + split; [reflexivity|]. split; [reflexivity|]. exists m.
      split; [reflexivity|]. split; [exact Htruthy|].
      assert (r ∈ report_rows d m) as Hr by (rewrite Hrows; constructor).
      apply report_rows_elem_of in Hr as [Hlook Hmis]. eauto.
    + split; [|discriminate]. intros p doc [= <- _]. auto.
  - split; [split; [intros [? ?]; discriminate|]|].
    + intros (_ & ? & _). discriminate.
    + split; [discriminate|eauto].
Qed.

(** ** Receipts of different seconds *)

Section Stamp_order.

Lemma strftime_stamp_compare (t t' : pydatetime) :
  clock_time t -> clock_time t' ->
  String.compare (strftime_stamp t) (strftime_stamp t')
  = match N.compare (year (on t)) (year (on t')) with
    | Eq => match N.compare (month (on t)) (month (on t')) with
            | Eq => match N.compare (day (on t)) (day (on t')) with
                    | Eq => match N.compare (hour t) (hour t') with
                            | Eq => match N.compare (minute t) (minute t') with
                                    | Eq => N.compare (second t) (second t')
                                    | c => c
                                    end
                            | c => c
                            end
                    | c => c
                    end
            | c => c
            end
    | c => c
    end.
Proof.
  intros ([_ Hy] & Hm & Hd & Hh & Hmi & Hs) ([_ Hy'] & Hm' & Hd' & Hh' & Hmi' & Hs').
  assert (year (on t) < 10000 /\ year (on t') < 10000)%N as [Hy4 Hy4'] by lia.
  unfold strftime_stamp.
  rewrite compare_app by (by rewrite !four_digits_length).
  rewrite four_digits_compare by assumption.
  destruct (N.compare (year (on t)) (year (on t'))); try reflexivity.
  rewrite compare_app by (by rewrite !two_digits_length).
  rewrite two_digits_compare by assumption.
  destruct (N.compare (month (on t)) (month (on t'))); try reflexivity.
  rewrite compare_app by (by rewrite !two_digits_length).
  rewrite two_digits_compare by assumption.
  destruct (N.compare (day (on t)) (day (on t'))); try reflexivity.
  change (String.compare ("_" +:+ ?s) ("_" +:+ ?s')) with (String.compare s s').
  rewrite compare_app by (by rewrite !two_digits_length).
  rewrite two_digits_compare by assumption.
  destruct (N.compare (hour t) (hour t')); try reflexivity.
  rewrite compare_app by (by rewrite !two_digits_length).
  rewrite two_digits_compare by assumption.
  destruct (N.compare (minute t) (minute t')); try reflexivity.
  by apply two_digits_compare.
Qed.

Lemma compare_refl (s : string) : String.compare s s = Eq.
Proof.
  pose proof (String.compare_antisym s s) as Hs.
  destruct (String.compare s s); simpl in Hs; congruence.
Qed.

(** Two clock times with the same stamp are of the same second. *)
Lemma strftime_stamp_inj (t t' : pydatetime) :
  clock_time t -> clock_time t' ->
  strftime_stamp t = strftime_stamp t' -> same_second t t'.
Proof.
  intros Ht Ht' Heq.
  pose proof (strftime_stamp_compare t t' Ht Ht') as Hc.
  rewrite Heq, compare_refl in Hc.
  destruct t as [[y m d] h mi s], t' as [[y' m' d'] h' mi' s']. cbn in *.
  destruct (N.compare_spec y y'); try discriminate.
  destruct (N.compare_spec m m'); try discriminate.
  destruct (N.compare_spec d d'); try discriminate.
  destruct (N.compare_spec h h'); try discriminate.
  destruct (N.compare_spec mi mi'); try discriminate.
  destruct (N.compare_spec s s'); try discriminate.
  unfold same_second. cbn. subst. auto.
Qed.

Lemma stamp_length (t : pydatetime) :
  clock_time t -> String.length (strftime_stamp t) = 15%nat.
Proof.
  intros Ht. apply strftime_stamp_digits in Ht. unfold is_stamp in Ht.
  apply andb_prop in Ht as [Ht _]. apply andb_prop in Ht as [Ht _].
  apply andb_prop in Ht as [Ht _]. by apply Nat.eqb_eq.
Qed.

Lemma app_cancel_r (a a' s : string) :
  String.length a = String.length a' -> a +:+ s = a' +:+ s -> a = a'.
Proof.
  intros Hlen Heq.
  pose proof (compare_app a a' s s Hlen) as Hc.
  rewrite Heq, compare_refl in Hc.
  apply String.compare_eq_iff. destruct (String.compare a a'); congruence.
Qed.

Lemma path_join_inj (a : string) (c : ascii) (b b' : string) :
  c <> "/"%char ->
  Py.path_join a (String c b) = Py.path_join a (String c b') -> b = b'.
Proof.
  intros Hc.
  assert (forall x, Py.path_join a (String c x)
                    = match a with
                      | EmptyString => String c x
                      | String _ _ =>
                          if String.eqb (substring (String.length a - 1) 1 a) "/"
                          then a +:+ String c x else a +:+ "/" +:+ String c x
                      end) as Hjoin.
  { intros x. unfold Py.path_join.
    destruct c as [[] [] [] [] [] [] [] []]; first [reflexivity|congruence]. }
  rewrite !Hjoin. destruct a as [|a0 a]; [congruence|].
  destruct (String.eqb _ _); intros Heq.
  - apply (inj (String.app _)) in Heq. congruence.
  - apply (inj (String.app _)) in Heq. apply (inj (String.app "/")) in Heq. congruence.
Qed.

End Stamp_order.

(** X18: receipts of different seconds do not collide.  Two ingests that
    go through, at clock times that are not of the same second, are saved
    under different paths, and after the second one both files are on the
    disk, each with its own image.  An ingest of that later time that raises
    leaves the earlier receipt as it is. *)
Theorem receipts_of_different_seconds {Image : Type} `{Pillow Image} (app_dir : string)
    (now later : pydatetime) (disk : files) (image image' img img' : Image)
    (bytes bytes' : string) :
  clock_time now -> clock_time later -> ~ same_second now later ->
  encodes image img bytes -> encodes image' img' bytes' ->
  let first := _save_image_to_receipts app_dir now disk image in
  let second := _save_image_to_receipts app_dir later first.1 image' in
  receipt_path app_dir now <> receipt_path app_dir later
  /\ first.2 = inl (receipt_path app_dir now)
  /\ second.2 = inl (receipt_path app_dir later)
  /\ second.1 !! receipt_path app_dir now = Some bytes
  /\ second.1 !! receipt_path app_dir later = Some bytes'
  /\ forall (other : Image) (stopped : option Image) (e : string),
       ingest_raises other stopped e ->
       (_save_image_to_receipts app_dir later first.1 other).2 = inr e
       /\ (_save_image_to_receipts app_dir later first.1 other).1
            !! receipt_path app_dir now = Some bytes.
Proof.
  intros Hnow Hlater Hdiff Hfirst Hsecond. cbv zeta.
  assert (receipt_path app_dir now <> receipt_path app_dir later) as Hne.
  { unfold receipt_path. intros Heq. apply Hdiff, strftime_stamp_inj; auto.
    change ("receipt_" +:+ ?s) with (String "r" ("eceipt_" +:+ s)) in Heq.
    apply path_join_inj in Heq; [|discriminate].
    apply (inj (String.app "eceipt_")) in Heq.
    apply app_cancel_r in Heq; [exact Heq|]. by rewrite !stamp_length. }
  rewrite (save_encodes app_dir now disk image img bytes Hfirst). cbn [fst snd].
  rewrite (save_encodes app_dir later _ image' img' bytes' Hsecond). cbn [fst snd].
  fold (receipt_path app_dir now). fold (receipt_path app_dir later).
  split; [exact Hne|]. split; [reflexivity|]. split; [reflexivity|].
  split; [rewrite lookup_insert_ne by congruence; apply lookup_insert_eq|].
  split; [apply lookup_insert_eq|].
  intros other stopped e Hbad.
  destruct (save_raises app_dir later (<[receipt_path app_dir now := bytes]> disk)
              other stopped e Hbad) as (disk' & -> & _ & Hrest).
  cbn [fst snd]. split; [reflexivity|].
  rewrite Hrest by exact Hne. apply lookup_insert_eq.
Qed.

Lemma receipts_of_different_seconds_witness :
  let first := _save_image_to_receipts "/home/u/app" Sample.noon (∅ : files)
                 ("RGBA", Some "first") in
  let second := _save_image_to_receipts "/home/u/app" Session_sample.one_second_later
                  first.1 ("L", Some "second") in
  receipt_path "/home/u/app" Sample.noon
  <> receipt_path "/home/u/app" Session_sample.one_second_later
  /\ first.2 = inl (receipt_path "/home/u/app" Sample.noon)
  /\ second.2 = inl (receipt_path "/home/u/app" Session_sample.one_second_later)
  /\ second.1 !! receipt_path "/home/u/app" Sample.noon = Some "JPEG RGB first"
  /\ second.1 !! receipt_path "/home/u/app" Session_sample.one_second_later
     = Some "JPEG L second"
  /\ forall (other : string * option string) (stopped : option (string * option string))
       (e : string),
       ingest_raises other stopped e ->
       (_save_image_to_receipts "/home/u/app" Session_sample.one_second_later
          first.1 other).2 = inr e
       /\ (_save_image_to_receipts "/home/u/app" Session_sample.one_second_later
             first.1 other).1 !! receipt_path "/home/u/app" Sample.noon
          = Some "JPEG RGB first".
Proof.
  apply (receipts_of_different_seconds (H := Sample.pictures) "/home/u/app" Sample.noon
           Session_sample.one_second_later (∅ : files) ("RGBA", Some "first")
           ("L", Some "second") ("RGB", Some "first") ("L", Some "second")
           "JPEG RGB first" "JPEG L second").
  - vm_compute. repeat split; discriminate || reflexivity.
  - vm_compute. repeat split; discriminate || reflexivity.
  - intros (_ & _ & _ & Hs). vm_compute in Hs. discriminate.
  - split; reflexivity.
  - split; reflexivity.
Defined.

(** ** The font of the report *)

Section Font_facts.
Variable fe : font_env.

Lemma first_registered_spec (candidates : list string) :
  match first_registered fe candidates with
  | Some c =>
      exists earlier later,
        candidates = earlier ++ c :: later
        /\ font_isfile fe c = true /\ registers fe c = true
        /\ forall e, e ∈ earlier -> font_isfile fe e && registers fe e = false
  | None => forall c, c ∈ candidates -> font_isfile fe c && registers fe c = false
  end.
Proof.
  induction candidates as [|p rest IH]; simpl.
  - intros c Hc. by apply elem_of_nil in Hc.
  - destruct (font_isfile fe p && registers fe p) eqn:Hp.
    + apply andb_prop in Hp as [H1 H2]. exists [], rest. repeat split; auto.
      intros e He. by apply elem_of_nil in He.
    + destruct (first_registered fe rest) as [c|].
      * destruct IH as (earlier & later & -> & H1 & H2 & H3).
        exists (p :: earlier), later. repeat split; auto.
        intros e He. apply elem_of_cons in He as [->|He]; auto.
      * intros c Hc. apply elem_of_cons in Hc as [->|Hc]; auto.
Qed.

Lemma from_archive_registers (names : list string) (path : string) :
  from_archive fe names = Some path -> registers fe path = true.
Proof.
  induction names as [|name rest IH]; simpl; [discriminate|].
  destruct (Py_names.endswith _ _); [|exact IH].
  destruct (extracts fe name); simpl; [|discriminate].
  destruct (registers fe (Py.path_join (fonts_directory fe) name)) eqn:Hr;
    [|discriminate].
  intros Hpath. injection Hpath as <-. exact Hr.
Qed.

End Font_facts.

(** X19: the font of the report.  The local candidates are tried in their
    order of priority and the first that is a file and registers is taken,
    without any use of the network; the download is tried exactly when no
    candidate is both a file and registers.  The name returned is
    "PersianFont" with a file that registered, or "Helvetica" with none. *)
Theorem register_persian_font_order (fe : font_env) :
  let '(name, file, network) := _register_persian_font fe in
  ((name = "PersianFont" /\ exists path, file = Some path /\ registers fe path = true)
   \/ (name = "Helvetica" /\ file = None /\ network = true))
  /\ (network = false <->
      exists c, c ∈ font_candidates fe /\ font_isfile fe c = true /\ registers fe c = true)
  /\ (network = false ->
      exists earlier c later,
        font_candidates fe = earlier ++ c :: later /\ file = Some c
        /\ forall e, e ∈ earlier -> font_isfile fe e && registers fe e = false).
Proof.
  unfold _register_persian_font.
  pose proof (first_registered_spec fe (font_candidates fe)) as Hfirst.
  destruct (first_registered fe (font_candidates fe)) as [c|].
  - destruct Hfirst as (earlier & later & Hc & H1 & H2 & H3).
    split; [left; eauto|]. split.
    + split; [intros _|reflexivity]. exists c. split; [|auto].
      rewrite Hc. apply elem_of_app. right. apply elem_of_cons. by left.
    + intros _. exists earlier, c, later. auto.
  - assert (~ exists c, c ∈ font_candidates fe /\ font_isfile fe c = true
                        /\ registers fe c = true) as Hnone.
    { intros (c & Hc & H1 & H2). specialize (Hfirst c Hc). by rewrite H1, H2 in Hfirst. }
    destruct (downloaded fe) as [path|] eqn:Hd.
    + split; [left; split; [reflexivity|]; exists path; split; [reflexivity|]|].
      * unfold downloaded in Hd. destruct (urlretrieve fe); [|discriminate].
        destruct (zip_names fe) as [names|]; [|discriminate].
        by apply (from_archive_registers fe names).
      * split; [split; [discriminate|intros He; by apply Hnone in He]|discriminate].
    + split; [right; auto|].
      split; [split; [discriminate|intros He; by apply Hnone in He]|discriminate].
Qed.

(** The sample machine: the third candidate is taken, offline. *)
Example sample_font :
  _register_persian_font Font_sample.dejavu_only
  = ("PersianFont", Some "/usr/share/fonts/truetype/dejavu/DejaVuSans.ttf", false).
Proof. vm_compute. reflexivity. Qed.
